(** * AIS port-proximity pipeline: a shallow embedding

    The program under study is [AIS_Analysis/Section1_Yiannis_Modularized.py]:
    it cleans vessel position records, annotates every record with the nearest
    reference port (a k-d tree query), derives four threshold flags, and then
    joins the records against port polygons in fixed-size chunks.

    Conventions of the embedding.
    - A float is a double.  A finite double is kept as the rational number it
      is ([VNum q]); [+inf] and [NaN] are values of their own.  The arithmetic
      of the nearest-neighbour query is IEEE 754 binary64 with rounding to
      nearest even, as the Standard Library specifies it in [SpecFloat]; the
      comparisons the script performs on the result are exact.
    - A [DataFrame] is its ordered column labels and its rows, a row being a
      finite map from column label to cell.  The row labels (the pandas index)
      are not kept: every statement of the script that touches them is
      positional, and the index is reset by the final concatenation.
    - Exceptions are values of [result]; code that mutates a frame in place
      runs in a state monad over a heap of frames.
    - The third-party pieces (pandas, numpy, scipy's cKDTree, geopandas'
      sjoin) are modelled after their documented behaviour.  What the
      documentation leaves to the library is a parameter: which of several
      ports at the same least distance a query answers with, and the geometry
      engine behind the [within] predicate. *)

From Stdlib Require Import QArith Lqa Lia ZArith Reals Qreals.
From Stdlib Require Import Floats.SpecFloat.
From Stdlib Require Lra.
From stdpp Require Import gmap strings list fin_maps.

(** ** Exceptions *)

Inductive exn :=
| KeyError (label : string)
| ValueError (msg : string)
| IndexError (msg : string)
| TypeError (msg : string)
| ReferenceError.

Inductive result (A : Type) :=
| Ok (a : A)
| Raise (e : exn).
Arguments Ok {A} a.
Arguments Raise {A} e.

Definition rbind {A B} (r : result A) (k : A -> result B) : result B :=
  match r with
  | Ok a => k a
  | Raise e => Raise e
  end.

Fixpoint rmapM {A B} (f : A -> result B) (l : list A) : result (list B) :=
  match l with
  | [] => Ok []
  | a :: l' => rbind (f a) (fun b => rbind (rmapM f l') (fun bs => Ok (b :: bs)))
  end.

(** ** Cells *)

Inductive value :=
| VNum (q : Q)                     (* a finite float *)
| VInf                             (* +inf *)
| VNaN                             (* NaN, None: the null cell *)
| VStr (s : string)
| VBool (b : bool)
| VGeom (g : option (Q * Q)).      (* a shapely Point (x, y), or the empty point *)

(** Numeric equality of cells, as [drop_duplicates] sees it: two nulls are
    duplicates of each other. *)
Definition value_eqb (v w : value) : bool :=
  match v, w with
  | VNum a, VNum b => Qeq_bool a b
  | VInf, VInf => true
  | VNaN, VNaN => true
  | VStr s, VStr t => String.eqb s t
  | VBool a, VBool b => Bool.eqb a b
  | VGeom None, VGeom None => true
  | VGeom (Some (x, y)), VGeom (Some (x', y')) => Qeq_bool x x' && Qeq_bool y y'
  | _, _ => false
  end.

(** [v <= x] for a column of floats compared with a number: false on NaN and
    on +inf. *)
Definition value_le (v : value) (x : Q) : bool :=
  match v with
  | VNum a => Qle_bool a x
  | _ => false
  end.

Definition notnull (v : value) : bool :=
  match v with
  | VNaN => false
  | _ => true
  end.

(** ** Double-precision arithmetic

    IEEE 754 binary64, every operation rounded to nearest, ties to even:
    the operations of [SpecFloat] at precision 53 and maximal exponent
    1024. *)

Module Float64.

Definition prec : Z := 53.
Definition emax : Z := 1024.

(** The double nearest to [m * 2 ^ e]. *)
Definition of_binary (m e : Z) : spec_float := binary_normalize prec emax m e false.

(** [Some k] for the number [2 ^ k]. *)
Fixpoint log2_exact (p : positive) : option Z :=
  match p with
  | xH => Some 0%Z
  | xO p' => option_map Z.succ (log2_exact p')
  | xI _ => None
  end.

(** The double a finite cell stands for.  The cell of a float column holds
    a double already, a fraction with a power of two below the line, and
    is taken as it is; any other rational is rounded. *)
Definition of_Q (q : Q) : spec_float :=
  let q := Qred q in
  match log2_exact (Qden q) with
  | Some k => of_binary (Qnum q) (- k)
  | None => SFdiv prec emax (of_binary (Qnum q) 0) (of_binary (Zpos (Qden q)) 0)
  end.

(** The cell a double is written to: a finite double as the rational it is,
    in lowest terms; an infinity here is that of a distance, [+inf]. *)
Definition to_value (f : spec_float) : value :=
  match f with
  | S754_zero _ => VNum 0
  | S754_finite s m e =>
      VNum (Qred (inject_Z (if s then Zneg m else Zpos m) * Qpower 2 e))
  | S754_infinity _ => VInf
  | S754_nan => VNaN
  end.

Definition sub : spec_float -> spec_float -> spec_float := SFsub prec emax.
Definition mul : spec_float -> spec_float -> spec_float := SFmul prec emax.
Definition add : spec_float -> spec_float -> spec_float := SFadd prec emax.
Definition sqrt : spec_float -> spec_float := SFsqrt prec emax.

(** The Euclidean distance of two points of the plane as the library
    computes it: the differences, their squares, the sum and the root, each
    rounded. *)
Definition distance (x p : Q * Q) : value :=
  let dx := sub (of_Q (fst x)) (of_Q (fst p)) in
  let dy := sub (of_Q (snd x)) (of_Q (snd p)) in
  to_value (sqrt (add (mul dx dx) (mul dy dy))).

End Float64.

(** ** The spatial index

    [scipy.spatial.cKDTree(data)] and [query(x, k=1)], by their contract: the
    answer to a query is a data point at the least computed distance, with
    this distance; when no data point is at a finite distance (there is none,
    or every square overflows) the answer is [(inf, n)].  How the library
    lays the points out in its tree is not modelled; it shows in one place
    only, in which of several data points at the same least distance a query
    answers with. *)

Module KDTree.

Definition point := (Q * Q)%type.

Record tree := mkTree { data : list point }.

Definition n (t : tree) : nat := length (data t).

Definition cKDTree (pts : list point) : tree := mkTree pts.

(** The library's own choice among the nearest data points: the position it
    answers with for this data and this query point. *)
Class TieBreak := choice : list point -> point -> nat.

(** No distance of the array is below [a]; an infinite one never is. *)
Definition no_farther (a : Q) (v : value) : bool :=
  match v with
  | VNum b => Qle_bool a b
  | _ => true
  end.

(** Position [i] holds a finite distance, the least of the array. *)
Definition nearest_at (ds : list value) (i : nat) : bool :=
  match nth_error ds i with
  | Some (VNum a) => forallb (no_farther a) ds
  | _ => false
  end.

(** [query(x, k=1)] for one point.  The library's choice is followed when it
    is a nearest data point, as the contract has it. *)
Definition query1 {lib : TieBreak} (t : tree) (x : point) : value * nat :=
  let ds := map (Float64.distance x) (data t) in
  let c := choice (data t) x in
  if nearest_at ds c then (nth c ds VInf, c)
  else match List.find (nearest_at ds) (seq 0 (length ds)) with
       | Some i => (nth i ds VInf, i)
       | None => (VInf, n t)
       end.

(** The nearer of two distances, an infinite one being the farther. *)
Definition closer (v w : value) : value :=
  match v, w with
  | VNum a, VNum b => if Qle_bool a b then v else w
  | VNum _, _ => v
  | _, _ => w
  end.

(** The brute-force minimum of the computed distances. *)
Definition brute_force (pts : list point) (x : point) : value :=
  fold_right closer VInf (map (Float64.distance x) pts).

End KDTree.

(** ** Frames *)

Record DataFrame := mkDF {
  columns : list string;
  rows : list (gmap string value)
}.

Notation "'let?' x ':=' c 'in' k" := (rbind c (fun x => k))
  (at level 10, x pattern, c at level 100, k at level 200).

Definition len (df : DataFrame) : nat := length (rows df).

(** The cell of a row under a label; a missing cell reads as null. *)
Definition cell (c : string) (r : gmap string value) : value :=
  default VNaN (r !! c).

(** [df[c]]: the column as an array. *)
Definition getitem (df : DataFrame) (c : string) : result (list value) :=
  if decide (c ∈ columns df) then Ok (map (cell c) (rows df))
  else Raise (KeyError c).

(** [df[[c1, c2]].to_numpy()]: one pair of cells per row. *)
Definition to_numpy2 (df : DataFrame) (c1 c2 : string) : result (list (value * value)) :=
  let? a := getitem df c1 in
  let? b := getitem df c2 in
  Ok (zip a b).

Definition add_label (cols : list string) (c : string) : list string :=
  if decide (c ∈ cols) then cols else cols ++ [c].

(** [df[c] = vals]: replaces the column where it is, or appends it. *)
Definition setitem (df : DataFrame) (c : string) (vals : list value) : result DataFrame :=
  if (length vals =? len df)%nat then
    Ok (mkDF (add_label (columns df) c)
             (zip_with (fun r v => <[c := v]> r) (rows df) vals))
  else Raise (ValueError "Length of values does not match length of index").

(** [df.loc[mask, cols] = vals]: in the rows selected by the mask, each
    listed column takes the value of the same position. *)
Definition assign_cells (cols : list string) (vals : list value)
           (r : gmap string value) : gmap string value :=
  fold_left (fun r cv => <[fst cv := snd cv]> r) (zip cols vals) r.

Definition loc_setitem (df : DataFrame) (mask : list bool)
           (cols : list string) (vals : list value) : result DataFrame :=
  if (length mask =? len df)%nat then
    Ok (mkDF (fold_left add_label cols (columns df))
             (zip_with (fun r (m : bool) => if m then assign_cells cols vals r else r)
                       (rows df) mask))
  else Raise (IndexError "Boolean index has wrong length").

(** [l[i]] on a Python list or an array. *)
Definition index {A} (l : list A) (i : nat) : result A :=
  match nth_error l i with
  | Some a => Ok a
  | None => Raise (IndexError "index out of bounds")
  end.

(** [np.where(cond, a, b)] with scalar branches. *)
Definition np_where (cond : list bool) (a b : value) : list value :=
  map (fun c : bool => if c then a else b) cond.

(** ** Frames as shared objects

    A frame passed to a function is a reference into a heap of frames; a
    statement that assigns into it updates the heap in place. *)

Abbreviation heap := (gmap nat DataFrame).

Definition M (A : Type) : Type := heap -> result A * heap.

Definition ret {A} (a : A) : M A := fun h => (Ok a, h).

Definition bind {A B} (m : M A) (k : A -> M B) : M B :=
  fun h => match m h with
           | (Ok a, h') => k a h'
           | (Raise e, h') => (Raise e, h')
           end.

Definition lift {A} (r : result A) : M A := fun h => (r, h).

Notation "x <- c ;; k" := (bind c (fun x => k))
  (at level 100, c at next level, right associativity).
Notation "c ;; k" := (bind c (fun _ => k))
  (at level 100, right associativity).

(** Reads through a reference. *)
Definition read {A} (r : nat) (f : DataFrame -> result A) : M A :=
  fun h => match h !! r with
           | Some df => (f df, h)
           | None => (Raise ReferenceError, h)
           end.

(** Updates the object behind a reference in place. *)
Definition update (r : nat) (f : DataFrame -> result DataFrame) : M unit :=
  fun h => match h !! r with
           | Some df => match f df with
                        | Ok df' => (Ok tt, <[r := df']> h)
                        | Raise e => (Raise e, h)
                        end
           | None => (Raise ReferenceError, h)
           end.

(** Allocates a fresh object. *)
Definition alloc (df : DataFrame) : M nat :=
  fun h => let r := fresh (dom h) in (Ok r, <[r := df]> h).

Fixpoint for_each {A} (l : list A) (body : A -> M unit) : M unit :=
  match l with
  | [] => ret tt
  | a :: l' => body a ;; for_each l' body
  end.

(** *** Invariants of code that runs on the heap *)

(** The frame behind [r] has [n] rows. *)
Definition sized (r n : nat) (h : heap) : Prop :=
  exists df, h !! r = Some df /\ len df = n.

Definition keeps {A} (P : heap -> Prop) (m : M A) : Prop :=
  forall h, P h -> P (snd (m h)).

Definition yields {A} (a : A) (m : M A) : Prop :=
  forall h b, fst (m h) = Ok b -> b = a.

(** The frame behind [r] satisfies [Q]. *)
Definition framed (r : nat) (Q : DataFrame -> Prop) (h : heap) : Prop :=
  exists df, h !! r = Some df /\ Q df.

(** ** Float arrays handed to the spatial index

    A coordinate must be a finite float; NaN, inf and text are refused with a
    [ValueError], both when the tree is built and when it is queried. *)

Definition as_float (v : value) : result Q :=
  match v with
  | VNum q => Ok q
  | _ => Raise (ValueError "must be finite, check for nan or inf values")
  end.

Definition as_point (vv : value * value) : result KDTree.point :=
  let? a := as_float (fst vv) in
  let? b := as_float (snd vv) in
  Ok (a, b).

Definition cKDTree (data : list (value * value)) : result KDTree.tree :=
  let? pts := rmapM as_point data in
  Ok (KDTree.cKDTree pts).

(** [tree.query(xs, k=1)]: the arrays of distances and of positions. *)
Definition query {lib : KDTree.TieBreak} (t : KDTree.tree) (xs : list (value * value))
  : result (list value * list nat) :=
  let? pts := rmapM as_point xs in
  Ok (map (fun x => fst (KDTree.query1 t x)) pts,
      map (fun x => snd (KDTree.query1 t x)) pts).

(** ** The nearest-port annotator *)

Definition thresholds : list (Q * string) :=
  zip [1; 3; 5; 10]%Q ["1 km"; "3 km"; "5 km"; "10 km"].

Definition flag_label (label : string) : string :=
  "Less than " +:+ label +:+ " from port".

Definition is_no (v : value) : bool := value_eqb v (VStr "No").

Definition create_proximity_columns {lib : KDTree.TieBreak}
           (ais_raw_data : nat) (port_info : DataFrame) : M nat :=
  (* Prepare data *)
  vessel_coords <- read ais_raw_data (fun df => to_numpy2 df "latitude" "longitude") ;;
  port_coords <- lift (to_numpy2 port_info "Latitude" "Longitude") ;;
  port_names <- lift (getitem port_info "Main Port Name") ;;
  (* Build KD-Tree for efficient nearest neighbor search *)
  port_tree <- lift (cKDTree port_coords) ;;
  found <- lift (query port_tree vessel_coords) ;;
  let '(distances, indices) := found in
  (* Add proximity information *)
  update ais_raw_data (fun df => setitem df "Distance to Nearest Port" distances) ;;
  names <- lift (rmapM (fun i => index port_names i) indices) ;;
  update ais_raw_data (fun df => setitem df "Proximity Port Name" names) ;;
  lats <- lift (rmapM (fun i => let? p := index port_coords i in Ok (fst p)) indices) ;;
  update ais_raw_data (fun df => setitem df "Port Latitude" lats) ;;
  lons <- lift (rmapM (fun i => let? p := index port_coords i in Ok (snd p)) indices) ;;
  update ais_raw_data (fun df => setitem df "Port Longitude" lons) ;;
  (* Add proximity columns with thresholds *)
  for_each thresholds (fun '(dist, label) =>
    col <- read ais_raw_data (fun df => getitem df "Distance to Nearest Port") ;;
    update ais_raw_data (fun df =>
      setitem df (flag_label label)
              (np_where (map (fun v => value_le v dist) col) (VStr "Yes") (VStr "No")))) ;;
  (* Remove port data for vessels not near any port *)
  f1 <- read ais_raw_data (fun df => getitem df "Less than 1 km from port") ;;
  f3 <- read ais_raw_data (fun df => getitem df "Less than 3 km from port") ;;
  f5 <- read ais_raw_data (fun df => getitem df "Less than 5 km from port") ;;
  f10 <- read ais_raw_data (fun df => getitem df "Less than 10 km from port") ;;
  update ais_raw_data (fun df =>
    loc_setitem df
      (zip_with andb (zip_with andb (zip_with andb (map is_no f1) (map is_no f3))
                                    (map is_no f5)) (map is_no f10))
      ["Proximity Port Name"; "Port Latitude"; "Port Longitude"]
      [VStr "No"; VNaN; VNaN]) ;;
  ret ais_raw_data.

(** *** The annotator, row by row

    The same computation, read off one record at a time; the properties of
    the annotator are stated through it. *)

Definition float_of (v : value) : Q :=
  match v with
  | VNum q => q
  | _ => 0%Q
  end.

Definition coords_of (c1 c2 : string) (r : gmap string value) : KDTree.point :=
  (float_of (cell c1 r), float_of (cell c2 r)).

Definition has_coords (c1 c2 : string) (r : gmap string value) : bool :=
  match cell c1 r, cell c2 r with
  | VNum _, VNum _ => true
  | _, _ => false
  end.

Definition port_points (port_info : DataFrame) : list KDTree.point :=
  map (coords_of "Latitude" "Longitude") (rows port_info).

Definition nearest_port {lib : KDTree.TieBreak}
           (port_info : DataFrame) (r : gmap string value) : value * nat :=
  KDTree.query1 (KDTree.cKDTree (port_points port_info)) (coords_of "latitude" "longitude" r).

(** The Euclidean distance in the plane, as a real number. *)
Definition euclidean (p q : KDTree.point) : R :=
  sqrt ((Q2R (fst p) - Q2R (fst q)) * (Q2R (fst p) - Q2R (fst q)) +
        (Q2R (snd p) - Q2R (snd q)) * (Q2R (snd p) - Q2R (snd q)))%R.

(** Some port is at a finite computed distance from the record: the squares
    of the differences do not all overflow. *)
Definition is_finite (v : value) : bool :=
  match v with
  | VNum _ => true
  | _ => false
  end.

Definition within_reach (port_info : DataFrame) (r : gmap string value) : bool :=
  existsb (fun p => is_finite (Float64.distance (coords_of "latitude" "longitude" r) p))
          (port_points port_info).

(** The inputs on which the annotator runs to the end: the coordinate
    columns are there and hold finite floats, there is a port, and every
    record has a port within reach. *)
Definition ready (df port_info : DataFrame) : bool :=
  bool_decide ("latitude" ∈ columns df) && bool_decide ("longitude" ∈ columns df) &&
  forallb (has_coords "latitude" "longitude") (rows df) &&
  bool_decide ("Latitude" ∈ columns port_info) &&
  bool_decide ("Longitude" ∈ columns port_info) &&
  bool_decide ("Main Port Name" ∈ columns port_info) &&
  forallb (has_coords "Latitude" "Longitude") (rows port_info) &&
  negb (len port_info =? 0)%nat &&
  forallb (within_reach port_info) (rows df).

Definition yes_no (b : bool) : value := if b then VStr "Yes" else VStr "No".

Definition with_port {lib : KDTree.TieBreak}
           (port_info : DataFrame) (r : gmap string value) : gmap string value :=
  let d := fst (nearest_port port_info r) in
  let port := nth (snd (nearest_port port_info r)) (rows port_info) ∅ in
  <["Port Longitude" := cell "Longitude" port]>
    (<["Port Latitude" := cell "Latitude" port]>
       (<["Proximity Port Name" := cell "Main Port Name" port]>
          (<["Distance to Nearest Port" := d]> r))).

Definition with_flag (dist : Q) (label : string) (r : gmap string value) : gmap string value :=
  <[flag_label label := yes_no (value_le (cell "Distance to Nearest Port" r) dist)]> r.

Definition with_flags (r : gmap string value) : gmap string value :=
  with_flag 10 "10 km" (with_flag 5 "5 km" (with_flag 3 "3 km" (with_flag 1 "1 km" r))).

Definition flag_of (dist : Q) (r : gmap string value) : value :=
  yes_no (value_le (cell "Distance to Nearest Port" r) dist).

Definition far_from_all (r : gmap string value) : bool :=
  is_no (cell "Less than 1 km from port" r) && is_no (cell "Less than 3 km from port" r) &&
  is_no (cell "Less than 5 km from port" r) && is_no (cell "Less than 10 km from port" r).

Definition annotate_row {lib : KDTree.TieBreak}
           (port_info : DataFrame) (r : gmap string value) : gmap string value :=
  let r' := with_flags (with_port port_info r) in
  if far_from_all r'
  then assign_cells ["Proximity Port Name"; "Port Latitude"; "Port Longitude"]
                    [VStr "No"; VNaN; VNaN] r'
  else r'.

Definition proximity_labels : list string :=
  ["Distance to Nearest Port"; "Proximity Port Name"; "Port Latitude"; "Port Longitude";
   "Less than 1 km from port"; "Less than 3 km from port"; "Less than 5 km from port";
   "Less than 10 km from port"].

Definition annotate {lib : KDTree.TieBreak} (port_info df : DataFrame) : DataFrame :=
  mkDF (fold_left add_label proximity_labels (columns df))
       (map (annotate_row port_info) (rows df)).

(** ** Row-wise pandas operations *)

Definition row_eqb (cols : list string) (r r' : gmap string value) : bool :=
  forallb (fun c => value_eqb (cell c r) (cell c r')) cols.

(** [df.drop_duplicates()]: a row equal on every column to an earlier row is
    dropped; the first occurrence stays, in its place. *)
Fixpoint drop_duplicates_from (cols : list string) (seen rs : list (gmap string value))
  : list (gmap string value) :=
  match rs with
  | [] => []
  | r :: rs' =>
      if existsb (row_eqb cols r) seen then drop_duplicates_from cols seen rs'
      else r :: drop_duplicates_from cols (r :: seen) rs'
  end.

Definition drop_duplicates (df : DataFrame) : DataFrame :=
  mkDF (columns df) (drop_duplicates_from (columns df) [] (rows df)).

(** [range(start, stop, step)], with CPython's length computation. *)
Definition range (start stop step : Z) : result (list Z) :=
  if (step =? 0)%Z then Raise (ValueError "range() arg 3 must not be zero")
  else
    let lo := if (0 <? step)%Z then start else stop in
    let hi := if (0 <? step)%Z then stop else start in
    let count := if (hi <=? lo)%Z then 0%Z else ((hi - lo - 1) / Z.abs step + 1)%Z in
    Ok (map (fun k => (start + Z.of_nat k * step)%Z) (seq 0 (Z.to_nat count))).

(** [df.iloc[i:j]]: a new frame holding the rows of the slice. *)
Definition clip (n k : Z) : nat :=
  Z.to_nat (if (k <? 0)%Z then Z.max 0 (k + n) else Z.min k n).

Definition iloc (df : DataFrame) (i j : Z) : DataFrame :=
  let n := Z.of_nat (len df) in
  mkDF (columns df) (take (clip n j - clip n i) (drop (clip n i) (rows df))).

(** [df.drop(columns=labels)]. *)
Definition drop_columns (df : DataFrame) (labels : list string) : result DataFrame :=
  match List.find (fun c => negb (bool_decide (c ∈ columns df))) labels with
  | Some c => Raise (KeyError c)
  | None =>
      Ok (mkDF (List.filter (fun c => negb (bool_decide (c ∈ labels))) (columns df))
               (map (fun r => fold_left (fun r c => delete c r) labels r) (rows df)))
  end.

(** [pd.concat(objs, ignore_index=True)]: the columns in order of first
    appearance, the rows one frame after the other, a cell absent from a
    frame filled with NaN. *)
Definition reindex (cols : list string) (r : gmap string value) : gmap string value :=
  fold_left (fun r c => match r !! c with
                        | Some _ => r
                        | None => <[c := VNaN]> r
                        end) cols r.

Definition concat (objs : list DataFrame) : result DataFrame :=
  match objs with
  | [] => Raise (ValueError "No objects to concatenate")
  | first :: rest =>
      let cols := fold_left (fun acc df => fold_left add_label (columns df) acc)
                            rest (columns first) in
      Ok (mkDF cols (flat_map (fun df => map (reindex cols) (rows df)) objs))
  end.

(** [df.to_csv(path, index=False)]: the header and one record per row, the
    cells in column order. *)
Definition to_csv (df : DataFrame) : list string * list (list value) :=
  (columns df, map (fun r => map (fun c => cell c r) (columns df)) (rows df)).

(** [gpd.points_from_xy(x, y)] converts the array [x], then the array [y],
    to float64 and builds a point per pair, the empty point where a
    coordinate is not finite.  The conversion takes a boolean as 0 or 1 and
    raises [ValueError] on text (taken not to spell a number) and
    [TypeError] on a geometry. *)
Definition as_float64 (v : value) : result (option Q) :=
  match v with
  | VNum q => Ok (Some q)
  | VBool b => Ok (Some (if b then 1 else 0)%Q)
  | VInf | VNaN => Ok None
  | VStr _ => Raise (ValueError "could not convert string to float")
  | VGeom _ => Raise (TypeError "float() argument must be a string or a real number")
  end.

Definition point (x y : option Q) : value :=
  match x, y with
  | Some a, Some b => VGeom (Some (a, b))
  | _, _ => VGeom None
  end.

Definition points_from_xy (x y : list value) : result (list value) :=
  let? xs := rmapM as_float64 x in
  let? ys := rmapM as_float64 y in
  Ok (zip_with point xs ys).

(** The point of one pair of cells. *)
Definition point_from_xy (xy : value * value) : result value :=
  let? x := as_float64 (fst xy) in
  let? y := as_float64 (snd xy) in
  Ok (point x y).

(** [series.where(cond, other)]. *)
Definition where_ (ser cond : list value) (other : value) : list value :=
  zip_with (fun v c => match c with VBool true => v | _ => other end) ser cond.

(** ** The polygon containment annotator *)

Section Polygons.

(** The geometry engine: the type of polygon boundaries, the predicate
    [within] of a point (x, y) and a polygon, true for a point of the
    interior and false for one on the boundary or outside, and the
    reprojection [to_crs] to EPSG:4326. *)
Variable geometry : Type.
Variable within : Q * Q -> geometry -> bool.
Variable to_crs : geometry -> geometry.

(** Modelled from the spec: the port polygon table that
    [helper_utils.load_port_polygons] returns, a row label, a [port_name]
    and a [polygon] boundary per row. *)
Record PortPolygon := mkPolygon {
  label : Z;
  port_name : value;
  polygon : geometry
}.

Definition set_crs (polygons : list PortPolygon) : list PortPolygon :=
  map (fun p => mkPolygon (label p) (port_name p) (to_crs (polygon p))) polygons.

Definition rename_label (old new : string) (r : gmap string value) : gmap string value :=
  match r !! old with
  | Some v => <[new := v]> (delete old r)
  | None => r
  end.

Definition matches (polygons : list PortPolygon) (r : gmap string value) : list PortPolygon :=
  match cell "geometry" r with
  | VGeom (Some pt) => List.filter (fun p => within pt (polygon p)) polygons
  | _ => []
  end.

(** [gpd.sjoin(left, right, how='left', predicate='within')]: every left
    row once per polygon its point is within, in polygon order, and once
    with null right-hand cells when there is none.  A left column named
    like the right one gets the suffix [_left], the right one [_right]. *)
Definition sjoin (left : DataFrame) (right : list PortPolygon) : result DataFrame :=
  if decide ("index_right" ∈ columns left) then
    Raise (ValueError "'index_right' cannot be a column name in the frames being joined")
  else
    let clash := bool_decide ("port_name" ∈ columns left) in
    let lcols := if clash
                 then map (fun c => if String.eqb c "port_name" then "port_name_left" else c)
                          (columns left)
                 else columns left in
    let rname := if clash then "port_name_right" else "port_name" in
    let keep r := if clash then rename_label "port_name" "port_name_left" r else r in
    Ok (mkDF (lcols ++ ["index_right"; rname])
          (flat_map (fun r =>
             match matches right r with
             | [] => [<[rname := VNaN]> (<["index_right" := VNaN]> (keep r))]
             | ms => map (fun p => <[rname := port_name p]>
                                     (<["index_right" := VNum (inject_Z (label p))]> (keep r)))
                         ms
             end) (rows left))).

Definition process_chunk (polygons : list PortPolygon) (chunk : DataFrame) : result DataFrame :=
  let? lon := getitem chunk "longitude" in
  let? lat := getitem chunk "latitude" in
  let? geom := points_from_xy lon lat in
  let? chunk := setitem chunk "geometry" geom in
  let vessels_gdf := chunk in
  (* Perform spatial join *)
  let? joined := sjoin vessels_gdf polygons in
  let? index_right := getitem joined "index_right" in
  let? joined := setitem joined "Parked in Port" (map (fun v => VBool (notnull v)) index_right) in
  let? names := getitem joined "port_name" in
  let? parked := getitem joined "Parked in Port" in
  let? joined := setitem joined "Port Name" (where_ names parked (VStr "No")) in
  drop_columns joined ["geometry"; "index_right"].

(** The frame is only read: a slice is a new frame, and the column that
    [process_chunk] assigns lands in the slice. *)
Definition process_with_polygons (ais_raw_data : DataFrame)
           (polygons : list PortPolygon) (chunk_size : Z) : result DataFrame :=
  (* Ensure correct CRS *)
  let polygons := set_crs polygons in
  (* Process in chunks *)
  let? starts := range 0 (Z.of_nat (len ais_raw_data)) chunk_size in
  let? results := rmapM (fun i => process_chunk polygons
                                    (iloc ais_raw_data i (i + chunk_size))) starts in
  (* Combine results *)
  concat results.

(** *** The containment annotator, row by row *)

Definition locate (r : gmap string value) : value :=
  match point_from_xy (cell "longitude" r, cell "latitude" r) with
  | Ok g => g
  | Raise _ => VGeom None
  end.

Definition has_point (r : gmap string value) : bool :=
  match point_from_xy (cell "longitude" r, cell "latitude" r) with
  | Ok _ => true
  | Raise _ => false
  end.

(** The rows the join yields for one record. *)
Definition joined_rows (polygons : list PortPolygon) (r : gmap string value)
  : list (gmap string value) :=
  let located := <["geometry" := locate r]> r in
  match matches polygons located with
  | [] => [<["port_name" := VNaN]> (<["index_right" := VNaN]> located)]
  | ms => map (fun p => <["port_name" := port_name p]>
                          (<["index_right" := VNum (inject_Z (label p))]> located)) ms
  end.

Definition finish (r : gmap string value) : gmap string value :=
  let parked := <["Parked in Port" := VBool (notnull (cell "index_right" r))]> r in
  let named :=
    <["Port Name" := match cell "Parked in Port" parked with
                     | VBool true => cell "port_name" parked
                     | _ => VStr "No"
                     end]> parked in
  delete "index_right" (delete "geometry" named).

Definition contain_row (polygons : list PortPolygon) (r : gmap string value)
  : list (gmap string value) :=
  map finish (joined_rows polygons r).

Definition chunk_columns (cols : list string) : list string :=
  List.filter (fun c => negb (bool_decide (c ∈ ["geometry"; "index_right"])))
    (add_label (add_label (add_label cols "geometry" ++ ["index_right"; "port_name"])
                          "Parked in Port") "Port Name").

(** The frames the containment stage accepts: the coordinate columns are
    there and hold numbers, and no column bears a name the join reserves. *)
Definition joinable (df : DataFrame) : bool :=
  bool_decide ("longitude" ∈ columns df) && bool_decide ("latitude" ∈ columns df) &&
  forallb has_point (rows df) &&
  negb (bool_decide ("index_right" ∈ columns df)) &&
  negb (bool_decide ("port_name" ∈ columns df)).

Definition contain (polygons : list PortPolygon) (df : DataFrame) : DataFrame :=
  let cols := chunk_columns (columns df) in
  mkDF cols (map (reindex cols) (flat_map (contain_row (set_crs polygons)) (rows df))).

(** The point of a record, and the polygons (reprojected) it lies within. *)
Definition point_of (r : gmap string value) : option (Q * Q) :=
  match locate r with
  | VGeom g => g
  | _ => None
  end.

Definition containing (polygons : list PortPolygon) (r : gmap string value)
  : list PortPolygon :=
  match point_of r with
  | Some pt => List.filter (fun p => within pt (to_crs (polygon p))) polygons
  | None => []
  end.

(** No point lies within two polygons of the table. *)
Definition non_overlapping (polygons : list PortPolygon) : Prop :=
  forall (pt : Q * Q) (i j : nat) (p q : PortPolygon),
    polygons !! i = Some p -> polygons !! j = Some q ->
    within pt (to_crs (polygon p)) = true -> within pt (to_crs (polygon q)) = true ->
    i = j.

End Polygons.

Arguments label {geometry} _.
Arguments port_name {geometry} _.
Arguments polygon {geometry} _.
Arguments mkPolygon {geometry} _ _ _.

Definition default_chunk_size : Z := 10000.

(** ** Diagnostics *)

Definition is_text (v : value) : bool :=
  match v with
  | VStr _ => true
  | _ => false
  end.

Definition is_scalar (v : value) : bool :=
  match v with
  | VNum _ | VInf | VNaN | VBool _ => true
  | _ => false
  end.

(** [np.unique] sorts the column first.  Text compares with text, and
    numbers, booleans and nulls compare with one another; comparing text with
    anything else, or a geometry with anything at all, raises [TypeError],
    and a sort of two cells or more cannot do without the comparison. *)
Definition sortable (vals : list value) : bool :=
  match vals with
  | [] | [_] => true
  | _ => forallb is_text vals || forallb is_scalar vals
  end.

(** The order of the sort: text by code points; numbers by size, a boolean
    counting as 0 or 1, [+inf] above every number and the nulls last. *)
Definition number_of (v : value) : Q :=
  match v with
  | VNum q => q
  | VBool true => 1
  | _ => 0
  end.

Definition value_leb (v w : value) : bool :=
  match v, w with
  | VStr s, VStr t => String.leb s t
  | _, VNaN => true
  | VNaN, _ => false
  | _, VInf => true
  | VInf, _ => false
  | _, _ => Qle_bool (number_of v) (number_of w)
  end.

Fixpoint insert_sorted (v : value) (l : list value) : list value :=
  match l with
  | [] => [v]
  | w :: l' => if value_leb v w then v :: l else w :: insert_sorted v l'
  end.

Definition sorted (l : list value) : list value := fold_right insert_sorted [] l.

(** One cell of every run of equal cells, two nulls counting as equal. *)
Fixpoint squeeze (l : list value) : list value :=
  match l with
  | v :: (w :: _) as l' =>
      if value_leb w v then squeeze l' else v :: squeeze l'
  | _ => l
  end.

Definition np_unique (vals : list value) : result (list value) :=
  if sortable vals then Ok (squeeze (sorted vals))
  else Raise (TypeError "'<' not supported between instances of 'float' and 'str'").

(** What [investigate_data] prints: per column the number of distinct values,
    with the values themselves when there are fewer than 12, and per column
    the number of nulls.  Nothing of it is used downstream; the call matters
    to its caller by the exception of [np.unique]. *)
Definition investigate_data (data : DataFrame) (name : string)
  : result (list (string * nat * option (list value)) * list (string * nat)) :=
  let? shown :=
    rmapM (fun column =>
             let? unique_vals := np_unique (map (cell column) (rows data)) in
             let nr_values := length unique_vals in
             Ok (column, nr_values,
                 if (nr_values <? 12)%nat then Some unique_vals else None))
          (columns data) in
  Ok (shown,
      map (fun column =>
             (column, length (List.filter (fun v => negb (notnull v))
                                          (map (cell column) (rows data)))))
          (columns data)).

(** The frames on which the diagnostics run to the end. *)
Definition investigable (data : DataFrame) : bool :=
  forallb (fun column => sortable (map (cell column) (rows data))) (columns data).

(** Some column holds a text cell in one row and a cell that is no text, a
    null for one, in another. *)
Definition mixed (data : DataFrame) : Prop :=
  exists (c : string) (r r' : gmap string value),
    c ∈ columns data /\ r ∈ rows data /\ r' ∈ rows data /\
    is_text (cell c r) = true /\ is_text (cell c r') = false.

(** ** The pipeline *)

Section Pipeline.

Variable geometry : Type.
Variable within : Q * Q -> geometry -> bool.
Variable to_crs : geometry -> geometry.
Variable geometry_eqb : geometry -> geometry -> bool.
Context {lib : KDTree.TieBreak}.

(** The loaders of [helper_utils] and the filters of [data_cleaning] are
    not among the sources: they are parameters, each one free to fail. *)
Variable load_raw_data : string -> result DataFrame.
Variable load_port_info : result DataFrame.
Variable load_port_polygons : result (list (PortPolygon geometry)).
Variable remove_NA : DataFrame -> result DataFrame.
Variable remove_invalid_lat_and_lon : DataFrame -> result DataFrame.
Variable remove_invalid_speed : DataFrame -> result DataFrame.

Definition load_and_clean_data (parquet_file_path : string) : result DataFrame :=
  let? ais_raw_data := load_raw_data parquet_file_path in
  (* Remove invalid data and duplicates *)
  let? ais_raw_data := remove_NA ais_raw_data in
  let? ais_raw_data := remove_invalid_lat_and_lon ais_raw_data in
  let? ais_raw_data := remove_invalid_speed ais_raw_data in
  let ais_raw_data := drop_duplicates ais_raw_data in
  Ok ais_raw_data.

Definition polygon_eqb (p p' : PortPolygon geometry) : bool :=
  value_eqb (port_name p) (port_name p') && geometry_eqb (polygon p) (polygon p').

Fixpoint drop_duplicate_polygons (seen ps : list (PortPolygon geometry))
  : list (PortPolygon geometry) :=
  match ps with
  | [] => []
  | p :: ps' =>
      if existsb (polygon_eqb p) seen then drop_duplicate_polygons seen ps'
      else p :: drop_duplicate_polygons (p :: seen) ps'
  end.

(** [main]: the value returned is the content written to
    [vessels_with_parked_status.csv]. *)
Definition main : M (list string * list (list value)) :=
  (* File paths *)
  let parquet_file_path := "data/raw_data/raw_data.parquet" in
  (* Load and clean AIS data *)
  cleaned <- lift (load_and_clean_data parquet_file_path) ;;
  ais_raw_data <- alloc cleaned ;;
  (* Load port data and polygons *)
  ports <- lift load_port_info ;;
  let port_info := drop_duplicates ports in
  polys <- lift load_port_polygons ;;
  let polygons := drop_duplicate_polygons [] polys in
  (* Investigate data *)
  read ais_raw_data (fun df => investigate_data df "AIS Raw Data") ;;
  lift (investigate_data port_info "Port Information") ;;
  (* Create proximity columns *)
  ais_raw_data <- create_proximity_columns ais_raw_data port_info ;;
  (* Process spatial join with polygons *)
  annotated <- read ais_raw_data Ok ;;
  final_results <- lift (process_with_polygons geometry within to_crs annotated polygons
                                               default_chunk_size) ;;
  (* Save final results *)
  ret (to_csv final_results).

End Pipeline.

(** ** Column labels the two annotators write or reserve *)

Definition containment_labels : list string :=
  ["port_name"; "Parked in Port"; "Port Name"].

Definition reserved_labels : list string :=
  proximity_labels ++ ["geometry"; "index_right"] ++ containment_labels.

(** No column of the input bears a label that the annotators write. *)
Definition unreserved (cols : list string) : bool :=
  forallb (fun c => negb (bool_decide (c ∈ cols))) reserved_labels.

(** ** A small geometry engine for the examples: axis-parallel boxes, a point
    being within a box when it lies strictly between its sides. *)

Module Boxes.

Record box := mkBox { xmin : Q; ymin : Q; xmax : Q; ymax : Q }.

Definition within (pt : Q * Q) (b : box) : bool :=
  negb (Qle_bool (fst pt) (xmin b)) && negb (Qle_bool (xmax b) (fst pt)) &&
  negb (Qle_bool (snd pt) (ymin b)) && negb (Qle_bool (ymax b) (snd pt)).

Definition to_crs (b : box) : box := b.

Definition box_eqb (b b' : box) : bool :=
  Qeq_bool (xmin b) (xmin b') && Qeq_bool (ymin b) (ymin b') &&
  Qeq_bool (xmax b) (xmax b') && Qeq_bool (ymax b) (ymax b').

Definition vessel (lat lon speed : Q) : gmap string value :=
  <["latitude" := VNum lat]> (<["longitude" := VNum lon]> (<["speed" := VNum speed]> ∅)).

Definition port (name : string) (lat lon : Q) : gmap string value :=
  <["Main Port Name" := VStr name]>
    (<["Latitude" := VNum lat]> (<["Longitude" := VNum lon]> ∅)).

Definition vessels : DataFrame :=
  mkDF ["latitude"; "longitude"; "speed"]
       [vessel 0 0 5; vessel 1 0 7; vessel 20 20 0; vessel 2 3 1].

Definition ports : DataFrame :=
  mkDF ["Main Port Name"; "Latitude"; "Longitude"]
       [port "Alpha" 0 1; port "Beta" 4 4].

(** Twenty ports on a slanted grid: enough for the index to split. *)
Definition many_ports : DataFrame :=
  mkDF ["Main Port Name"; "Latitude"; "Longitude"]
       (map (fun k : nat =>
               port "P" (inject_Z (Z.of_nat ((7 * k) mod 20)))
                        (inject_Z (Z.of_nat ((3 * k) mod 11))))
            (seq 0 20)).

(** Longitude runs along x and latitude along y. *)
Definition harbours : list (PortPolygon box) :=
  [mkPolygon 0 (VStr "Alpha") (mkBox (-1) (-1) 2 (1 # 2));
   mkPolygon 1 (VStr "Beta") (mkBox 3 1 5 5)].

(** A vessel on the upper side of Alpha's box, and one inside it. *)
Definition on_the_quay : DataFrame :=
  mkDF ["latitude"; "longitude"; "speed"] [vessel (1 # 2) 0 0; vessel (1 # 4) 0 0].

Definition no_vessels : DataFrame := mkDF ["latitude"; "longitude"; "speed"] [].

Definition repeated_vessels : DataFrame :=
  mkDF ["latitude"; "longitude"; "speed"]
       [vessel 0 0 5; vessel (2 # 2) 0 7; vessel 0 0 5; vessel 1 0 7].

(** Alpha's box inside a wider one: two polygons that overlap. *)
Definition nested_harbours : list (PortPolygon box) :=
  [mkPolygon 0 (VStr "Alpha") (mkBox (-1) (-1) 2 (1 # 2));
   mkPolygon 1 (VStr "Bay") (mkBox (-5) (-5) 5 5)].

(** Vessels that already carry a [port_name] column. *)
Definition tagged_vessels : DataFrame :=
  mkDF ["latitude"; "longitude"; "port_name"]
       [<["port_name" := VStr "home"]> (vessel 0 0 5)].

(** A port a hair's breadth off the unit distance from the origin, and a
    vessel at the origin. *)
Definition grazing_port : DataFrame :=
  mkDF ["Main Port Name"; "Latitude"; "Longitude"] [port "Gamma" 1 (1 # 1073741824)].

Definition at_the_origin : DataFrame :=
  mkDF ["latitude"; "longitude"; "speed"] [vessel 0 0 5].

(** A port table with a name missing. *)
Definition nameless_ports : DataFrame :=
  mkDF ["Main Port Name"; "Latitude"; "Longitude"]
       [port "Alpha" 0 1; <["Main Port Name" := VNaN]> (port "Beta" 4 4)].

(** A library that prefers the data point it was given first. *)
Definition first_found : KDTree.TieBreak := fun _ _ => 0%nat.

End Boxes.

(** [main] on the example tables, the filters letting every row through. *)
Definition example_main (vessels : DataFrame) : M (list string * list (list value)) :=
  main Boxes.box Boxes.within Boxes.to_crs Boxes.box_eqb (lib := Boxes.first_found)
       (fun _ => Ok vessels) (Ok Boxes.ports) (Ok Boxes.harbours) Ok Ok Ok.

(** * Properties *)

(** ** The answers of the spatial index *)

Module KDTreeFacts.
Import KDTree.
Local Open Scope Q_scope.

Lemma no_farther_spec (a : Q) (v : value) :
  no_farther a v = true <-> forall b, v = VNum b -> a <= b.
Proof.
  destruct v as [b| | | | |]; simpl; try (split; [intros _ b'; discriminate | reflexivity]).
  rewrite Qle_bool_iff. split.
  - intros H b' [= <-]. exact H.
  - intros H. now apply H.
Qed.

Lemma nearest_at_spec (ds : list value) (i : nat) :
  nearest_at ds i = true <->
  exists a, nth_error ds i = Some (VNum a) /\ forall b, In (VNum b) ds -> a <= b.
Proof.
  unfold nearest_at. split.
  - destruct (nth_error ds i) as [[a| | | | |]|] eqn:E; try discriminate.
    intros H. exists a. split; [reflexivity|]. intros b Hb.
    rewrite forallb_forall in H. specialize (H _ Hb). now apply Qle_bool_iff in H.
  - intros (a & -> & H). apply forallb_forall. intros v Hv.
    apply no_farther_spec. intros b ->. now apply H.
Qed.

Lemma nearest_at_lt (ds : list value) (i : nat) :
  nearest_at ds i = true -> (i < length ds)%nat.
Proof.
  intros H. apply nearest_at_spec in H as (a & H & _).
  apply nth_error_Some. congruence.
Qed.

Lemma nearest_at_nth (ds : list value) (i : nat) :
  nearest_at ds i = true -> exists a, nth i ds VInf = VNum a.
Proof.
  intros H. apply nearest_at_spec in H as (a & H & _). exists a.
  now apply nth_error_nth.
Qed.

(** A list with a finite distance has a least one. *)
Lemma nearest_exists (ds : list value) :
  existsb is_finite ds = true -> exists i, nearest_at ds i = true.
Proof.
  induction ds as [|v ds IH]; [discriminate|]. cbn [existsb].
  destruct (existsb is_finite ds) eqn:E.
  - intros _. destruct (IH eq_refl) as (i & Hi).
    apply nearest_at_spec in Hi as (a & Hnth & Hmin).
    destruct v as [b| | | | |];
      try (exists (S i); apply nearest_at_spec; exists a; split; [exact Hnth|];
           intros c [Hc|Hc]; [discriminate | now apply Hmin]).
    destruct (Qlt_le_dec b a) as [Hlt|Hle].
    + exists 0%nat. apply nearest_at_spec. exists b. split; [reflexivity|].
      intros c [[= <-]|Hc]; [apply Qle_refl|].
      apply Qle_trans with a; [now apply Qlt_le_weak | now apply Hmin].
    + exists (S i). apply nearest_at_spec. exists a. split; [exact Hnth|].
      intros c [[= <-]|Hc]; [exact Hle | now apply Hmin].
  - rewrite orb_false_r. destruct v as [b| | | | |]; try discriminate. intros _.
    exists 0%nat. apply nearest_at_spec. exists b. split; [reflexivity|].
    intros c [[= <-]|Hc]; [apply Qle_refl|].
    exfalso. assert (H : existsb is_finite ds = true); [|congruence].
    apply existsb_exists. now exists (VNum c).
Qed.

Lemma nearest_finite (ds : list value) (i : nat) :
  nearest_at ds i = true -> existsb is_finite ds = true.
Proof.
  intros H. apply nearest_at_spec in H as (a & H & _).
  apply existsb_exists. exists (VNum a). split; [|reflexivity].
  eapply nth_error_In, H.
Qed.

(** What a query answers: a nearest data point and its distance, or
    [(inf, n)] when no data point is at a finite distance. *)
Lemma query1_spec {lib : TieBreak} (t : tree) (x : point) :
  let ds := map (Float64.distance x) (data t) in
  (exists i, query1 t x = (nth i ds VInf, i) /\ nearest_at ds i = true) \/
  (query1 t x = (VInf, n t) /\ forall i, nearest_at ds i = false).
Proof.
  intros ds. unfold query1. fold ds.
  destruct (nearest_at ds (choice (data t) x)) eqn:Ec.
  - left. eexists. split; [reflexivity | exact Ec].
  - destruct (List.find (nearest_at ds) (seq 0 (length ds))) as [i|] eqn:Ef.
    + left. exists i. split; [reflexivity|]. now apply find_some in Ef.
    + right. split; [reflexivity|]. intros i.
      destruct (nearest_at ds i) eqn:Ei; [|reflexivity].
      pose proof (find_none _ _ Ef i) as H. rewrite <- H; [now symmetry|].
      apply in_seq. pose proof (nearest_at_lt _ _ Ei). lia.
Qed.

(** *** The brute-force minimum *)

Lemma fold_closer_spec (ds : list value) :
  match fold_right closer VInf ds with
  | VNum b => In (VNum b) ds /\ forall c, In (VNum c) ds -> b <= c
  | VInf => forall c, ~ In (VNum c) ds
  | _ => False
  end.
Proof.
  induction ds as [|v ds IH]; cbn [fold_right]; [intros c []|].
  destruct (fold_right closer VInf ds) as [b| | | | |]; try contradiction.
  - destruct IH as [Hin Hmin].
    destruct v as [a| | | | |]; cbn [closer];
      try (split; [now right|]; intros c [Hc|Hc]; [discriminate | now apply Hmin]).
    destruct (Qle_bool a b) eqn:E.
    + apply Qle_bool_iff in E. split; [now left|].
      intros c [[= <-]|Hc]; [apply Qle_refl|].
      apply Qle_trans with b; [exact E | now apply Hmin].
    + split; [now right|]. intros c [[= <-]|Hc]; [|now apply Hmin].
      destruct (Qlt_le_dec a b) as [Hlt|Hle]; [|exact Hle].
      apply Qlt_le_weak, Qle_bool_iff in Hlt. congruence.
  - destruct v as [a| | | | |]; cbn [closer];
      try (intros c [Hc|Hc]; [discriminate | now apply (IH c)]).
    split; [now left|]. intros c [[= <-]|Hc]; [apply Qle_refl|]. now apply IH in Hc.
Qed.

(** A computed distance is a rational in lowest terms. *)
Lemma to_value_canonical (f : spec_float) (a : Q) :
  Float64.to_value f = VNum a -> Qred a = a.
Proof.
  destruct f as [s|s| |s m e]; simpl; try discriminate; intros [= <-]; [reflexivity|].
  apply Qred_complete, Qred_correct.
Qed.

Lemma distance_canonical (x p : point) (a : Q) :
  Float64.distance x p = VNum a -> Qred a = a.
Proof. apply to_value_canonical. Qed.

Lemma canonical_eq (a b : Q) : Qred a = a -> Qred b = b -> a == b -> a = b.
Proof. intros Ha Hb H. rewrite <- Ha, <- Hb. now apply Qred_complete. Qed.

Lemma brute_force_nearest (pts : list point) (x : point) (i : nat) :
  nearest_at (map (Float64.distance x) pts) i = true ->
  brute_force pts x = nth i (map (Float64.distance x) pts) VInf.
Proof.
  intros H. unfold brute_force.
  pose proof (fold_closer_spec (map (Float64.distance x) pts)) as Hf.
  apply nearest_at_spec in H as (a & Hnth & Hmin).
  rewrite (nth_error_nth _ _ VInf Hnth).
  assert (Ha : In (VNum a) (map (Float64.distance x) pts)) by (eapply nth_error_In, Hnth).
  destruct (fold_right closer VInf _) as [b| | | | |]; try contradiction.
  - destruct Hf as [Hb Hmin']. f_equal.
    apply canonical_eq.
    + apply in_map_iff in Hb as (p & Hp & _). exact (distance_canonical _ _ _ Hp).
    + apply in_map_iff in Ha as (p & Hp & _). exact (distance_canonical _ _ _ Hp).
    + apply Qle_antisym; [now apply Hmin' | now apply Hmin].
  - now apply Hf in Ha.
Qed.

End KDTreeFacts.

(** ** Running code in the two monads *)

Lemma rmapM_Ok {A B} (f : A -> result B) (g : A -> B) (l : list A) :
  (forall a, In a l -> f a = Ok (g a)) -> rmapM f l = Ok (map g l).
Proof.
  induction l as [|a l IH]; intros H; simpl; [reflexivity|].
  rewrite (H a) by now left. simpl. rewrite IH; [reflexivity|].
  intros b Hb. apply H. now right.
Qed.

Lemma rmapM_inv {A B} (f : A -> result B) (l : list A) (bs : list B) :
  rmapM f l = Ok bs -> Forall2 (fun a b => f a = Ok b) l bs.
Proof.
  revert bs. induction l as [|a l IH]; simpl; intros bs.
  - intros [= <-]. constructor.
  - destruct (f a) as [b|e] eqn:E; simpl; [|discriminate].
    destruct (rmapM f l) as [bs'|e]; simpl; [|discriminate].
    intros [= <-]. constructor; [exact E | now apply IH].
Qed.

Lemma bind_lift_Ok {A B} (a : A) (k : A -> M B) (h : heap) :
  bind (lift (Ok a)) k h = k a h.
Proof. reflexivity. Qed.

Lemma bind_read_Ok {A B} (r : nat) (f : DataFrame -> result A) (k : A -> M B)
      (h : heap) (df : DataFrame) (a : A) :
  h !! r = Some df -> f df = Ok a -> bind (read r f) k h = k a h.
Proof. intros Hh Hf. unfold bind, read. now rewrite Hh, Hf. Qed.

Lemma bind_update_Ok {B} (r : nat) (f : DataFrame -> result DataFrame) (k : unit -> M B)
      (h : heap) (df df' : DataFrame) :
  h !! r = Some df -> f df = Ok df' -> bind (update r f) k h = k tt (<[r := df']> h).
Proof. intros Hh Hf. unfold bind, update. now rewrite Hh, Hf. Qed.

(** ** Columns and cells *)

Lemma elem_of_add_label (cols : list string) (c c' : string) :
  c ∈ add_label cols c' <-> c ∈ cols \/ c = c'.
Proof.
  unfold add_label. destruct (decide (c' ∈ cols)) as [H|H].
  - split; [now left|]. intros [?| ->]; assumption.
  - rewrite elem_of_app, list_elem_of_singleton. reflexivity.
Qed.

Lemma add_label_fresh (cols : list string) (c : string) :
  c ∉ cols -> add_label cols c = cols ++ [c].
Proof. intros H. unfold add_label. now destruct (decide (c ∈ cols)). Qed.

Lemma add_label_present (cols : list string) (c : string) :
  c ∈ cols -> add_label cols c = cols.
Proof. intros H. unfold add_label. now destruct (decide (c ∈ cols)). Qed.

Lemma getitem_Ok (df : DataFrame) (c : string) :
  c ∈ columns df -> getitem df c = Ok (map (cell c) (rows df)).
Proof. intros H. unfold getitem. now destruct (decide (c ∈ columns df)). Qed.

Lemma zip_with_map {A B C D} (h : B -> C -> D) (f : A -> B) (g : A -> C) (l : list A) :
  zip_with h (map f l) (map g l) = map (fun a => h (f a) (g a)) l.
Proof. induction l as [|a l IH]; simpl; [reflexivity | now rewrite IH]. Qed.

Lemma setitem_map (cols : list string) (rs : list (gmap string value))
      (g : gmap string value -> gmap string value) (f : gmap string value -> value)
      (c : string) :
  setitem (mkDF cols (map g rs)) c (map f rs)
  = Ok (mkDF (add_label cols c) (map (fun r => <[c := f r]> (g r)) rs)).
Proof.
  unfold setitem, len. simpl. rewrite !length_map, Nat.eqb_refl.
  now rewrite zip_with_map.
Qed.

Lemma loc_setitem_map (cols : list string) (rs : list (gmap string value))
      (g : gmap string value -> gmap string value) (m : gmap string value -> bool)
      (labels : list string) (vals : list value) :
  loc_setitem (mkDF cols (map g rs)) (map m rs) labels vals
  = Ok (mkDF (fold_left add_label labels cols)
             (map (fun r => if m r then assign_cells labels vals (g r) else g r) rs)).
Proof.
  unfold loc_setitem, len. simpl. rewrite !length_map, Nat.eqb_refl.
  now rewrite zip_with_map.
Qed.

Lemma cell_insert (c : string) (v : value) (r : gmap string value) :
  cell c (<[c := v]> r) = v.
Proof. unfold cell. now rewrite lookup_insert_eq. Qed.

Lemma cell_insert_ne (c c' : string) (v : value) (r : gmap string value) :
  c <> c' -> cell c (<[c' := v]> r) = cell c r.
Proof. intros H. unfold cell. now rewrite lookup_insert_ne. Qed.

(** ** The nearest-port annotator runs to the end *)

Import KDTreeFacts.

Lemma rmapM_map {A B C} (f : B -> result C) (g : A -> B) (l : list A) :
  rmapM f (map g l) = rmapM (fun a => f (g a)) l.
Proof. induction l as [|a l IH]; simpl; [reflexivity | now rewrite IH]. Qed.

Lemma as_point_coords (c1 c2 : string) (rs : list (gmap string value)) :
  forallb (has_coords c1 c2) rs = true ->
  rmapM as_point (zip (map (cell c1) rs) (map (cell c2) rs)) = Ok (map (coords_of c1 c2) rs).
Proof.
  intros H. rewrite zip_with_map, rmapM_map. apply rmapM_Ok.
  intros r Hr. rewrite forallb_forall in H. specialize (H r Hr).
  unfold has_coords, coords_of, as_point in *. simpl.
  destruct (cell c1 r); try discriminate. destruct (cell c2 r); try discriminate.
  reflexivity.
Qed.

Lemma existsb_map {A B} (f : B -> bool) (g : A -> B) (l : list A) :
  existsb f (map g l) = existsb (fun a => f (g a)) l.
Proof. induction l as [|a l IH]; simpl; [reflexivity | now rewrite IH]. Qed.

(** The answer of the query for a record with a port within reach: a
    position of the port table, the computed distance to the port at this
    position, and no port at a lesser computed distance. *)
Lemma nearest_port_spec {lib : KDTree.TieBreak} (port_info : DataFrame) (r : gmap string value) :
  within_reach port_info r = true ->
  let x := coords_of "latitude" "longitude" r in
  exists d p,
    nearest_port port_info r = (VNum d, p) /\
    (p < length (rows port_info))%nat /\
    Float64.distance x (coords_of "Latitude" "Longitude" (nth p (rows port_info) ∅)) = VNum d /\
    (forall port d', In port (rows port_info) ->
       Float64.distance x (coords_of "Latitude" "Longitude" port) = VNum d' -> (d <= d')%Q) /\
    KDTree.brute_force (port_points port_info) x = VNum d.
Proof.
  intros Hreach x. unfold within_reach in Hreach. fold x in Hreach.
  rewrite <- (existsb_map is_finite (Float64.distance x)) in Hreach.
  unfold nearest_port. fold x.
  destruct (query1_spec (KDTree.cKDTree (port_points port_info)) x) as [(i & Hq & Hi)|[_ Hnone]];
    cbn [KDTree.data KDTree.cKDTree] in *.
  - pose proof (brute_force_nearest _ _ _ Hi) as Hb.
    pose proof (nearest_at_lt _ _ Hi) as Hlt. rewrite length_map in Hlt.
    unfold port_points in Hlt. rewrite length_map in Hlt.
    apply nearest_at_spec in Hi as (d & Hnth & Hmin).
    rewrite (nth_error_nth _ _ VInf Hnth) in Hq, Hb.
    exists d, i. split; [exact Hq|]. split; [exact Hlt|]. split; [|split; [|exact Hb]].
    + unfold port_points in Hnth. rewrite !nth_error_map in Hnth.
      rewrite (nth_error_nth' _ ∅ Hlt) in Hnth. simpl in Hnth. congruence.
    + intros port d' Hport Hd'. apply Hmin. rewrite <- Hd'.
      unfold port_points. rewrite map_map. now apply (in_map (fun p => Float64.distance x (coords_of "Latitude" "Longitude" p))).
  - destruct (nearest_exists _ Hreach) as (i & Hi). now rewrite Hnone in Hi.
Qed.

Lemma ready_reach (df port_info : DataFrame) :
  ready df port_info = true -> forallb (within_reach port_info) (rows df) = true.
Proof. unfold ready. rewrite !andb_true_iff. tauto. Qed.

Lemma ready_inv df port_info :
  ready df port_info = true ->
  ("latitude" ∈ columns df /\ "longitude" ∈ columns df /\
   forallb (has_coords "latitude" "longitude") (rows df) = true) /\
  ("Latitude" ∈ columns port_info /\ "Longitude" ∈ columns port_info /\
   "Main Port Name" ∈ columns port_info /\
   forallb (has_coords "Latitude" "Longitude") (rows port_info) = true /\
   rows port_info <> []).
Proof.
  unfold ready. rewrite !andb_true_iff, !bool_decide_eq_true, negb_true_iff.
  intros ((((((((H1 & H2) & H3) & H4) & H5) & H6) & H7) & H8) & _).
  repeat split; try assumption.
  intros E. unfold len in H8. now rewrite E in H8.
Qed.

Lemma thresholds_eq :
  thresholds = [(1%Q, "1 km"); (3%Q, "3 km"); (5%Q, "5 km"); (10%Q, "10 km")].
Proof. reflexivity. Qed.


Lemma index_map_nth {A B} (F : A -> B) (l : list A) (i : nat) (d : A) :
  (i < length l)%nat -> index (map F l) i = Ok (F (nth i l d)).
Proof.
  intros H. unfold index. rewrite nth_error_map, (nth_error_nth' _ d H). reflexivity.
Qed.

Lemma cKDTree_run (port_info : DataFrame) :
  forallb (has_coords "Latitude" "Longitude") (rows port_info) = true ->
  cKDTree (zip (map (cell "Latitude") (rows port_info))
               (map (cell "Longitude") (rows port_info)))
  = Ok (KDTree.cKDTree (port_points port_info)).
Proof. intros H. unfold cKDTree. now rewrite (as_point_coords _ _ _ H). Qed.

Lemma query_run {lib : KDTree.TieBreak} (port_info : DataFrame) (rs : list (gmap string value)) :
  forallb (has_coords "latitude" "longitude") rs = true ->
  query (KDTree.cKDTree (port_points port_info))
        (zip (map (cell "latitude") rs) (map (cell "longitude") rs))
  = Ok (map (fun r => fst (nearest_port port_info r)) rs,
        map (fun r => snd (nearest_port port_info r)) rs).
Proof.
  intros H. unfold query. rewrite (as_point_coords _ _ _ H). simpl.
  now rewrite !map_map.
Qed.

Lemma lookup_ports {lib : KDTree.TieBreak} {B} (port_info : DataFrame) (rs : list (gmap string value))
      (F : gmap string value -> B) :
  forallb (within_reach port_info) rs = true ->
  rmapM (fun i => index (map F (rows port_info)) i)
        (map (fun r => snd (nearest_port port_info r)) rs)
  = Ok (map (fun r => F (nth (snd (nearest_port port_info r)) (rows port_info) ∅)) rs).
Proof.
  intros Hreach. rewrite rmapM_map. apply rmapM_Ok. intros r Hr.
  rewrite forallb_forall in Hreach.
  destruct (nearest_port_spec port_info r (Hreach r Hr)) as (d & p & E & Hp & _).
  rewrite E. simpl. now apply index_map_nth.
Qed.

Lemma lookup_ports_then {lib : KDTree.TieBreak} {B C} (port_info : DataFrame) (rs : list (gmap string value))
      (F : gmap string value -> B) (G : B -> C) :
  forallb (within_reach port_info) rs = true ->
  rmapM (fun i => let? p := index (map F (rows port_info)) i in Ok (G p))
        (map (fun r => snd (nearest_port port_info r)) rs)
  = Ok (map (fun r => G (F (nth (snd (nearest_port port_info r)) (rows port_info) ∅))) rs).
Proof.
  intros Hreach. rewrite rmapM_map. apply rmapM_Ok. intros r Hr.
  rewrite forallb_forall in Hreach.
  destruct (nearest_port_spec port_info r (Hreach r Hr)) as (d & p & E & Hp & _).
  rewrite E. simpl. now rewrite (index_map_nth _ _ _ ∅ Hp).
Qed.

Lemma step_setitem {B} (r : nat) (c : string) (cols : list string)
      (rs : list (gmap string value)) (g : gmap string value -> gmap string value)
      (f : gmap string value -> value) (k : unit -> M B) (h : gmap nat DataFrame) :
  bind (update r (fun df => setitem df c (map f rs))) k (<[r := mkDF cols (map g rs)]> h)
  = k tt (<[r := mkDF (add_label cols c) (map (fun x => <[c := f x]> (g x)) rs)]> h).
Proof.
  erewrite bind_update_Ok; [|apply lookup_insert_eq|apply setitem_map].
  now rewrite insert_insert_eq.
Qed.

Lemma step_getitem {B} (r : nat) (c : string) (cols : list string)
      (rs : list (gmap string value)) (g : gmap string value -> gmap string value)
      (k : list value -> M B) (h : gmap nat DataFrame) :
  c ∈ cols ->
  bind (read r (fun df => getitem df c)) k (<[r := mkDF cols (map g rs)]> h)
  = k (map (fun x => cell c (g x)) rs) (<[r := mkDF cols (map g rs)]> h).
Proof.
  intros Hc. erewrite bind_read_Ok; [reflexivity|apply lookup_insert_eq|].
  rewrite getitem_Ok by exact Hc. simpl. now rewrite map_map.
Qed.

Lemma step_loc_setitem {B} (r : nat) (cols labels : list string) (vals : list value)
      (rs : list (gmap string value)) (g : gmap string value -> gmap string value)
      (m : gmap string value -> bool) (k : unit -> M B) (h : gmap nat DataFrame) :
  bind (update r (fun df => loc_setitem df (map m rs) labels vals)) k
       (<[r := mkDF cols (map g rs)]> h)
  = k tt (<[r := mkDF (fold_left add_label labels cols)
                      (map (fun x => if m x then assign_cells labels vals (g x) else g x) rs)]> h).
Proof.
  erewrite bind_update_Ok; [|apply lookup_insert_eq|apply loc_setitem_map].
  now rewrite insert_insert_eq.
Qed.

Lemma bind_assoc {A B C} (m : M A) (f : A -> M B) (k : B -> M C) (h : gmap nat DataFrame) :
  bind (bind m f) k h = bind m (fun a => bind (f a) k) h.
Proof. unfold bind. destruct (m h) as [[a|e] h']; reflexivity. Qed.

Lemma bind_ret {A B} (a : A) (k : A -> M B) (h : gmap nat DataFrame) :
  bind (ret a) k h = k a h.
Proof. reflexivity. Qed.

Lemma step_flag {B} (r : nat) (dist : Q) (c : string) (cols : list string)
      (rs : list (gmap string value)) (g : gmap string value -> gmap string value)
      (k : unit -> M B) (h : gmap nat DataFrame) :
  "Distance to Nearest Port" ∈ cols ->
  bind (read r (fun df => getitem df "Distance to Nearest Port"))
       (fun col => bind (update r (fun df =>
                     setitem df c (np_where (map (fun v => value_le v dist) col)
                                            (VStr "Yes") (VStr "No")))) k)
       (<[r := mkDF cols (map g rs)]> h)
  = k tt (<[r := mkDF (add_label cols c)
                      (map (fun x => <[c := yes_no (value_le (cell "Distance to Nearest Port" (g x)) dist)]> (g x)) rs)]> h).
Proof.
  intros Hc. rewrite (step_getitem _ _ _ _ _ _ _ Hc).
  unfold np_where. rewrite !map_map. apply step_setitem.
Qed.

Ltac in_labels :=
  repeat (apply elem_of_add_label; first [right; reflexivity | left]); try assumption.

Lemma create_proximity_columns_run {lib : KDTree.TieBreak} (r : nat) (port_info df : DataFrame) (h : gmap nat DataFrame) :
  h !! r = Some df -> ready df port_info = true ->
  create_proximity_columns r port_info h = (Ok r, <[r := annotate port_info df]> h).
Proof.
  intros Hh Hready.
  destruct (ready_inv _ _ Hready) as ((Hlat & Hlon & Hnum) & (HLat & HLon & HName & HPnum & Hne)).
  pose proof (ready_reach _ _ Hready) as Hreach.
  destruct df as [cols rs]. cbn [columns rows] in *.
  unfold create_proximity_columns.
  erewrite bind_read_Ok; [|exact Hh|unfold to_numpy2; rewrite !getitem_Ok by assumption; reflexivity].
  simpl rows.
  unfold to_numpy2 at 1. rewrite !getitem_Ok by assumption. simpl rbind. rewrite !bind_lift_Ok.
  rewrite (cKDTree_run _ HPnum), bind_lift_Ok.
  rewrite (query_run _ _ Hnum), bind_lift_Ok.
  rewrite <- (insert_id h r _ Hh), <- (map_id rs) at 1.
  rewrite step_setitem.
  rewrite (lookup_ports _ _ _ Hreach), bind_lift_Ok, step_setitem.
  rewrite zip_with_map.
  rewrite !(lookup_ports_then _ _ _ _ Hreach). rewrite bind_lift_Ok, step_setitem.
  rewrite bind_lift_Ok, step_setitem. simpl fst. simpl snd.
  rewrite thresholds_eq. unfold for_each.
  rewrite !bind_assoc.
  rewrite step_flag by in_labels. rewrite !bind_assoc.
  rewrite step_flag by in_labels. rewrite !bind_assoc.
  rewrite step_flag by in_labels. rewrite !bind_assoc.
  rewrite step_flag by in_labels. rewrite bind_ret.
  rewrite step_getitem by (cbn; in_labels).
  rewrite step_getitem by (cbn; in_labels).
  rewrite step_getitem by (cbn; in_labels).
  rewrite step_getitem by (cbn; in_labels).
  cbv beta. rewrite !map_map, !zip_with_map.
  rewrite step_loc_setitem. unfold ret, annotate. simpl columns. simpl rows.
  f_equal. f_equal. f_equal.
  unfold proximity_labels. cbn [fold_left].
  change (flag_label "1 km") with "Less than 1 km from port".
  change (flag_label "3 km") with "Less than 3 km from port".
  change (flag_label "5 km") with "Less than 5 km from port".
  change (flag_label "10 km") with "Less than 10 km from port".
  rewrite (add_label_present _ "Proximity Port Name") by in_labels.
  rewrite (add_label_present _ "Port Latitude") by in_labels.
  rewrite (add_label_present _ "Port Longitude") by in_labels.
  reflexivity.
Qed.

(** ** The cells of an annotated row *)

Ltac cells :=
  repeat first [ rewrite cell_insert
               | rewrite cell_insert_ne by (let H := fresh in intros H; discriminate H) ].

Lemma with_flags_distance (r : gmap string value) :
  cell "Distance to Nearest Port" (with_flags r) = cell "Distance to Nearest Port" r.
Proof.
  unfold with_flags, with_flag.
  change (flag_label "1 km") with "Less than 1 km from port".
  change (flag_label "3 km") with "Less than 3 km from port".
  change (flag_label "5 km") with "Less than 5 km from port".
  change (flag_label "10 km") with "Less than 10 km from port".
  now cells.
Qed.

Lemma with_flags_flags (r : gmap string value) :
  cell "Less than 1 km from port" (with_flags r) = flag_of 1 r /\
  cell "Less than 3 km from port" (with_flags r) = flag_of 3 r /\
  cell "Less than 5 km from port" (with_flags r) = flag_of 5 r /\
  cell "Less than 10 km from port" (with_flags r) = flag_of 10 r.
Proof.
  unfold with_flags, with_flag, flag_of.
  change (flag_label "1 km") with "Less than 1 km from port".
  change (flag_label "3 km") with "Less than 3 km from port".
  change (flag_label "5 km") with "Less than 5 km from port".
  change (flag_label "10 km") with "Less than 10 km from port".
  repeat split; now cells.
Qed.

Lemma assign_cells_sentinel (r : gmap string value) :
  assign_cells ["Proximity Port Name"; "Port Latitude"; "Port Longitude"]
               [VStr "No"; VNaN; VNaN] r
  = <["Port Longitude" := VNaN]>
      (<["Port Latitude" := VNaN]> (<["Proximity Port Name" := VStr "No"]> r)).
Proof. reflexivity. Qed.

Lemma lookup_with_flags (c : string) (r : gmap string value) :
  c ∉ proximity_labels -> with_flags r !! c = r !! c.
Proof.
  intros Hc. unfold with_flags, with_flag.
  change (flag_label "1 km") with "Less than 1 km from port".
  change (flag_label "3 km") with "Less than 3 km from port".
  change (flag_label "5 km") with "Less than 5 km from port".
  change (flag_label "10 km") with "Less than 10 km from port".
  rewrite !lookup_insert_ne; [reflexivity|..];
    intros <-; apply Hc; unfold proximity_labels; set_solver.
Qed.

(** The cells of an annotated row. *)
Lemma annotate_row_frame {lib : KDTree.TieBreak} (port_info : DataFrame) (c : string) (r : gmap string value) :
  c ∉ proximity_labels -> annotate_row port_info r !! c = r !! c.
Proof.
  intros Hc. unfold annotate_row.
  assert (H : with_flags (with_port port_info r) !! c = r !! c).
  { rewrite lookup_with_flags by exact Hc. unfold with_port.
    rewrite !lookup_insert_ne; [reflexivity|..];
      intros <-; apply Hc; unfold proximity_labels; set_solver. }
  destruct (far_from_all _); [|exact H].
  rewrite assign_cells_sentinel.
  rewrite !lookup_insert_ne; [exact H|..];
    intros <-; apply Hc; unfold proximity_labels; set_solver.
Qed.

Lemma annotate_row_distance {lib : KDTree.TieBreak} (port_info : DataFrame) (r : gmap string value) :
  cell "Distance to Nearest Port" (annotate_row port_info r) = fst (nearest_port port_info r).
Proof.
  unfold annotate_row.
  assert (H : cell "Distance to Nearest Port" (with_flags (with_port port_info r))
              = fst (nearest_port port_info r)).
  { rewrite with_flags_distance. unfold with_port. now cells. }
  destruct (far_from_all _); [|exact H].
  rewrite assign_cells_sentinel. now cells.
Qed.

Lemma annotate_row_flags {lib : KDTree.TieBreak} (port_info : DataFrame) (r : gmap string value) :
  let r' := annotate_row port_info r in
  cell "Less than 1 km from port" r' = flag_of 1 r' /\
  cell "Less than 3 km from port" r' = flag_of 3 r' /\
  cell "Less than 5 km from port" r' = flag_of 5 r' /\
  cell "Less than 10 km from port" r' = flag_of 10 r'.
Proof.
  intros r'. unfold flag_of. subst r'. rewrite annotate_row_distance.
  unfold annotate_row.
  pose proof (with_flags_flags (with_port port_info r)) as H.
  unfold flag_of in H.
  assert (Hd : cell "Distance to Nearest Port" (with_port port_info r)
               = fst (nearest_port port_info r)) by (unfold with_port; now cells).
  rewrite Hd in H.
  destruct (far_from_all _); [|exact H].
  rewrite assign_cells_sentinel. cells. exact H.
Qed.

Lemma annotate_row_far {lib : KDTree.TieBreak} (port_info : DataFrame) (r : gmap string value) :
  far_from_all (annotate_row port_info r) = far_from_all (with_flags (with_port port_info r)).
Proof.
  unfold annotate_row. destruct (far_from_all (with_flags _)) eqn:E; [|exact E].
  rewrite assign_cells_sentinel. unfold far_from_all in *. cells. exact E.
Qed.

Lemma annotate_row_port {lib : KDTree.TieBreak} (port_info : DataFrame) (r : gmap string value) :
  let r' := annotate_row port_info r in
  let port := nth (snd (nearest_port port_info r)) (rows port_info) ∅ in
  if far_from_all r'
  then cell "Proximity Port Name" r' = VStr "No" /\
       cell "Port Latitude" r' = VNaN /\ cell "Port Longitude" r' = VNaN
  else cell "Proximity Port Name" r' = cell "Main Port Name" port /\
       cell "Port Latitude" r' = cell "Latitude" port /\
       cell "Port Longitude" r' = cell "Longitude" port.
Proof.
  intros r' port. subst r'. rewrite annotate_row_far. unfold annotate_row.
  destruct (far_from_all _).
  - rewrite assign_cells_sentinel. repeat split; now cells.
  - unfold with_flags, with_flag.
    change (flag_label "1 km") with "Less than 1 km from port".
    change (flag_label "3 km") with "Less than 3 km from port".
    change (flag_label "5 km") with "Less than 5 km from port".
    change (flag_label "10 km") with "Less than 10 km from port".
    unfold with_port. repeat split; now cells.
Qed.

Lemma annotate_lookup {lib : KDTree.TieBreak} (port_info df : DataFrame) (i : nat) (row : gmap string value) :
  rows df !! i = Some row ->
  rows (annotate port_info df) !! i = Some (annotate_row port_info row).
Proof. intros H. unfold annotate. simpl. now rewrite list_lookup_fmap, H. Qed.

Lemma annotate_elem {lib : KDTree.TieBreak} (port_info df : DataFrame) (row' : gmap string value) :
  row' ∈ rows (annotate port_info df) ->
  exists row, row ∈ rows df /\ row' = annotate_row port_info row.
Proof.
  unfold annotate. simpl. intros H. apply list_elem_of_fmap in H as (row & -> & H).
  now exists row.
Qed.

Lemma value_le_mono (v : value) (x y : Q) :
  (x <= y)%Q -> value_le v x = true -> value_le v y = true.
Proof.
  intros Hxy. destruct v; simpl; try discriminate.
  rewrite !Qle_bool_iff. lra.
Qed.

Lemma flag_of_mono (r : gmap string value) (x y : Q) :
  (x <= y)%Q -> flag_of x r = VStr "Yes" -> flag_of y r = VStr "Yes".
Proof.
  intros Hxy. unfold flag_of.
  destruct (value_le _ x) eqn:E; [|discriminate]. intros _.
  now rewrite (value_le_mono _ _ _ Hxy E).
Qed.

Lemma flag_of_cases (r : gmap string value) (x : Q) :
  flag_of x r = VStr "Yes" \/ flag_of x r = VStr "No".
Proof. unfold flag_of. destruct (value_le _ x); [now left | now right]. Qed.

(** ** The nearest-port annotator: distance, flags and sentinel *)

(** C1, as amended.  On inputs the annotator accepts, it runs to the end and,
    for every record, the cell written under "Distance to Nearest Port" is
    the least, over the ports of the table, of the Euclidean distances from
    the record's (latitude, longitude) to the port's (Latitude, Longitude) as
    double-precision arithmetic computes them, the differences, their
    squares, the sum and the root each rounded to the nearest double: it is
    the computed distance to some port, no port is at a lesser computed
    distance, and it is the brute-force minimum of the computed distances.
    This holds whichever port the library answers with among equidistant
    ones. *)
Theorem distance_to_nearest_port_is_minimum {lib : KDTree.TieBreak}
        (r : nat) (port_info df : DataFrame) (h : gmap nat DataFrame) :
  h !! r = Some df -> ready df port_info = true ->
  exists df',
    create_proximity_columns r port_info h = (Ok r, <[r := df']> h) /\
    forall (i : nat) (row : gmap string value),
      rows df !! i = Some row ->
      let x := coords_of "latitude" "longitude" row in
      exists (row' : gmap string value) (d : Q),
        rows df' !! i = Some row' /\
        cell "Distance to Nearest Port" row' = VNum d /\
        KDTree.brute_force (port_points port_info) x = VNum d /\
        (exists port, port ∈ rows port_info /\
           Float64.distance x (coords_of "Latitude" "Longitude" port) = VNum d) /\
        (forall (port : gmap string value) (d' : Q), port ∈ rows port_info ->
           Float64.distance x (coords_of "Latitude" "Longitude" port) = VNum d' ->
           (d <= d')%Q).
Proof.
  intros Hh Hready. exists (annotate port_info df).
  split; [now apply create_proximity_columns_run|].
  intros i row Hrow x.
  pose proof (ready_reach _ _ Hready) as Hreach. rewrite forallb_forall in Hreach.
  assert (Hin : In row (rows df)) by (apply list_elem_of_In; eapply list_elem_of_lookup_2, Hrow).
  destruct (nearest_port_spec port_info row (Hreach row Hin)) as (d & p & E & Hp & Hd & Hmin & Hb).
  exists (annotate_row port_info row), d.
  split; [now apply annotate_lookup|].
  split; [now rewrite annotate_row_distance, E|].
  split; [exact Hb|]. split.
  - exists (nth p (rows port_info) ∅). split; [|exact Hd].
    apply list_elem_of_In, nth_In, Hp.
  - intros port d' Hport. apply Hmin. now apply list_elem_of_In.
Qed.

Lemma distance_to_nearest_port_is_minimum_witness :
  exists df',
    create_proximity_columns (lib := Boxes.first_found) 0 Boxes.ports {[0%nat := Boxes.vessels]}
    = (Ok 0%nat, <[0%nat := df']> {[0%nat := Boxes.vessels]}) /\
    forall (i : nat) (row : gmap string value),
      rows Boxes.vessels !! i = Some row ->
      let x := coords_of "latitude" "longitude" row in
      exists (row' : gmap string value) (d : Q),
        rows df' !! i = Some row' /\
        cell "Distance to Nearest Port" row' = VNum d /\
        KDTree.brute_force (port_points Boxes.ports) x = VNum d /\
        (exists port, port ∈ rows Boxes.ports /\
           Float64.distance x (coords_of "Latitude" "Longitude" port) = VNum d) /\
        (forall (port : gmap string value) (d' : Q), port ∈ rows Boxes.ports ->
           Float64.distance x (coords_of "Latitude" "Longitude" port) = VNum d' ->
           (d <= d')%Q).
Proof.
  apply (distance_to_nearest_port_is_minimum (lib := Boxes.first_found) 0%nat Boxes.ports
           Boxes.vessels {[0%nat := Boxes.vessels]}); vm_compute; reflexivity.
Defined.

(** C1, as stated, fails: the distance written is the rounded one, not the
    Euclidean distance.  For a vessel at the origin and the one port at
    (1, 2^-30) the annotator writes 1, and the Euclidean distance to the port
    is greater than 1. *)
Lemma written_distance_is_rounded :
  exists (df' : DataFrame) (row' : gmap string value),
    create_proximity_columns (lib := Boxes.first_found) 0 Boxes.grazing_port
                             {[0%nat := Boxes.at_the_origin]}
    = (Ok 0%nat, <[0%nat := df']> {[0%nat := Boxes.at_the_origin]}) /\
    rows df' !! 0%nat = Some row' /\
    cell "Distance to Nearest Port" row' = VNum 1 /\
    forall port : gmap string value, port ∈ rows Boxes.grazing_port ->
      (1 < euclidean (coords_of "latitude" "longitude" (Boxes.vessel 0 0 5))
                     (coords_of "Latitude" "Longitude" port))%R.
Proof.
  exists (annotate (lib := Boxes.first_found) Boxes.grazing_port Boxes.at_the_origin),
         (annotate_row (lib := Boxes.first_found) Boxes.grazing_port (Boxes.vessel 0 0 5)).
  split; [apply create_proximity_columns_run; vm_compute; reflexivity|].
  split; [reflexivity|]. split; [vm_compute; reflexivity|].
  intros port Hport. apply list_elem_of_singleton in Hport. subst port.
  assert (Ev : coords_of "latitude" "longitude" (Boxes.vessel 0 0 5) = (0%Q, 0%Q))
    by (vm_compute; reflexivity).
  assert (Ep : coords_of "Latitude" "Longitude" (Boxes.port "Gamma" 1 (1 # 1073741824))
               = (1%Q, (1 # 1073741824)%Q)) by (vm_compute; reflexivity).
  rewrite Ev, Ep. unfold euclidean. cbn [fst snd].
  assert (He : (0 < Q2R (1 # 1073741824))%R).
  { unfold Q2R. apply Rmult_lt_0_compat; [|apply Rinv_0_lt_compat]; now apply IZR_lt. }
  assert (H0 : Q2R 0 = 0%R) by apply RMicromega.Q2R_0.
  assert (H1 : Q2R 1 = 1%R) by apply RMicromega.Q2R_1.
  rewrite H0, H1. set (e := Q2R (1 # 1073741824)) in *.
  assert (Hee : (0 < e * e)%R) by (apply Rmult_lt_0_compat; exact He).
  clearbody e. clear Ev Ep H0 H1.
  apply (Rle_lt_trans _ (sqrt 1)); [rewrite sqrt_1; apply Rle_refl|].
  apply sqrt_lt_1; [Lra.lra | Lra.nra | Lra.nra].
Qed.

(** C7.  The threshold flags are nested: in every annotated record a "Yes"
    under a smaller threshold comes with a "Yes" under every larger one. *)
Theorem threshold_flags_monotone {lib : KDTree.TieBreak}
        (r : nat) (port_info df : DataFrame) (h : gmap nat DataFrame) :
  h !! r = Some df -> ready df port_info = true ->
  exists df',
    create_proximity_columns r port_info h = (Ok r, <[r := df']> h) /\
    length (rows df') = length (rows df) /\
    forall row : gmap string value, row ∈ rows df' ->
      (cell "Less than 1 km from port" row = VStr "Yes" ->
       cell "Less than 3 km from port" row = VStr "Yes" /\
       cell "Less than 5 km from port" row = VStr "Yes" /\
       cell "Less than 10 km from port" row = VStr "Yes") /\
      (cell "Less than 3 km from port" row = VStr "Yes" ->
       cell "Less than 5 km from port" row = VStr "Yes" /\
       cell "Less than 10 km from port" row = VStr "Yes") /\
      (cell "Less than 5 km from port" row = VStr "Yes" ->
       cell "Less than 10 km from port" row = VStr "Yes").
Proof.
  intros Hh Hready. exists (annotate port_info df).
  split; [now apply create_proximity_columns_run|].
  split; [unfold annotate; simpl; apply length_map|].
  intros row' Hrow'. apply annotate_elem in Hrow' as (row & _ & ->).
  destruct (annotate_row_flags port_info row) as (-> & -> & -> & ->).
  set (r' := annotate_row port_info row).
  assert (H13 : (1 <= 3)%Q) by (compute; discriminate).
  assert (H15 : (1 <= 5)%Q) by (compute; discriminate).
  assert (H110 : (1 <= 10)%Q) by (compute; discriminate).
  assert (H35 : (3 <= 5)%Q) by (compute; discriminate).
  assert (H310 : (3 <= 10)%Q) by (compute; discriminate).
  assert (H510 : (5 <= 10)%Q) by (compute; discriminate).
  split; [|split]; intros Hyes; repeat split; eauto using flag_of_mono.
Qed.

Lemma threshold_flags_monotone_witness :
  exists df',
    create_proximity_columns (lib := Boxes.first_found) 0 Boxes.ports {[0%nat := Boxes.vessels]}
    = (Ok 0%nat, <[0%nat := df']> {[0%nat := Boxes.vessels]}) /\
    length (rows df') = length (rows Boxes.vessels) /\
    forall row : gmap string value, row ∈ rows df' ->
      (cell "Less than 1 km from port" row = VStr "Yes" ->
       cell "Less than 3 km from port" row = VStr "Yes" /\
       cell "Less than 5 km from port" row = VStr "Yes" /\
       cell "Less than 10 km from port" row = VStr "Yes") /\
      (cell "Less than 3 km from port" row = VStr "Yes" ->
       cell "Less than 5 km from port" row = VStr "Yes" /\
       cell "Less than 10 km from port" row = VStr "Yes") /\
      (cell "Less than 5 km from port" row = VStr "Yes" ->
       cell "Less than 10 km from port" row = VStr "Yes").
Proof.
  apply (threshold_flags_monotone (lib := Boxes.first_found) 0%nat Boxes.ports Boxes.vessels {[0%nat := Boxes.vessels]}); reflexivity.
Defined.

(** C4.  In every annotated record the distance cell is the distance the
    query returned; when the four flags all read "No" the port name is the
    sentinel "No" and both port coordinates are null; when some flag reads
    "Yes" the name and the coordinates are those of the port the query
    answered with, whichever of several equidistant ports that is. *)
Theorem far_records_lose_port_identity {lib : KDTree.TieBreak}
        (r : nat) (port_info df : DataFrame) (h : gmap nat DataFrame) :
  h !! r = Some df -> ready df port_info = true ->
  exists df',
    create_proximity_columns r port_info h = (Ok r, <[r := df']> h) /\
    forall (i : nat) (row : gmap string value),
      rows df !! i = Some row ->
      let found := nearest_port port_info row in
      let port := nth (snd found) (rows port_info) ∅ in
      exists row' : gmap string value,
        rows df' !! i = Some row' /\
        cell "Distance to Nearest Port" row' = fst found /\
        (cell "Less than 1 km from port" row' = VStr "No" /\
         cell "Less than 3 km from port" row' = VStr "No" /\
         cell "Less than 5 km from port" row' = VStr "No" /\
         cell "Less than 10 km from port" row' = VStr "No" ->
         cell "Proximity Port Name" row' = VStr "No" /\
         cell "Port Latitude" row' = VNaN /\
         cell "Port Longitude" row' = VNaN) /\
        (cell "Less than 1 km from port" row' = VStr "Yes" \/
         cell "Less than 3 km from port" row' = VStr "Yes" \/
         cell "Less than 5 km from port" row' = VStr "Yes" \/
         cell "Less than 10 km from port" row' = VStr "Yes" ->
         cell "Proximity Port Name" row' = cell "Main Port Name" port /\
         cell "Port Latitude" row' = cell "Latitude" port /\
         cell "Port Longitude" row' = cell "Longitude" port).
Proof.
  intros Hh Hready. exists (annotate port_info df).
  split; [now apply create_proximity_columns_run|].
  intros i row Hrow found port. exists (annotate_row port_info row).
  split; [now apply annotate_lookup|].
  split; [apply annotate_row_distance|].
  pose proof (annotate_row_port port_info row) as Hport. cbv zeta in Hport.
  fold found in Hport. fold port in Hport.
  unfold far_from_all in Hport. split.
  - intros (H1 & H3 & H5 & H10). rewrite H1, H3, H5, H10 in Hport. exact Hport.
  - intros H.
    destruct (annotate_row_flags port_info row) as (E1 & E3 & E5 & E10).
    destruct (andb _ _) eqn:Efar in Hport; [|exact Hport].
    rewrite !andb_true_iff in Efar. destruct Efar as (((F1 & F3) & F5) & F10).
    exfalso. destruct H as [H|[H|[H|H]]]; rewrite H in *; discriminate.
Qed.

Lemma far_records_lose_port_identity_witness :
  exists df',
    create_proximity_columns (lib := Boxes.first_found) 0 Boxes.ports {[0%nat := Boxes.vessels]}
    = (Ok 0%nat, <[0%nat := df']> {[0%nat := Boxes.vessels]}) /\
    forall (i : nat) (row : gmap string value),
      rows Boxes.vessels !! i = Some row ->
      let found := nearest_port (lib := Boxes.first_found) Boxes.ports row in
      let port := nth (snd found) (rows Boxes.ports) ∅ in
      exists row' : gmap string value,
        rows df' !! i = Some row' /\
        cell "Distance to Nearest Port" row' = fst found /\
        (cell "Less than 1 km from port" row' = VStr "No" /\
         cell "Less than 3 km from port" row' = VStr "No" /\
         cell "Less than 5 km from port" row' = VStr "No" /\
         cell "Less than 10 km from port" row' = VStr "No" ->
         cell "Proximity Port Name" row' = VStr "No" /\
         cell "Port Latitude" row' = VNaN /\
         cell "Port Longitude" row' = VNaN) /\
        (cell "Less than 1 km from port" row' = VStr "Yes" \/
         cell "Less than 3 km from port" row' = VStr "Yes" \/
         cell "Less than 5 km from port" row' = VStr "Yes" \/
         cell "Less than 10 km from port" row' = VStr "Yes" ->
         cell "Proximity Port Name" row' = cell "Main Port Name" port /\
         cell "Port Latitude" row' = cell "Latitude" port /\
         cell "Port Longitude" row' = cell "Longitude" port).
Proof.
  apply (far_records_lose_port_identity (lib := Boxes.first_found) 0%nat Boxes.ports Boxes.vessels
                                        {[0%nat := Boxes.vessels]}); reflexivity.
Defined.

(** What the comparison of line 56 computes: the flag reads "Yes" exactly
    when the distance is at most the threshold. *)
Lemma threshold_flag_is_le {lib : KDTree.TieBreak} (port_info : DataFrame) (row : gmap string value) (dist : Q) :
  flag_of dist (annotate_row port_info row) = VStr "Yes" <->
  value_le (fst (nearest_port port_info row)) dist = true.
Proof.
  unfold flag_of. rewrite annotate_row_distance.
  destruct (value_le _ dist); simpl; split; congruence.
Qed.

(** C3.  The flag is computed with [<=], not [<]: the first vessel of the
    example lies at distance exactly 1 from port Alpha, and its flag
    "Less than 1 km from port" reads "Yes". *)
Theorem flag_at_exact_threshold :
  exists (df' : DataFrame) (row' : gmap string value),
    create_proximity_columns (lib := Boxes.first_found) 0 Boxes.ports {[0%nat := Boxes.vessels]}
    = (Ok 0%nat, <[0%nat := df']> {[0%nat := Boxes.vessels]}) /\
    rows df' !! 0%nat = Some row' /\
    cell "Distance to Nearest Port" row' = VNum 1 /\
    cell "Less than 1 km from port" row' = VStr "Yes".
Proof.
  exists (annotate (lib := Boxes.first_found) Boxes.ports Boxes.vessels),
         (annotate_row (lib := Boxes.first_found) Boxes.ports (Boxes.vessel 0 0 5)).
  split; [apply create_proximity_columns_run; reflexivity|].
  split; [reflexivity|]. split; vm_compute; reflexivity.
Qed.

(** Two ports of the twenty-port table are at distance 2.5 from the point
    (2.5, 1): the library's choice decides between them, and the distance is
    the same. *)
Example equidistant_ports :
  nearest_port (lib := fun _ _ => 12%nat) Boxes.many_ports (Boxes.vessel (5 # 2) 1 0)
  = (VNum (5 # 2), 12%nat) /\
  nearest_port (lib := fun _ _ => 15%nat) Boxes.many_ports (Boxes.vessel (5 # 2) 1 0)
  = (VNum (5 # 2), 15%nat).
Proof. split; vm_compute; reflexivity. Qed.

(** ** The polygon containment annotator *)

Lemma setitem_rows (cols : list string) (rs : list (gmap string value))
      (f : gmap string value -> value) (c : string) :
  setitem (mkDF cols rs) c (map f rs)
  = Ok (mkDF (add_label cols c) (map (fun r => <[c := f r]> r) rs)).
Proof.
  rewrite <- (map_id rs) at 1. rewrite setitem_map. do 2 f_equal.
Qed.

Lemma map_flat_map {A B C} (f : B -> C) (g : A -> list B) (l : list A) :
  map f (flat_map g l) = flat_map (fun a => map f (g a)) l.
Proof.
  induction l as [|a l IH]; simpl; [reflexivity|]. now rewrite map_app, IH.
Qed.

Lemma flat_map_map {A B C} (f : A -> B) (g : B -> list C) (l : list A) :
  flat_map g (map f l) = flat_map (fun a => g (f a)) l.
Proof. induction l as [|a l IH]; simpl; [reflexivity | now rewrite IH]. Qed.

Lemma flat_map_flat_map {A B C} (f : B -> list C) (g : A -> list B) (l : list A) :
  flat_map f (flat_map g l) = flat_map (fun a => flat_map f (g a)) l.
Proof.
  induction l as [|a l IH]; simpl; [reflexivity|]. now rewrite flat_map_app, IH.
Qed.

Lemma fold_add_label_present (labels acc : list string) :
  (forall c, c ∈ labels -> c ∈ acc) -> fold_left add_label labels acc = acc.
Proof.
  induction labels as [|c labels IH]; intros H; simpl; [reflexivity|].
  rewrite add_label_present by (apply H; left). apply IH.
  intros c' Hc'. apply H. now right.
Qed.

(** *** Chunking *)

Lemma range_chunks (n : nat) (chunk_size : Z) :
  (0 < chunk_size)%Z ->
  exists m : nat,
    range 0 (Z.of_nat n) chunk_size
    = Ok (map (fun k : nat => Z.of_nat (k * Z.to_nat chunk_size)) (seq 0 m)) /\
    (n <= m * Z.to_nat chunk_size)%nat /\ (n = 0%nat <-> m = 0%nat).
Proof.
  intros Hcs. unfold range.
  destruct (Z.eqb_spec chunk_size 0); [lia|].
  destruct (Z.ltb_spec 0 chunk_size); [|lia].
  set (count := if (Z.of_nat n <=? 0)%Z then 0%Z
                else ((Z.of_nat n - 0 - 1) / Z.abs chunk_size + 1)%Z).
  exists (Z.to_nat count). split; [|split].
  - f_equal. apply map_ext. intros k. rewrite Nat2Z.inj_mul, Z2Nat.id by lia. lia.
  - subst count. destruct (Z.leb_spec (Z.of_nat n) 0); [lia|].
    rewrite Z.abs_eq by lia.
    assert (Hlt : (Z.of_nat n - 0 - 1 < chunk_size * ((Z.of_nat n - 0 - 1) / chunk_size + 1))%Z).
    { pose proof (Z.mul_succ_div_gt (Z.of_nat n - 0 - 1) chunk_size Hcs). lia. }
    assert (Hq : (0 <= (Z.of_nat n - 0 - 1) / chunk_size)%Z) by (apply Z.div_pos; lia).
    nia.
  - subst count. destruct (Z.leb_spec (Z.of_nat n) 0); [lia|].
    rewrite Z.abs_eq by lia.
    assert (Hq : (0 <= (Z.of_nat n - 0 - 1) / chunk_size)%Z) by (apply Z.div_pos; lia).
    lia.
Qed.

Lemma iloc_chunk (df : DataFrame) (chunk_size : Z) (k : nat) :
  (0 < chunk_size)%Z ->
  let c := Z.to_nat chunk_size in
  iloc df (Z.of_nat (k * c)) (Z.of_nat (k * c) + chunk_size)
  = mkDF (columns df) (take c (drop (k * c) (rows df))).
Proof.
  intros Hcs c. unfold iloc, clip, len. f_equal.
  set (n := length (rows df)).
  destruct (Z.ltb_spec (Z.of_nat (k * c)) 0); [lia|].
  destruct (Z.ltb_spec (Z.of_nat (k * c) + chunk_size) 0); [lia|].
  destruct (le_lt_dec n (k * c)) as [Hge|Hlt].
  - rewrite !drop_ge by (fold n; lia). now rewrite !take_nil.
  - replace (Z.to_nat (Z.min (Z.of_nat (k * c)) (Z.of_nat n))) with (k * c)%nat by lia.
    destruct (le_lt_dec (k * c + c) n) as [Hfull|Hpart].
    + f_equal. lia.
    + rewrite !take_ge; [reflexivity|..]; rewrite length_drop; fold n; lia.
Qed.

Lemma chunks_cover {A} (c : nat) (m : nat) : forall l : list A,
  (0 < c)%nat -> (length l <= m * c)%nat ->
  flat_map (fun k => take c (drop (k * c) l)) (seq 0 m) = l.
Proof.
  induction m as [|m IH]; intros l Hc Hl.
  - simpl in *. destruct l; [reflexivity | simpl in Hl; lia].
  - rewrite <- cons_seq, <- seq_shift. cbn [flat_map]. rewrite flat_map_map.
    transitivity (take c l ++ drop c l); [|apply take_drop]. f_equal.
    rewrite <- (IH (drop c l) Hc) by (rewrite length_drop; lia).
    apply flat_map_ext. intros k. f_equal. rewrite drop_drop. f_equal; lia.
Qed.

Section PolygonFacts.

Variable geometry : Type.
Variable within : Q * Q -> geometry -> bool.
Variable to_crs : geometry -> geometry.

Lemma points_from_xy_run (rs : list (gmap string value)) :
  forallb has_point rs = true ->
  points_from_xy (map (cell "longitude") rs) (map (cell "latitude") rs)
  = Ok (map locate rs).
Proof.
  intros H. unfold points_from_xy. rewrite forallb_forall in H.
  set (coordinate c r := match as_float64 (cell c r) with Ok x => x | Raise _ => None end).
  assert (Hc : forall c, c = "longitude" \/ c = "latitude" ->
             rmapM as_float64 (map (cell c) rs) = Ok (map (coordinate c) rs)).
  { intros c Hc. rewrite rmapM_map. apply rmapM_Ok. intros r Hr. specialize (H r Hr).
    unfold has_point, point_from_xy in H. cbn [fst snd] in H. unfold coordinate.
    destruct Hc as [-> | ->].
    - now destruct (as_float64 (cell "longitude" r)).
    - destruct (as_float64 (cell "longitude" r)); [|discriminate].
      now destruct (as_float64 (cell "latitude" r)). }
  rewrite (Hc "longitude" (or_introl eq_refl)), (Hc "latitude" (or_intror eq_refl)).
  cbn [rbind]. f_equal. rewrite zip_with_map.
  apply map_ext_in. intros r Hr. specialize (H r Hr).
  unfold has_point, locate, point_from_xy, coordinate in *. cbn [fst snd] in *.
  destruct (as_float64 (cell "longitude" r)); [|discriminate].
  now destruct (as_float64 (cell "latitude" r)).
Qed.

Lemma sjoin_run (cols : list string) (rs : list (gmap string value))
      (polygons : list (PortPolygon geometry)) :
  "index_right" ∉ cols -> "port_name" ∉ cols ->
  sjoin geometry within
        (mkDF (add_label cols "geometry") (map (fun r => <["geometry" := locate r]> r) rs))
        polygons
  = Ok (mkDF (add_label cols "geometry" ++ ["index_right"; "port_name"])
             (flat_map (joined_rows geometry within polygons) rs)).
Proof.
  intros Hi Hp. unfold sjoin. cbn [columns rows].
  destruct (decide ("index_right" ∈ add_label cols "geometry")) as [H|_].
  { apply elem_of_add_label in H as [H|H]; [contradiction | discriminate]. }
  rewrite bool_decide_eq_false_2.
  2:{ intros H. apply elem_of_add_label in H as [H|H]; [contradiction | discriminate]. }
  now rewrite flat_map_map.
Qed.

Lemma process_chunk_run (cols : list string) (rs : list (gmap string value))
      (polygons : list (PortPolygon geometry)) :
  joinable (mkDF cols rs) = true ->
  process_chunk geometry within polygons (mkDF cols rs)
  = Ok (mkDF (chunk_columns cols) (flat_map (contain_row geometry within polygons) rs)).
Proof.
  unfold joinable. cbn [columns rows].
  rewrite !andb_true_iff, !negb_true_iff, !bool_decide_eq_true, !bool_decide_eq_false.
  intros ((((Hlon & Hlat) & Hpt) & Hi) & Hp).
  unfold process_chunk.
  rewrite !getitem_Ok by assumption. cbn [rbind rows].
  rewrite (points_from_xy_run _ Hpt). cbn [rbind].
  rewrite setitem_rows. cbn [rbind].
  rewrite (sjoin_run _ _ _ Hi Hp). cbn [rbind].
  set (L := flat_map _ rs).
  rewrite getitem_Ok by (cbn [columns]; set_solver). cbn [rbind rows].
  rewrite map_map, setitem_rows. cbn [rbind].
  rewrite !getitem_Ok
    by (cbn [columns]; rewrite elem_of_add_label, elem_of_app; set_solver).
  cbn [rbind rows]. rewrite !map_map.
  unfold where_. rewrite zip_with_map, setitem_map. cbn [rbind].
  unfold drop_columns. cbn [columns rows].
  replace (List.find _ ["geometry"; "index_right"]) with (@None string).
  2:{ cbn [List.find]. rewrite !bool_decide_eq_true_2; [reflexivity|..];
      rewrite !elem_of_add_label, elem_of_app, elem_of_add_label; set_solver. }
  unfold chunk_columns. do 2 f_equal.
  rewrite map_map. subst L. unfold contain_row. rewrite map_flat_map.
  reflexivity.
Qed.

Lemma joinable_sublist (cols : list string) (rs rs' : list (gmap string value)) :
  (forall r, In r rs' -> In r rs) ->
  joinable (mkDF cols rs) = true -> joinable (mkDF cols rs') = true.
Proof.
  unfold joinable. cbn [columns rows]. rewrite !andb_true_iff, !forallb_forall.
  intros Hsub ((((H1 & H2) & H3) & H4) & H5). repeat split; auto.
Qed.

Lemma concat_same_columns (cols : list string) (parts : list (list (gmap string value))) :
  parts <> [] ->
  concat (map (fun rs => mkDF cols rs) parts)
  = Ok (mkDF cols (map (reindex cols) (List.concat parts))).
Proof.
  destruct parts as [|p parts]; [congruence|]. intros _. unfold concat.
  cbn [map columns].
  assert (Hcols : forall acc,
    (forall c, c ∈ cols -> c ∈ acc) ->
    fold_left (fun acc df => fold_left add_label (columns df) acc)
              (map (fun rs => mkDF cols rs) parts) acc = acc).
  { induction parts as [|q parts IH]; intros acc Hacc; [reflexivity|].
    cbn [map fold_left columns]. rewrite fold_add_label_present by exact Hacc.
    now apply IH. }
  rewrite Hcols by auto. do 2 f_equal.
  change (mkDF cols p :: map (fun rs => mkDF cols rs) parts)
    with (map (fun rs => mkDF cols rs) (p :: parts)).
  rewrite flat_map_map. cbn [rows].
  generalize (p :: parts). intros l.
  induction l as [|a l IH]; simpl; [reflexivity|]. now rewrite map_app, IH.
Qed.

(** On a frame it accepts, with records in it and a positive chunk size, the
    containment stage returns, whatever the chunk size, the records joined
    one by one in their order. *)
Lemma process_with_polygons_run (df : DataFrame)
      (polygons : list (PortPolygon geometry)) (chunk_size : Z) :
  joinable df = true -> rows df <> [] -> (0 < chunk_size)%Z ->
  process_with_polygons geometry within to_crs df polygons chunk_size
  = Ok (contain geometry within to_crs polygons df).
Proof.
  intros Hj Hne Hcs. unfold process_with_polygons.
  destruct (range_chunks (len df) chunk_size Hcs) as (m & -> & Hm & Hm0).
  cbn [rbind]. set (c := Z.to_nat chunk_size) in *.
  assert (Hc : (0 < c)%nat) by (subst c; lia).
  set (ps := set_crs geometry to_crs polygons).
  rewrite rmapM_map.
  rewrite (rmapM_Ok _ (fun k => mkDF (chunk_columns (columns df))
             (flat_map (contain_row geometry within ps) (take c (drop (k * c) (rows df)))))).
  2:{ intros k _. pose proof (iloc_chunk df chunk_size k Hcs) as E.
      cbv zeta in E. fold c in E. rewrite E.
      apply process_chunk_run.
      apply (joinable_sublist _ (rows df)); [|now destruct df].
      intros r Hr. apply list_elem_of_In in Hr. apply list_elem_of_In.
      apply (subseteq_drop (k * c)), (subseteq_take c), Hr. }
  cbn [rbind].
  rewrite <- (map_map (fun k => flat_map (contain_row geometry within ps)
                                         (take c (drop (k * c) (rows df))))
                      (fun rs => mkDF (chunk_columns (columns df)) rs)).
  rewrite concat_same_columns.
  2:{ destruct m; [|discriminate]. exfalso. apply Hne.
      assert (len df = 0%nat) by now apply Hm0. now apply nil_length_inv. }
  unfold contain. fold ps. do 3 f_equal.
  rewrite <- flat_map_concat_map.
  transitivity (flat_map (contain_row geometry within ps)
                  (flat_map (fun k => take c (drop (k * c) (rows df))) (seq 0 m))).
  - now rewrite flat_map_flat_map.
  - now rewrite chunks_cover.
Qed.

(** *** Acceptance is necessary *)

Lemma points_from_xy_inv (rs : list (gmap string value)) (geom : list value) :
  points_from_xy (map (cell "longitude") rs) (map (cell "latitude") rs) = Ok geom ->
  forallb has_point rs = true.
Proof.
  unfold points_from_xy. intros H.
  destruct (rmapM as_float64 (map (cell "longitude") rs)) as [xs|] eqn:Hx; [|discriminate].
  destruct (rmapM as_float64 (map (cell "latitude") rs)) as [ys|] eqn:Hy; [|discriminate].
  rewrite rmapM_map in Hx, Hy. apply rmapM_inv in Hx, Hy.
  apply forallb_forall. intros r Hr.
  apply list_elem_of_In in Hr.
  apply list_elem_of_lookup in Hr as [i Hi].
  destruct (Forall2_lookup_l _ _ _ _ _ Hx Hi) as (x & _ & Ex).
  destruct (Forall2_lookup_l _ _ _ _ _ Hy Hi) as (y & _ & Ey).
  unfold has_point, point_from_xy. cbn [fst snd]. now rewrite Ex, Ey.
Qed.

Lemma process_chunk_inv (cols : list string) (rs : list (gmap string value))
      (polygons : list (PortPolygon geometry)) (out : DataFrame) :
  process_chunk geometry within polygons (mkDF cols rs) = Ok out ->
  joinable (mkDF cols rs) = true.
Proof.
  unfold process_chunk, joinable. cbn [columns rows].
  unfold getitem at 1. cbn [columns].
  destruct (decide ("longitude" ∈ cols)) as [Hlon|]; [|discriminate].
  cbn [rbind]. unfold getitem at 1. cbn [columns].
  destruct (decide ("latitude" ∈ cols)) as [Hlat|]; [|discriminate].
  cbn [rbind rows].
  destruct (points_from_xy _ _) as [geom|] eqn:Hg; [|discriminate].
  pose proof (points_from_xy_inv _ _ Hg) as Hpt.
  rewrite (points_from_xy_run _ Hpt) in Hg. injection Hg as <-.
  cbn [rbind]. rewrite setitem_rows. cbn [rbind].
  rewrite (bool_decide_eq_true_2 _ Hlon), (bool_decide_eq_true_2 _ Hlat), Hpt. cbn [andb].
  unfold sjoin. cbn [columns rows].
  destruct (decide ("index_right" ∈ add_label cols "geometry")) as [|Hi]; [discriminate|].
  rewrite (bool_decide_eq_false_2 ("index_right" ∈ cols))
    by (intros H; apply Hi, elem_of_add_label; now left).
  cbn [negb andb rbind].
  destruct (bool_decide ("port_name" ∈ add_label cols "geometry")) eqn:Hclash.
  2:{ intros _. apply bool_decide_eq_false in Hclash.
      rewrite (bool_decide_eq_false_2 ("port_name" ∈ cols)); [reflexivity|].
      intros H. apply Hclash, elem_of_add_label. now left. }
  set (lcols := map _ (add_label cols "geometry")).
  set (L := flat_map _ _).
  rewrite getitem_Ok by (cbn [columns]; set_solver). cbn [rbind rows].
  rewrite map_map, setitem_rows. cbn [rbind].
  unfold getitem at 1. cbn [columns].
  destruct (decide ("port_name" ∈ _)) as [Hin|]; [|discriminate].
  exfalso. apply elem_of_add_label in Hin as [Hin|Hin]; [|discriminate].
  apply elem_of_app in Hin as [Hin|Hin];
    [|repeat (apply elem_of_cons in Hin as [Hin|Hin]; [discriminate|]); inversion Hin].
  subst lcols. apply list_elem_of_fmap in Hin as (c & Hc & _).
  destruct (String.eqb_spec c "port_name"); [discriminate | congruence].
Qed.


Lemma process_with_polygons_inv (df : DataFrame)
      (polygons : list (PortPolygon geometry)) (chunk_size : Z) (out : DataFrame) :
  rows df <> [] -> (0 < chunk_size)%Z ->
  process_with_polygons geometry within to_crs df polygons chunk_size = Ok out ->
  joinable df = true.
Proof.
  intros Hne Hcs. unfold process_with_polygons.
  destruct (range_chunks (len df) chunk_size Hcs) as (m & -> & Hm & Hm0).
  cbn [rbind]. set (c := Z.to_nat chunk_size) in *.
  assert (Hc : (0 < c)%nat) by (subst c; lia).
  rewrite rmapM_map.
  destruct (rmapM _ (seq 0 m)) as [results|] eqn:Hres; [|discriminate]. intros _.
  apply rmapM_inv in Hres.
  assert (Hchunk : forall k, (k < m)%nat ->
            joinable (mkDF (columns df) (take c (drop (k * c) (rows df)))) = true).
  { intros k Hk.
    assert (Hk' : seq 0 m !! k = Some k) by (apply lookup_seq; lia).
    destruct (Forall2_lookup_l _ _ _ _ _ Hres Hk') as (res & _ & Hr).
    pose proof (iloc_chunk df chunk_size k Hcs) as E. cbv zeta in E. fold c in E.
    rewrite E in Hr. eapply process_chunk_inv, Hr. }
  assert (Hm1 : (0 < m)%nat).
  { destruct m; [|lia]. exfalso. apply Hne, nil_length_inv. now apply Hm0. }
  pose proof (Hchunk 0%nat Hm1) as H0. unfold joinable in *. cbn [columns rows] in *.
  rewrite !andb_true_iff in H0. destruct H0 as ((((H1 & H2) & _) & H4) & H5).
  rewrite H1, H2, H4, H5, !andb_true_r. cbn [andb].
  rewrite <- (chunks_cover c m (rows df) Hc Hm). apply forallb_forall.
  intros r Hr. apply in_flat_map in Hr as (k & Hk & Hr). apply in_seq in Hk.
  specialize (Hchunk k ltac:(lia)). rewrite !andb_true_iff in Hchunk.
  destruct Hchunk as ((((_ & _) & H3) & _) & _).
  rewrite forallb_forall in H3. now apply H3.
Qed.

Lemma flat_map_ext_in {A B} (f g : A -> list B) (l : list A) :
  (forall a, In a l -> f a = g a) -> flat_map f l = flat_map g l.
Proof.
  induction l as [|a l IH]; intros H; simpl; [reflexivity|].
  rewrite (H a) by now left. rewrite IH; [reflexivity|].
  intros b Hb. apply H. now right.
Qed.

(** C6.  On a non-empty dataset the containment stage returns a frame with
    chunk size 1 exactly when it does with the whole dataset as one chunk,
    and the same frame; on a dataset the stage accepts both runs return, and
    the rows are, in the order of the input, the rows the stage returns for
    each record taken alone. *)
Theorem batch_size_invariance (df : DataFrame) (polygons : list (PortPolygon geometry)) :
  rows df <> [] ->
  let one := process_with_polygons geometry within to_crs df polygons 1 in
  let all := process_with_polygons geometry within to_crs df polygons (Z.of_nat (len df)) in
  let alone r :=
    match process_with_polygons geometry within to_crs (mkDF (columns df) [r]) polygons 1 with
    | Ok part => rows part
    | Raise _ => []
    end in
  (forall out, one = Ok out <-> all = Ok out) /\
  (joinable df = true ->
   exists out, one = Ok out /\ all = Ok out /\ rows out = flat_map alone (rows df)).
Proof.
  intros Hne one all alone.
  assert (Hn : (0 < Z.of_nat (len df))%Z).
  { unfold len. destruct (rows df); [congruence | simpl; lia]. }
  split.
  - intros out. subst one all. split; intros H.
    + pose proof (process_with_polygons_inv df polygons 1 out Hne eq_refl H) as Hj.
      rewrite process_with_polygons_run in H by (assumption || lia).
      now rewrite process_with_polygons_run.
    + pose proof (process_with_polygons_inv _ _ _ _ Hne Hn H) as Hj.
      rewrite process_with_polygons_run in H by assumption.
      now rewrite process_with_polygons_run by (assumption || lia).
  - intros Hj. exists (contain geometry within to_crs polygons df). subst one all.
    rewrite !process_with_polygons_run by (assumption || lia).
    split; [reflexivity|]. split; [reflexivity|].
    unfold contain at 1. cbn [rows]. rewrite map_flat_map.
    apply flat_map_ext_in. intros r Hr. subst alone. cbv beta.
    rewrite process_with_polygons_run; [| |discriminate|reflexivity].
    + unfold contain. cbn [rows columns flat_map]. now rewrite app_nil_r.
    + apply (joinable_sublist _ (rows df)); [|now destruct df].
      intros r' [<-|[]]. exact Hr.
Qed.

(** *** One record, one row *)

Lemma filter_at_most_one {A} (f : A -> bool) (l : list A) :
  (forall i j a b, l !! i = Some a -> l !! j = Some b ->
                   f a = true -> f b = true -> i = j) ->
  (length (List.filter f l) <= 1)%nat.
Proof.
  induction l as [|a l IH]; intros H; simpl; [lia|].
  assert (Hl : (length (List.filter f l) <= 1)%nat).
  { apply IH. intros i j x y Hi Hj Hx Hy.
    specialize (H (S i) (S j) x y Hi Hj Hx Hy). lia. }
  destruct (f a) eqn:Ea; [|exact Hl]. simpl.
  destruct (List.filter f l) as [|b rest] eqn:Ef; [simpl; lia|]. exfalso.
  assert (Hb : In b (List.filter f l)) by (rewrite Ef; now left).
  apply filter_In in Hb as [Hb Hfb].
  apply list_elem_of_In, list_elem_of_lookup in Hb as [j Hj].
  specialize (H 0%nat (S j) a b eq_refl Hj Ea Hfb). discriminate.
Qed.

Lemma filter_map_comm {A B} (f : B -> bool) (g : A -> B) (l : list A) :
  List.filter f (map g l) = map g (List.filter (fun a => f (g a)) l).
Proof.
  induction l as [|a l IH]; simpl; [reflexivity|].
  destruct (f (g a)); simpl; now rewrite IH.
Qed.

Lemma locate_geom (r : gmap string value) : locate r = VGeom (point_of r).
Proof.
  unfold point_of, locate, point_from_xy.
  destruct (cell "longitude" r), (cell "latitude" r); simpl; reflexivity.
Qed.

Lemma matches_set_crs (polygons : list (PortPolygon geometry)) (r : gmap string value) :
  matches geometry within (set_crs geometry to_crs polygons) (<["geometry" := locate r]> r)
  = map (fun p => mkPolygon (label p) (port_name p) (to_crs (polygon p)))
        (containing geometry within to_crs polygons r).
Proof.
  unfold matches, containing. rewrite cell_insert, locate_geom.
  destruct (point_of r) as [pt|]; [|reflexivity].
  unfold set_crs. now rewrite filter_map_comm.
Qed.

Lemma containing_spec (polygons : list (PortPolygon geometry)) (r : gmap string value)
      (p : PortPolygon geometry) :
  In p (containing geometry within to_crs polygons r) <->
  exists pt, In p polygons /\ point_of r = Some pt /\ within pt (to_crs (polygon p)) = true.
Proof.
  unfold containing. destruct (point_of r) as [pt|].
  - rewrite filter_In. split.
    + intros [H1 H2]. now exists pt.
    + intros (pt' & H1 & [= <-] & H2). now split.
  - split; [intros []|]. intros (pt & _ & H & _). discriminate.
Qed.

Lemma containing_at_most_one (polygons : list (PortPolygon geometry)) (r : gmap string value) :
  non_overlapping geometry within to_crs polygons ->
  (length (containing geometry within to_crs polygons r) <= 1)%nat.
Proof.
  intros Hno. unfold containing. destruct (point_of r) as [pt|]; [|simpl; lia].
  apply filter_at_most_one. intros i j a b Hi Hj Ha Hb. exact (Hno pt i j a b Hi Hj Ha Hb).
Qed.

Lemma cell_delete_ne (c c' : string) (r : gmap string value) :
  c <> c' -> cell c (delete c' r) = cell c r.
Proof. intros H. unfold cell. now rewrite lookup_delete_ne. Qed.

Lemma finish_parked (r : gmap string value) :
  cell "Parked in Port" (finish r) = VBool (notnull (cell "index_right" r)).
Proof.
  unfold finish. rewrite !cell_delete_ne by discriminate.
  rewrite cell_insert_ne by discriminate. apply cell_insert.
Qed.

Lemma finish_port_name (r : gmap string value) :
  cell "Port Name" (finish r)
  = if notnull (cell "index_right" r) then cell "port_name" r else VStr "No".
Proof.
  unfold finish. rewrite !cell_delete_ne by discriminate.
  rewrite !cell_insert. rewrite cell_insert_ne by discriminate.
  now destruct (notnull _).
Qed.

Lemma reindex_cell (cols : list string) (c : string) : forall r : gmap string value,
  cell c (reindex cols r) = cell c r.
Proof.
  unfold reindex. induction cols as [|c' cols IH]; intros r; simpl; [reflexivity|].
  rewrite IH. destruct (r !! c') eqn:E; [reflexivity|].
  destruct (decide (c = c')) as [->|Hne].
  - rewrite cell_insert. unfold cell. now rewrite E.
  - now apply cell_insert_ne.
Qed.

(** With no two polygons overlapping, a record yields exactly one row. *)
Lemma contain_row_single (polygons : list (PortPolygon geometry)) (r : gmap string value) :
  non_overlapping geometry within to_crs polygons ->
  exists r',
    contain_row geometry within (set_crs geometry to_crs polygons) r = [r'] /\
    match containing geometry within to_crs polygons r with
    | [] => cell "Parked in Port" r' = VBool false /\ cell "Port Name" r' = VStr "No"
    | p :: _ => cell "Parked in Port" r' = VBool true /\ cell "Port Name" r' = port_name p
    end /\
    (forall c, c ∉ ["geometry"; "index_right"; "port_name"; "Parked in Port"; "Port Name"] ->
               r' !! c = r !! c).
Proof.
  intros Hno. pose proof (containing_at_most_one polygons r Hno) as Hlen.
  unfold contain_row, joined_rows. rewrite matches_set_crs.
  assert (Hframe : forall v w c,
    c ∉ ["geometry"; "index_right"; "port_name"; "Parked in Port"; "Port Name"] ->
    finish (<["port_name" := v]> (<["index_right" := w]> (<["geometry" := locate r]> r))) !! c
    = r !! c).
  { intros v w c Hc. unfold finish.
    rewrite !lookup_delete_ne by (intros <-; set_solver).
    rewrite !lookup_insert_ne by (intros <-; set_solver). reflexivity. }
  destruct (containing geometry within to_crs polygons r) as [|p [|q rest]];
    [| |simpl in Hlen; lia]; cbn [map]; eexists; (split; [reflexivity|]);
    (split; [|intros c Hc; now apply Hframe]).
  - rewrite finish_parked, finish_port_name.
    rewrite cell_insert_ne by discriminate. rewrite cell_insert. now split.
  - rewrite finish_parked, finish_port_name.
    rewrite cell_insert_ne by discriminate. rewrite !cell_insert. now split.
Qed.


Lemma flat_map_singletons {A B} (f : A -> list B) (d : B) (l : list A) :
  (forall a, exists b, f a = [b]) -> flat_map f l = map (fun a => hd d (f a)) l.
Proof.
  intros H. induction l as [|a l IH]; simpl; [reflexivity|].
  destruct (H a) as [b ->]. simpl. now rewrite IH.
Qed.

Lemma contain_lookup (polygons : list (PortPolygon geometry)) (df : DataFrame)
      (i : nat) (r : gmap string value) :
  non_overlapping geometry within to_crs polygons ->
  rows df !! i = Some r ->
  exists r',
    contain_row geometry within (set_crs geometry to_crs polygons) r = [r'] /\
    rows (contain geometry within to_crs polygons df) !! i
    = Some (reindex (chunk_columns (columns df)) r').
Proof.
  intros Hno Hr. destruct (contain_row_single polygons r Hno) as (r' & Hr' & _).
  exists r'. split; [exact Hr'|]. unfold contain. cbn [rows].
  rewrite (flat_map_singletons _ ∅).
  2:{ intros a. destruct (contain_row_single polygons a Hno) as (a' & Ha' & _). eauto. }
  rewrite !list_lookup_fmap, Hr. simpl. now rewrite Hr'.
Qed.

Lemma contain_length (polygons : list (PortPolygon geometry)) (df : DataFrame) :
  non_overlapping geometry within to_crs polygons ->
  length (rows (contain geometry within to_crs polygons df)) = length (rows df).
Proof.
  intros Hno. unfold contain. cbn [rows]. rewrite (flat_map_singletons _ ∅).
  2:{ intros a. destruct (contain_row_single polygons a Hno) as (a' & Ha' & _). eauto. }
  now rewrite !length_map.
Qed.

(** C5.  With no two polygons overlapping, on a dataset the stage accepts,
    every record gets one row; its "Parked in Port" is true exactly when the
    point built from (longitude, latitude) is within some polygon of the
    table; "Port Name" is then that polygon's [port_name]; a record that is
    not parked has "Parked in Port" false and "Port Name" = "No". *)
Theorem parked_iff_within_a_polygon
        (df : DataFrame) (polygons : list (PortPolygon geometry)) (chunk_size : Z) :
  joinable df = true -> rows df <> [] -> (0 < chunk_size)%Z ->
  non_overlapping geometry within to_crs polygons ->
  exists out,
    process_with_polygons geometry within to_crs df polygons chunk_size = Ok out /\
    length (rows out) = length (rows df) /\
    forall (i : nat) (r : gmap string value),
      rows df !! i = Some r ->
      exists r' : gmap string value,
        rows out !! i = Some r' /\
        (cell "Parked in Port" r' = VBool true <->
         exists p pt, p ∈ polygons /\ point_of r = Some pt /\
                      within pt (to_crs (polygon p)) = true) /\
        (forall p pt, p ∈ polygons -> point_of r = Some pt ->
                      within pt (to_crs (polygon p)) = true ->
                      cell "Port Name" r' = port_name p) /\
        (cell "Parked in Port" r' <> VBool true ->
         cell "Parked in Port" r' = VBool false /\ cell "Port Name" r' = VStr "No").
Proof.
  intros Hj Hne Hcs Hno. exists (contain geometry within to_crs polygons df).
  split; [now apply process_with_polygons_run|].
  split; [now apply contain_length|].
  intros i r Hr.
  destruct (contain_lookup polygons df i r Hno Hr) as (r' & Hr' & Hout).
  exists (reindex (chunk_columns (columns df)) r'). split; [exact Hout|].
  rewrite !reindex_cell.
  destruct (contain_row_single polygons r Hno) as (r'' & Hr'' & Hcells & _).
  rewrite Hr' in Hr''. injection Hr'' as <-.
  pose proof (containing_spec polygons r) as Hspec.
  pose proof (containing_at_most_one polygons r Hno) as Hlen.
  destruct (containing geometry within to_crs polygons r) as [|p [|q rest]];
    [| |simpl in Hlen; lia]; destruct Hcells as [Hpark Hname].
  - split; [|split].
    + rewrite Hpark. split; [discriminate|].
      intros (p & pt & Hp & Hpt & Hw). exfalso.
      apply (Hspec p). exists pt. split; [now apply list_elem_of_In | now split].
    + intros p pt Hp Hpt Hw. exfalso.
      apply (Hspec p). exists pt. split; [now apply list_elem_of_In | now split].
    + intros _. now split.
  - split; [|split].
    + split; [|intros _; exact Hpark]. intros _.
      destruct (proj1 (Hspec p) ltac:(now left)) as (pt & Hp & Hpt & Hw).
      exists p, pt. split; [now apply list_elem_of_In | now split].
    + intros p' pt Hp Hpt Hw. rewrite Hname.
      assert (Hin : In p' [p]).
      { apply Hspec. exists pt. split; [now apply list_elem_of_In | now split]. }
      destruct Hin as [->|[]]. reflexivity.
    + intros H. now rewrite Hpark in H.
Qed.

End PolygonFacts.

(** ** The two annotators in sequence *)

Lemma fold_add_label_fresh (labels : list string) : forall cols : list string,
  NoDup labels -> (forall c, c ∈ labels -> c ∉ cols) ->
  fold_left add_label labels cols = cols ++ labels.
Proof.
  induction labels as [|c labels IH]; intros cols Hnd Hf; simpl.
  - now rewrite app_nil_r.
  - apply NoDup_cons in Hnd as [Hc Hnd].
    rewrite add_label_fresh by (apply Hf; left).
    rewrite IH; [now rewrite <- app_assoc|exact Hnd|].
    intros c' Hc' Hin. apply elem_of_app in Hin as [Hin|Hin].
    + apply (Hf c'); [now right | exact Hin].
    + apply list_elem_of_singleton in Hin as ->. contradiction.
Qed.

Lemma unreserved_spec (cols : list string) (c : string) :
  unreserved cols = true -> c ∈ reserved_labels -> c ∉ cols.
Proof.
  unfold unreserved. rewrite forallb_forall. intros H Hc.
  apply list_elem_of_In in Hc. specialize (H c Hc).
  now apply negb_true_iff, bool_decide_eq_false in H.
Qed.

Lemma proximity_labels_NoDup : NoDup proximity_labels.
Proof. apply (bool_decide_unpack (NoDup proximity_labels)). vm_compute. exact I. Qed.

Lemma annotate_columns {lib : KDTree.TieBreak} (port_info df : DataFrame) :
  unreserved (columns df) = true ->
  columns (annotate port_info df) = columns df ++ proximity_labels.
Proof.
  intros Hf. unfold annotate. cbn [columns].
  apply fold_add_label_fresh; [apply proximity_labels_NoDup|].
  intros c Hc. apply (unreserved_spec _ _ Hf). unfold reserved_labels.
  apply elem_of_app. now left.
Qed.

Lemma filter_not_in (labels cols : list string) :
  (forall c, c ∈ labels -> c ∉ cols) ->
  List.filter (fun c => negb (bool_decide (c ∈ labels))) cols = cols.
Proof.
  intros H. induction cols as [|c cols IH]; simpl; [reflexivity|].
  rewrite bool_decide_eq_false_2.
  - simpl. rewrite IH; [reflexivity|]. intros c' Hc' Hin. apply (H c' Hc'). now right.
  - intros Hc. apply (H c Hc). now left.
Qed.

Lemma chunk_columns_fresh (cols : list string) :
  "geometry" ∉ cols -> "index_right" ∉ cols -> "port_name" ∉ cols ->
  "Parked in Port" ∉ cols -> "Port Name" ∉ cols ->
  chunk_columns cols = cols ++ containment_labels.
Proof.
  intros Hg Hi Hp Hk Hn. unfold chunk_columns.
  rewrite (add_label_fresh cols "geometry") by assumption.
  rewrite (add_label_fresh _ "Parked in Port").
  2:{ rewrite !elem_of_app. intros [[H|H]|H]; [contradiction|..];
      revert H; apply (bool_decide_unpack _); vm_compute; exact I. }
  rewrite (add_label_fresh _ "Port Name").
  2:{ rewrite !elem_of_app. intros [[[H|H]|H]|H]; [contradiction|..];
      revert H; apply (bool_decide_unpack _); vm_compute; exact I. }
  rewrite !List.filter_app. rewrite (filter_not_in _ cols).
  2:{ intros c Hc. repeat (apply elem_of_cons in Hc as [->|Hc]; [assumption|]). inversion Hc. }
  set (f := fun c : string => negb (bool_decide (c ∈ ["geometry"; "index_right"]))).
  assert (E1 : List.filter f ["geometry"] = []) by (vm_compute; reflexivity).
  assert (E2 : List.filter f ["index_right"; "port_name"] = ["port_name"])
    by (vm_compute; reflexivity).
  assert (E3 : List.filter f ["Parked in Port"] = ["Parked in Port"])
    by (vm_compute; reflexivity).
  assert (E4 : List.filter f ["Port Name"] = ["Port Name"]) by (vm_compute; reflexivity).
  rewrite E1, E2, E3, E4, app_nil_r, <- !app_assoc. reflexivity.
Qed.

Lemma unreserved_not_proximity (cols : list string) (c : string) :
  unreserved cols = true -> c ∈ cols -> c ∉ proximity_labels.
Proof.
  intros Hf Hc Hp. apply (unreserved_spec cols c Hf); [|exact Hc].
  unfold reserved_labels. apply elem_of_app. now left.
Qed.

Lemma annotated_joinable {lib : KDTree.TieBreak} (port_info df : DataFrame) :
  ready df port_info = true -> unreserved (columns df) = true ->
  joinable (annotate port_info df) = true.
Proof.
  intros Hr Hf.
  destruct (ready_inv _ _ Hr) as ((Hlat & Hlon & Hnum) & _).
  unfold joinable. rewrite (annotate_columns _ _ Hf).
  rewrite !andb_true_iff, !negb_true_iff, !bool_decide_eq_true, !bool_decide_eq_false.
  repeat split.
  - apply elem_of_app. now left.
  - apply elem_of_app. now left.
  - unfold annotate. cbn [rows]. apply forallb_forall. intros r' Hr'.
    apply in_map_iff in Hr' as (r0 & <- & Hr0).
    rewrite forallb_forall in Hnum. specialize (Hnum r0 Hr0).
    unfold has_point, has_coords, cell in *.
    rewrite !annotate_row_frame
      by (eapply unreserved_not_proximity; [exact Hf | assumption]).
    destruct (default VNaN (r0 !! "latitude")); try discriminate.
    destruct (default VNaN (r0 !! "longitude")); try discriminate.
    reflexivity.
  - intros H. apply elem_of_app in H as [H|H].
    + revert H. apply (unreserved_spec _ _ Hf), (bool_decide_unpack _). vm_compute. exact I.
    + revert H. apply (bool_decide_unpack _). vm_compute. exact I.
  - intros H. apply elem_of_app in H as [H|H].
    + revert H. apply (unreserved_spec _ _ Hf), (bool_decide_unpack _). vm_compute. exact I.
    + revert H. apply (bool_decide_unpack _). vm_compute. exact I.
Qed.

Section PipelineFacts.

Variable geometry : Type.
Variable within : Q * Q -> geometry -> bool.
Variable to_crs : geometry -> geometry.
Context {lib : KDTree.TieBreak}.

Lemma annotated_chunk_columns (port_info df : DataFrame) :
  unreserved (columns df) = true ->
  chunk_columns (columns (annotate port_info df))
  = columns df ++ proximity_labels ++ containment_labels.
Proof.
  intros Hf. rewrite (annotate_columns _ _ Hf).
  rewrite chunk_columns_fresh; [now rewrite <- app_assoc|..];
    (intros H; apply elem_of_app in H as [H|H];
     [revert H; apply (unreserved_spec _ _ Hf), (bool_decide_unpack _); vm_compute; exact I
     |revert H; apply (bool_decide_unpack _); vm_compute; exact I]).
Qed.


End PipelineFacts.

Lemma bind_run {A B} (m : M A) (k : A -> M B) (h h' : gmap nat DataFrame) (a : A) :
  m h = (Ok a, h') -> bind m k h = k a h'.
Proof. intros H. unfold bind. now rewrite H. Qed.

(** ** The diagnostics *)

Lemma investigate_data_runs (data : DataFrame) (name : string) :
  investigable data = true -> exists shown, investigate_data data name = Ok shown.
Proof.
  intros H. unfold investigate_data, investigable in *. rewrite forallb_forall in H.
  erewrite rmapM_Ok; [eexists; reflexivity|].
  intros column Hc. unfold np_unique. rewrite (H column Hc). reflexivity.
Qed.

Lemma investigable_empty (data : DataFrame) :
  rows data = [] -> investigable data = true.
Proof.
  intros H. unfold investigable. rewrite H. apply forallb_forall. reflexivity.
Qed.

Lemma investigate_data_raises (data : DataFrame) (name : string) :
  investigable data = false ->
  exists msg, investigate_data data name = Raise (TypeError msg).
Proof.
  unfold investigate_data, investigable. induction (columns data) as [|c cols IH];
    [discriminate|].
  cbn [forallb rmapM]. unfold np_unique at 1.
  destruct (sortable (map (cell c) (rows data))); cbn [andb rbind].
  - intros H. destruct (IH H) as (msg & E).
    destruct (rmapM _ cols) as [shown|e]; [discriminate|].
    cbn [rbind] in *. exists msg. congruence.
  - intros _. eexists. reflexivity.
Qed.

Section MainFacts.

Variable geometry : Type.
Variable within : Q * Q -> geometry -> bool.
Variable to_crs : geometry -> geometry.
Variable geometry_eqb : geometry -> geometry -> bool.
Variable load_raw_data : string -> result DataFrame.
Variable load_port_info : result DataFrame.
Variable load_port_polygons : result (list (PortPolygon geometry)).
Variable remove_NA : DataFrame -> result DataFrame.
Variable remove_invalid_lat_and_lon : DataFrame -> result DataFrame.
Variable remove_invalid_speed : DataFrame -> result DataFrame.
Context {lib : KDTree.TieBreak}.

Lemma default_chunk_size_pos : (0 < default_chunk_size)%Z.
Proof. reflexivity. Qed.

(** What [main] returns and leaves in the heap when every stage accepts its
    input. *)
Lemma main_run (h : gmap nat DataFrame) (cleaned ports : DataFrame)
      (polys : list (PortPolygon geometry)) :
  load_and_clean_data load_raw_data remove_NA remove_invalid_lat_and_lon
                      remove_invalid_speed "data/raw_data/raw_data.parquet" = Ok cleaned ->
  load_port_info = Ok ports ->
  load_port_polygons = Ok polys ->
  investigable cleaned = true ->
  investigable (drop_duplicates ports) = true ->
  ready cleaned (drop_duplicates ports) = true ->
  unreserved (columns cleaned) = true ->
  rows cleaned <> [] ->
  let annotated := annotate (drop_duplicates ports) cleaned in
  let out := contain geometry within to_crs
                     (drop_duplicate_polygons geometry geometry_eqb [] polys) annotated in
  main geometry within to_crs geometry_eqb load_raw_data load_port_info
       load_port_polygons remove_NA remove_invalid_lat_and_lon remove_invalid_speed h
  = (Ok (to_csv out), <[fresh (dom h) := annotated]> h).
Proof.
  intros Hclean Hports Hpolys Hshow Hshow' Hready Hfresh Hne annotated out.
  set (port_info := drop_duplicates ports) in *.
  destruct (investigate_data_runs cleaned "AIS Raw Data" Hshow) as (shown & Eshown).
  destruct (investigate_data_runs port_info "Port Information" Hshow') as (shown' & Eshown').
  unfold main. rewrite Hclean, Hports, Hpolys.
  rewrite bind_lift_Ok.
  set (r := fresh (dom h)). set (h1 := <[r := cleaned]> h).
  assert (H1 : h1 !! r = Some cleaned) by apply lookup_insert_eq.
  rewrite (bind_run (alloc cleaned) _ h h1 r) by reflexivity.
  rewrite !bind_lift_Ok.
  erewrite bind_read_Ok; [|exact H1|exact Eshown].
  fold port_info. rewrite Eshown', bind_lift_Ok.
  erewrite bind_run
    by exact (create_proximity_columns_run r port_info cleaned h1 H1 Hready).
  fold annotated.
  erewrite bind_read_Ok; [|apply lookup_insert_eq|reflexivity].
  rewrite process_with_polygons_run;
    [|now apply annotated_joinable| |apply default_chunk_size_pos].
  - rewrite bind_lift_Ok. unfold ret. f_equal. subst h1. apply insert_insert_eq.
  - subst annotated. unfold annotate. cbn [rows].
    destruct (rows cleaned); [congruence | discriminate].
Qed.

(** C2, as amended.  When the loaders succeed on a non-empty cleaned dataset,
    no column of the cleaned dataset or of the port table mixes text with
    other values (the diagnostics run to the end), the annotator accepts the
    two tables (coordinate columns holding finite floats, a port table that
    is not empty, a port within reach of every record), the columns of the
    cleaned dataset bear none of the reserved labels, and no two port
    polygons overlap, [main] writes one record per cleaned position record,
    under the header made of the cleaned columns, the eight proximity
    columns, the raw [port_name] column of the join, "Parked in Port" and
    "Port Name", in this order. *)
Theorem output_rows_and_columns
        (h : gmap nat DataFrame) (cleaned ports : DataFrame)
        (polys : list (PortPolygon geometry)) :
  load_and_clean_data load_raw_data remove_NA remove_invalid_lat_and_lon
                      remove_invalid_speed "data/raw_data/raw_data.parquet" = Ok cleaned ->
  load_port_info = Ok ports ->
  load_port_polygons = Ok polys ->
  investigable cleaned = true ->
  investigable (drop_duplicates ports) = true ->
  ready cleaned (drop_duplicates ports) = true ->
  unreserved (columns cleaned) = true ->
  rows cleaned <> [] ->
  non_overlapping geometry within to_crs (drop_duplicate_polygons geometry geometry_eqb [] polys) ->
  exists (header : list string) (records : list (list value)),
    fst (main geometry within to_crs geometry_eqb load_raw_data load_port_info
              load_port_polygons remove_NA remove_invalid_lat_and_lon
              remove_invalid_speed h) = Ok (header, records) /\
    length records = length (rows cleaned) /\
    header = columns cleaned ++ proximity_labels ++ containment_labels.
Proof.
  intros Hclean Hports Hpolys Hshow Hshow' Hready Hfresh Hne Hno.
  set (port_info := drop_duplicates ports) in *.
  set (polygons := drop_duplicate_polygons geometry geometry_eqb [] polys) in *.
  set (annotated := annotate port_info cleaned).
  set (out := contain geometry within to_crs polygons annotated).
  exists (columns out), (snd (to_csv out)).
  split; [|split].
  - now rewrite (main_run h cleaned ports polys).
  - unfold to_csv. cbn [snd]. rewrite length_map. unfold out.
    rewrite contain_length by exact Hno. unfold annotated, annotate. cbn [rows].
    apply length_map.
  - unfold out, contain. cbn [columns]. now apply annotated_chunk_columns.
Qed.

End MainFacts.

(** ** An empty dataset *)

Lemma keeps_ret {A} (P : gmap nat DataFrame -> Prop) (a : A) : keeps P (ret a).
Proof. intros h Hh. exact Hh. Qed.

Lemma keeps_lift {A} (P : gmap nat DataFrame -> Prop) (x : result A) : keeps P (lift x).
Proof. intros h Hh. exact Hh. Qed.

Lemma keeps_read {A} (P : gmap nat DataFrame -> Prop) (r : nat) (f : DataFrame -> result A) :
  keeps P (read r f).
Proof. intros h Hh. unfold read. now destruct (h !! r). Qed.

Lemma keeps_bind {A B} (P : gmap nat DataFrame -> Prop) (m : M A) (k : A -> M B) :
  keeps P m -> (forall a, keeps P (k a)) -> keeps P (bind m k).
Proof.
  intros Hm Hk h Hh. unfold bind. specialize (Hm h Hh).
  destruct (m h) as [[a|e] h']; simpl in *; [now apply Hk | exact Hm].
Qed.

Lemma keeps_for_each {A} (P : gmap nat DataFrame -> Prop) (l : list A) (body : A -> M unit) :
  (forall a, keeps P (body a)) -> keeps P (for_each l body).
Proof.
  intros Hb. induction l as [|a l IH]; simpl; [apply keeps_ret|].
  apply keeps_bind; [apply Hb | intros _; exact IH].
Qed.

Lemma keeps_update (r n : nat) (f : DataFrame -> result DataFrame) :
  (forall df df', f df = Ok df' -> len df' = len df) ->
  keeps (sized r n) (update r f).
Proof.
  intros Hf h (df & Hdf & Hn). unfold update. rewrite Hdf.
  destruct (f df) as [df'|e] eqn:E; simpl; [|now exists df].
  exists df'. split; [apply lookup_insert_eq|]. now rewrite (Hf _ _ E).
Qed.

Lemma setitem_len (c : string) (vals : list value) (df df' : DataFrame) :
  setitem df c vals = Ok df' -> len df' = len df.
Proof.
  unfold setitem. destruct (Nat.eqb_spec (length vals) (len df)) as [E|]; [|discriminate].
  intros [= <-]. unfold len in *. cbn [rows]. rewrite length_zip_with. lia.
Qed.

Lemma loc_setitem_len (mask : list bool) (cols : list string) (vals : list value)
      (df df' : DataFrame) :
  loc_setitem df mask cols vals = Ok df' -> len df' = len df.
Proof.
  unfold loc_setitem. destruct (Nat.eqb_spec (length mask) (len df)) as [E|]; [|discriminate].
  intros [= <-]. unfold len in *. cbn [rows]. rewrite length_zip_with. lia.
Qed.

Lemma yields_ret {A} (a : A) : yields a (ret a).
Proof. intros h b [= <-]. reflexivity. Qed.

Lemma yields_bind {A B} (b : B) (m : M A) (k : A -> M B) :
  (forall a, yields b (k a)) -> yields b (bind m k).
Proof.
  intros Hk h b'. unfold bind. destruct (m h) as [[a|e] h'] eqn:E; simpl.
  - apply Hk.
  - discriminate.
Qed.

(** Whatever its inputs, the annotator leaves the number of rows of the
    frame it was given as it is, and returns the reference it was given. *)
Lemma create_proximity_columns_sized {lib : KDTree.TieBreak} (r n : nat) (port_info : DataFrame) :
  keeps (sized r n) (create_proximity_columns r port_info).
Proof.
  unfold create_proximity_columns.
  repeat first
    [ apply keeps_ret | apply keeps_lift | apply keeps_read
    | apply keeps_update; intros ? ?; first [apply setitem_len | apply loc_setitem_len]
    | apply keeps_for_each; intros [? ?]
    | apply keeps_bind; [|intros ?]
    | match goal with |- keeps _ (let '(_, _) := ?p in _) => destruct p end ].
Qed.

Lemma create_proximity_columns_yields {lib : KDTree.TieBreak} (r : nat) (port_info : DataFrame) :
  yields r (create_proximity_columns r port_info).
Proof.
  unfold create_proximity_columns.
  repeat first
    [ apply yields_ret
    | apply yields_bind; intros ?
    | match goal with |- yields _ (let '(_, _) := ?p in _) => destruct p end ].
Qed.

Section EmptyDataset.

Variable geometry : Type.
Variable within : Q * Q -> geometry -> bool.
Variable to_crs : geometry -> geometry.
Variable geometry_eqb : geometry -> geometry -> bool.
Variable load_raw_data : string -> result DataFrame.
Variable load_port_info : result DataFrame.
Variable load_port_polygons : result (list (PortPolygon geometry)).
Variable remove_NA : DataFrame -> result DataFrame.
Variable remove_invalid_lat_and_lon : DataFrame -> result DataFrame.
Variable remove_invalid_speed : DataFrame -> result DataFrame.
Context {lib : KDTree.TieBreak}.

Lemma process_with_polygons_empty (df : DataFrame)
      (polygons : list (PortPolygon geometry)) (chunk_size : Z) :
  rows df = [] -> chunk_size <> 0%Z ->
  process_with_polygons geometry within to_crs df polygons chunk_size
  = Raise (ValueError "No objects to concatenate").
Proof.
  intros Hrows Hcs. unfold process_with_polygons, range, len. rewrite Hrows.
  destruct (Z.eqb_spec chunk_size 0); [contradiction|].
  cbn [length Z.of_nat].
  destruct (0 <? chunk_size)%Z; reflexivity.
Qed.

(** C9.  When the cleaning leaves no record, the containment stage raises
    the [ValueError] of a concatenation of no frames for every non-zero chunk
    size, and [main] ends in an exception whatever the loaders return; when
    the port tables load, the diagnostics run to the end on the port table
    and the annotator accepts the empty frame, that exception is the
    [ValueError] of the concatenation. *)
Theorem empty_dataset_cannot_complete (h : gmap nat DataFrame) (cleaned : DataFrame) :
  load_and_clean_data load_raw_data remove_NA remove_invalid_lat_and_lon
                      remove_invalid_speed "data/raw_data/raw_data.parquet" = Ok cleaned ->
  rows cleaned = [] ->
  (forall (polygons : list (PortPolygon geometry)) (chunk_size : Z),
      chunk_size <> 0%Z ->
      process_with_polygons geometry within to_crs cleaned polygons chunk_size
      = Raise (ValueError "No objects to concatenate")) /\
  (exists e : exn,
      fst (main geometry within to_crs geometry_eqb load_raw_data load_port_info
                load_port_polygons remove_NA remove_invalid_lat_and_lon
                remove_invalid_speed h) = Raise e) /\
  (forall ports polys,
      load_port_info = Ok ports -> load_port_polygons = Ok polys ->
      investigable (drop_duplicates ports) = true ->
      ready cleaned (drop_duplicates ports) = true ->
      fst (main geometry within to_crs geometry_eqb load_raw_data load_port_info
                load_port_polygons remove_NA remove_invalid_lat_and_lon
                remove_invalid_speed h) = Raise (ValueError "No objects to concatenate")).
Proof.
  intros Hclean Hrows.
  split; [intros polygons chunk_size Hcs; now apply process_with_polygons_empty|].
  set (r := fresh (dom h)). set (h1 := <[r := cleaned]> h).
  assert (H1 : h1 !! r = Some cleaned) by apply lookup_insert_eq.
  assert (Hsized : sized r 0 h1).
  { exists cleaned. split; [exact H1|]. unfold len. now rewrite Hrows. }
  destruct (investigate_data_runs cleaned "AIS Raw Data" (investigable_empty _ Hrows))
    as (shown & Eshown).
  split.
  - unfold main. rewrite Hclean, bind_lift_Ok.
    rewrite (bind_run (alloc cleaned) _ h h1 r) by reflexivity.
    destruct load_port_info as [ports|e]; [|now exists e].
    rewrite bind_lift_Ok.
    destruct load_port_polygons as [polys|e]; [|now exists e].
    rewrite bind_lift_Ok.
    erewrite bind_read_Ok; [|exact H1|exact Eshown].
    set (port_info := drop_duplicates ports).
    destruct (investigate_data port_info "Port Information") as [shown'|e];
      [|now exists e].
    rewrite bind_lift_Ok.
    pose proof (create_proximity_columns_sized r 0 port_info h1 Hsized) as Hs.
    pose proof (create_proximity_columns_yields r port_info h1) as Hy.
    unfold bind at 1.
    destruct (create_proximity_columns r port_info h1) as [[r'|e] h2];
      [|now exists e].
    cbn [fst snd] in *. rewrite (Hy r' eq_refl).
    destruct Hs as (annotated & Hann & Hlen).
    erewrite bind_read_Ok; [|exact Hann|reflexivity].
    rewrite process_with_polygons_empty; [eexists; reflexivity| |discriminate].
    now apply nil_length_inv.
  - intros ports polys Hports Hpolys Hshow' Hready.
    destruct (investigate_data_runs _ "Port Information" Hshow') as (shown' & Eshown').
    unfold main. rewrite Hclean, Hports, Hpolys, !bind_lift_Ok.
    rewrite (bind_run (alloc cleaned) _ h h1 r) by reflexivity.
    rewrite !bind_lift_Ok.
    erewrite bind_read_Ok; [|exact H1|exact Eshown].
    rewrite Eshown', bind_lift_Ok.
    erewrite bind_run
      by exact (create_proximity_columns_run r _ cleaned h1 H1 Hready).
    erewrite bind_read_Ok; [|apply lookup_insert_eq|reflexivity].
    rewrite process_with_polygons_empty; [reflexivity| |discriminate].
    unfold annotate. cbn [rows]. now rewrite Hrows.
Qed.

End EmptyDataset.

(** ** Cleaning *)

Lemma Qeq_bool_sym (a b : Q) : Qeq_bool a b = Qeq_bool b a.
Proof.
  destruct (Qeq_bool a b) eqn:E1, (Qeq_bool b a) eqn:E2; try reflexivity.
  - apply Qeq_bool_iff in E1. symmetry in E1. apply Qeq_bool_iff in E1. congruence.
  - apply Qeq_bool_iff in E2. symmetry in E2. apply Qeq_bool_iff in E2. congruence.
Qed.

Lemma value_eqb_sym (v w : value) : value_eqb v w = value_eqb w v.
Proof.
  destruct v as [a| | |s|b|[[x y]|]], w as [a'| | |s'|b'|[[x' y']|]];
    simpl; try reflexivity.
  - apply Qeq_bool_sym.
  - apply String.eqb_sym.
  - now destruct b, b'.
  - now rewrite (Qeq_bool_sym x), (Qeq_bool_sym y).
Qed.

Lemma row_eqb_sym (cols : list string) (r r' : gmap string value) :
  row_eqb cols r r' = row_eqb cols r' r.
Proof.
  unfold row_eqb. induction cols as [|c cols IH]; simpl; [reflexivity|].
  now rewrite IH, value_eqb_sym.
Qed.

(** A row kept by [drop_duplicates] differs from every row seen before it
    and from every row kept before it. *)
Lemma drop_duplicates_from_spec (cols : list string) (rs : list (gmap string value)) :
  forall seen,
    let out := drop_duplicates_from cols seen rs in
    (forall r s, In r out -> In s seen -> row_eqb cols r s = false) /\
    (forall i j ri rj, (i < j)%nat -> out !! i = Some ri -> out !! j = Some rj ->
                       row_eqb cols rj ri = false).
Proof.
  induction rs as [|r rs IH]; intros seen; simpl.
  - split; [intros ? ? []|]. intros i j ri rj _ Hi. now rewrite lookup_nil in Hi.
  - destruct (existsb (row_eqb cols r) seen) eqn:E.
    + apply IH.
    + destruct (IH (r :: seen)) as [IH1 IH2]. split.
      * intros r' s [<-|Hr'] Hs.
        -- destruct (row_eqb cols r s) eqn:Ers; [|reflexivity].
           assert (existsb (row_eqb cols r) seen = true)
             by (apply existsb_exists; eauto).
           congruence.
        -- apply IH1; [exact Hr' | now right].
      * intros i j ri rj Hij Hi Hj. destruct j as [|j]; [lia|]. simpl in Hj.
        destruct i as [|i]; simpl in Hi.
        -- injection Hi as <-. apply IH1; [|now left].
           apply list_elem_of_In, list_elem_of_lookup. eauto.
        -- apply (IH2 i j); [lia|assumption..].
Qed.

Section Cleaning.

Variable load_raw_data : string -> result DataFrame.
Variable remove_NA : DataFrame -> result DataFrame.
Variable remove_invalid_lat_and_lon : DataFrame -> result DataFrame.
Variable remove_invalid_speed : DataFrame -> result DataFrame.

(** The cleaning returns as soon as its four steps do. *)
Lemma load_and_clean_data_runs (path : string) (raw a b c : DataFrame) :
  load_raw_data path = Ok raw -> remove_NA raw = Ok a ->
  remove_invalid_lat_and_lon a = Ok b -> remove_invalid_speed b = Ok c ->
  load_and_clean_data load_raw_data remove_NA remove_invalid_lat_and_lon
                      remove_invalid_speed path = Ok (drop_duplicates c).
Proof.
  intros H0 H1 H2 H3. unfold load_and_clean_data.
  now rewrite H0; cbn [rbind]; rewrite H1; cbn [rbind]; rewrite H2; cbn [rbind]; rewrite H3.
Qed.

(** C8.  A result of the cleaning is [drop_duplicates] applied to what
    [remove_invalid_speed] returned on what [remove_invalid_lat_and_lon]
    returned on what [remove_NA] returned on the loaded data; and no two of
    its rows are equal on all columns. *)
Theorem cleaning_order_and_no_duplicates (path : string) (df : DataFrame) :
  load_and_clean_data load_raw_data remove_NA remove_invalid_lat_and_lon
                      remove_invalid_speed path = Ok df ->
  (exists raw a b c : DataFrame,
      load_raw_data path = Ok raw /\
      remove_NA raw = Ok a /\
      remove_invalid_lat_and_lon a = Ok b /\
      remove_invalid_speed b = Ok c /\
      df = drop_duplicates c) /\
  (forall (i j : nat) (ri rj : gmap string value),
      i <> j -> rows df !! i = Some ri -> rows df !! j = Some rj ->
      row_eqb (columns df) ri rj = false).
Proof.
  unfold load_and_clean_data. intros H.
  destruct (load_raw_data path) as [raw|] eqn:H0; [|discriminate]. cbn [rbind] in H.
  destruct (remove_NA raw) as [a|] eqn:H1; [|discriminate]. cbn [rbind] in H.
  destruct (remove_invalid_lat_and_lon a) as [b|] eqn:H2; [|discriminate]. cbn [rbind] in H.
  destruct (remove_invalid_speed b) as [c|] eqn:H3; [|discriminate]. cbn [rbind] in H.
  injection H as <-. split; [exists raw, a, b, c; auto|].
  intros i j ri rj Hij Hi Hj. unfold drop_duplicates in *. cbn [rows columns] in *.
  destruct (drop_duplicates_from_spec (columns c) (rows c) []) as [_ Hpair].
  destruct (Nat.lt_total i j) as [Hlt|[Heq|Hgt]]; [|contradiction|].
  - rewrite row_eqb_sym. now apply (Hpair i j).
  - now apply (Hpair j i).
Qed.

End Cleaning.

(** ** The examples *)

Lemma harbours_non_overlapping :
  non_overlapping Boxes.box Boxes.within Boxes.to_crs Boxes.harbours.
Proof.
  intros [x y] i j p q Hi Hj Hp Hq.
  assert (Hcases : forall k b, Boxes.harbours !! k = Some b ->
            (k = 0%nat /\ polygon b = Boxes.mkBox (-1) (-1) 2 (1 # 2)) \/
            (k = 1%nat /\ polygon b = Boxes.mkBox 3 1 5 5)).
  { intros [|[|k]] b Hb; [left|right|discriminate]; injection Hb as <-; now split. }
  destruct (Hcases i p Hi) as [[-> Ep]|[-> Ep]], (Hcases j q Hj) as [[-> Eq]|[-> Eq]];
    try reflexivity; exfalso;
    rewrite Ep in Hp; rewrite Eq in Hq;
    unfold Boxes.within, Boxes.to_crs in Hp, Hq; cbn [fst snd Boxes.xmin Boxes.xmax Boxes.ymin Boxes.ymax] in Hp, Hq;
    rewrite !andb_true_iff, !negb_true_iff in Hp, Hq;
    destruct Hp as (((P1 & P2) & P3) & P4), Hq as (((Q1 & Q2) & Q3) & Q4).
  - assert (~ (2 <= x)%Q) by (rewrite <- Qle_bool_iff; congruence).
    assert (~ (x <= 3)%Q) by (rewrite <- Qle_bool_iff; congruence). lra.
  - assert (~ (2 <= x)%Q) by (rewrite <- Qle_bool_iff; congruence).
    assert (~ (x <= 3)%Q) by (rewrite <- Qle_bool_iff; congruence). lra.
Qed.

Lemma parked_iff_within_a_polygon_witness :
  exists out,
    process_with_polygons Boxes.box Boxes.within Boxes.to_crs Boxes.on_the_quay
                          Boxes.harbours 1 = Ok out /\
    length (rows out) = length (rows Boxes.on_the_quay) /\
    forall (i : nat) (r : gmap string value),
      rows Boxes.on_the_quay !! i = Some r ->
      exists r' : gmap string value,
        rows out !! i = Some r' /\
        (cell "Parked in Port" r' = VBool true <->
         exists p pt, p ∈ Boxes.harbours /\ point_of r = Some pt /\
                      Boxes.within pt (Boxes.to_crs (polygon p)) = true) /\
        (forall p pt, p ∈ Boxes.harbours -> point_of r = Some pt ->
                      Boxes.within pt (Boxes.to_crs (polygon p)) = true ->
                      cell "Port Name" r' = port_name p) /\
        (cell "Parked in Port" r' <> VBool true ->
         cell "Parked in Port" r' = VBool false /\ cell "Port Name" r' = VStr "No").
Proof.
  apply (parked_iff_within_a_polygon Boxes.box Boxes.within Boxes.to_crs
                                     Boxes.on_the_quay Boxes.harbours 1).
  - vm_compute. reflexivity.
  - discriminate.
  - reflexivity.
  - exact harbours_non_overlapping.
Defined.

(** A point on the boundary of a polygon is not parked; a point inside is. *)
Example boundary_is_not_within :
  option_map (fun out => map (fun r => (cell "Parked in Port" r, cell "Port Name" r)) (rows out))
    (match process_with_polygons Boxes.box Boxes.within Boxes.to_crs Boxes.on_the_quay
                                 Boxes.harbours default_chunk_size with
     | Ok out => Some out
     | Raise _ => None
     end)
  = Some [(VBool false, VStr "No"); (VBool true, VStr "Alpha")].
Proof. vm_compute. reflexivity. Qed.

Lemma batch_size_invariance_witness :
  let df := Boxes.vessels in
  let one := process_with_polygons Boxes.box Boxes.within Boxes.to_crs df Boxes.harbours 1 in
  let all := process_with_polygons Boxes.box Boxes.within Boxes.to_crs df Boxes.harbours
                                   (Z.of_nat (len df)) in
  let alone r :=
    match process_with_polygons Boxes.box Boxes.within Boxes.to_crs
                                (mkDF (columns df) [r]) Boxes.harbours 1 with
    | Ok part => rows part
    | Raise _ => []
    end in
  (forall out, one = Ok out <-> all = Ok out) /\
  (joinable df = true ->
   exists out, one = Ok out /\ all = Ok out /\ rows out = flat_map alone (rows df)).
Proof.
  apply (batch_size_invariance Boxes.box Boxes.within Boxes.to_crs Boxes.vessels
                               Boxes.harbours).
  discriminate.
Defined.


Lemma output_rows_and_columns_witness :
  exists (header : list string) (records : list (list value)),
    fst (example_main Boxes.vessels ∅) = Ok (header, records) /\
    length records = length (rows Boxes.vessels) /\
    header = columns Boxes.vessels ++ proximity_labels ++ containment_labels.
Proof.
  apply (output_rows_and_columns (lib := Boxes.first_found) Boxes.box Boxes.within Boxes.to_crs Boxes.box_eqb
           (fun _ => Ok Boxes.vessels) (Ok Boxes.ports) (Ok Boxes.harbours) Ok Ok Ok
           ∅ Boxes.vessels Boxes.ports Boxes.harbours).
  - vm_compute. reflexivity.
  - reflexivity.
  - reflexivity.
  - vm_compute. reflexivity.
  - vm_compute. reflexivity.
  - vm_compute. reflexivity.
  - vm_compute. reflexivity.
  - discriminate.
  - exact harbours_non_overlapping.
Defined.

(** C2, as stated, fails: on the example (two disjoint harbour boxes) the
    header that [main] writes holds "port_name", which is neither a cleaned
    column nor one of the labels the claim lists. *)
Lemma output_has_the_raw_port_name_column :
  non_overlapping Boxes.box Boxes.within Boxes.to_crs Boxes.harbours /\
  exists (header : list string) (records : list (list value)),
    fst (example_main Boxes.vessels ∅) = Ok (header, records) /\
    "port_name" ∈ header /\
    "port_name" ∉ columns Boxes.vessels ++ proximity_labels ++ ["Parked in Port"; "Port Name"].
Proof.
  split; [exact harbours_non_overlapping|].
  eexists _, _. split; [vm_compute; reflexivity|]. split.
  - apply (bool_decide_unpack _). vm_compute. exact I.
  - apply (bool_decide_unpack _). vm_compute. exact I.
Qed.

Lemma empty_dataset_cannot_complete_witness :
  (forall (polygons : list (PortPolygon Boxes.box)) (chunk_size : Z),
      chunk_size <> 0%Z ->
      process_with_polygons Boxes.box Boxes.within Boxes.to_crs Boxes.no_vessels
                            polygons chunk_size
      = Raise (ValueError "No objects to concatenate")) /\
  (exists e : exn, fst (example_main Boxes.no_vessels ∅) = Raise e) /\
  (forall ports polys,
      Ok Boxes.ports = Ok ports -> Ok Boxes.harbours = Ok polys ->
      investigable (drop_duplicates ports) = true ->
      ready Boxes.no_vessels (drop_duplicates ports) = true ->
      fst (example_main Boxes.no_vessels ∅)
      = Raise (ValueError "No objects to concatenate")).
Proof.
  apply (empty_dataset_cannot_complete (lib := Boxes.first_found) Boxes.box Boxes.within Boxes.to_crs Boxes.box_eqb
           (fun _ => Ok Boxes.no_vessels) (Ok Boxes.ports) (Ok Boxes.harbours) Ok Ok Ok
           ∅ Boxes.no_vessels).
  - vm_compute. reflexivity.
  - reflexivity.
Defined.

Example empty_dataset_run :
  fst (example_main Boxes.no_vessels ∅) = Raise (ValueError "No objects to concatenate").
Proof. vm_compute. reflexivity. Qed.

Lemma cleaning_order_and_no_duplicates_witness :
  let cleaned := mkDF ["latitude"; "longitude"; "speed"]
                      [Boxes.vessel 0 0 5; Boxes.vessel (2 # 2) 0 7] in
  (exists raw a b c : DataFrame,
      Ok Boxes.repeated_vessels = Ok raw /\ Ok raw = Ok a /\ Ok a = Ok b /\ Ok b = Ok c /\
      cleaned = drop_duplicates c) /\
  (forall (i j : nat) (ri rj : gmap string value),
      i <> j -> rows cleaned !! i = Some ri -> rows cleaned !! j = Some rj ->
      row_eqb (columns cleaned) ri rj = false).
Proof.
  apply (cleaning_order_and_no_duplicates (fun _ => Ok Boxes.repeated_vessels) Ok Ok Ok
           "data/raw_data/raw_data.parquet").
  vm_compute. reflexivity.
Defined.

(** ** Further properties of the stages *)

(** X1.  When the frame behind the reference lacks [latitude] or
    [longitude], the nearest-port annotator raises a [KeyError] for one of
    the two that is missing, and the heap is as it was: no column has been
    written. *)
Theorem annotator_missing_vessel_column {lib : KDTree.TieBreak}
        (r : nat) (port_info df : DataFrame) (h : gmap nat DataFrame) :
  h !! r = Some df ->
  ~ ("latitude" ∈ columns df /\ "longitude" ∈ columns df) ->
  exists c : string,
    c ∈ ["latitude"; "longitude"] /\ (c ∉ columns df) /\
    create_proximity_columns r port_info h = (Raise (KeyError c), h).
Proof.
  intros Hh Hmiss. unfold create_proximity_columns, bind at 1, read at 1.
  rewrite Hh. unfold to_numpy2, getitem.
  destruct (decide ("latitude" ∈ columns df)) as [Hlat|Hlat].
  - destruct (decide ("longitude" ∈ columns df)) as [Hlon|Hlon]; [tauto|].
    exists "longitude". split; [|split; [exact Hlon | reflexivity]].
    apply elem_of_cons. right. apply list_elem_of_singleton. reflexivity.
  - exists "latitude". split; [|split; [exact Hlat | reflexivity]].
    apply elem_of_cons. now left.
Qed.

Lemma annotator_missing_vessel_column_witness :
  exists c : string,
    c ∈ ["latitude"; "longitude"] /\ (c ∉ columns Boxes.ports) /\
    create_proximity_columns (lib := Boxes.first_found) 0 Boxes.ports {[0%nat := Boxes.ports]}
    = (Raise (KeyError c), {[0%nat := Boxes.ports]}).
Proof.
  apply (annotator_missing_vessel_column (lib := Boxes.first_found) 0%nat Boxes.ports Boxes.ports
                                         {[0%nat := Boxes.ports]}).
  - reflexivity.
  - intros [H _]. revert H. apply (bool_decide_unpack _). vm_compute. exact I.
Defined.

(** X2.  When the vessel frame has both coordinate columns and the port
    table lacks [Latitude], [Longitude] or [Main Port Name], the annotator
    raises a [KeyError] for one of these that is missing, and the heap is as
    it was. *)
Theorem annotator_missing_port_column {lib : KDTree.TieBreak}
        (r : nat) (port_info df : DataFrame) (h : gmap nat DataFrame) :
  h !! r = Some df ->
  "latitude" ∈ columns df -> "longitude" ∈ columns df ->
  ~ ("Latitude" ∈ columns port_info /\ "Longitude" ∈ columns port_info /\
     "Main Port Name" ∈ columns port_info) ->
  exists c : string,
    c ∈ ["Latitude"; "Longitude"; "Main Port Name"] /\ (c ∉ columns port_info) /\
    create_proximity_columns r port_info h = (Raise (KeyError c), h).
Proof.
  intros Hh Hlat Hlon Hmiss. unfold create_proximity_columns.
  erewrite bind_read_Ok;
    [|exact Hh|unfold to_numpy2; rewrite !getitem_Ok by assumption; reflexivity].
  unfold to_numpy2, getitem.
  destruct (decide ("Latitude" ∈ columns port_info)) as [HLat|HLat].
  - destruct (decide ("Longitude" ∈ columns port_info)) as [HLon|HLon].
    + destruct (decide ("Main Port Name" ∈ columns port_info)) as [HN|HN]; [tauto|].
      exists "Main Port Name". split; [|split; [exact HN | reflexivity]].
      do 2 (apply elem_of_cons; right). apply list_elem_of_singleton. reflexivity.
    + exists "Longitude". split; [|split; [exact HLon | reflexivity]].
      apply elem_of_cons. right. apply elem_of_cons. now left.
  - exists "Latitude". split; [|split; [exact HLat | reflexivity]].
    apply elem_of_cons. now left.
Qed.

Lemma annotator_missing_port_column_witness :
  exists c : string,
    c ∈ ["Latitude"; "Longitude"; "Main Port Name"] /\ (c ∉ columns Boxes.vessels) /\
    create_proximity_columns (lib := Boxes.first_found) 0 Boxes.vessels {[0%nat := Boxes.vessels]}
    = (Raise (KeyError c), {[0%nat := Boxes.vessels]}).
Proof.
  apply (annotator_missing_port_column (lib := Boxes.first_found) 0%nat Boxes.vessels Boxes.vessels
                                       {[0%nat := Boxes.vessels]}).
  - reflexivity.
  - apply (bool_decide_unpack _). vm_compute. exact I.
  - apply (bool_decide_unpack _). vm_compute. exact I.
  - intros [H _]. revert H. apply (bool_decide_unpack _). vm_compute. exact I.
Defined.

Lemma keeps_update_framed (r : nat) (Q : DataFrame -> Prop) (f : DataFrame -> result DataFrame) :
  (forall df df', Q df -> f df = Ok df' -> Q df') ->
  keeps (framed r Q) (update r f).
Proof.
  intros Hf h (df & Hdf & HQ). unfold update. rewrite Hdf.
  destruct (f df) as [df'|e] eqn:E; simpl; [|now exists df].
  exists df'. split; [apply lookup_insert_eq | now apply (Hf df)].
Qed.

Lemma keeps_update_other (r r' : nat) (o : option DataFrame) (f : DataFrame -> result DataFrame) :
  r' <> r -> keeps (fun h => h !! r' = o) (update r f).
Proof.
  intros Hne h Hh. unfold update. destruct (h !! r) as [df|]; [|exact Hh].
  destruct (f df) as [df'|e]; simpl; [|exact Hh]. now rewrite lookup_insert_ne.
Qed.

Lemma setitem_columns (c : string) (vals : list value) (df df' : DataFrame) :
  setitem df c vals = Ok df' -> forall c', c' ∈ columns df -> c' ∈ columns df'.
Proof.
  unfold setitem. destruct (length vals =? len df)%nat; [|discriminate].
  intros [= <-] c' Hc'. cbn [columns]. apply elem_of_add_label. now left.
Qed.

Lemma elem_of_fold_add_label (labels : list string) : forall (cols : list string) (c : string),
  c ∈ fold_left add_label labels cols <-> c ∈ cols \/ c ∈ labels.
Proof.
  induction labels as [|l labels IH]; intros cols c; simpl.
  - split; [now left|]. intros [H|H]; [exact H | inversion H].
  - rewrite IH, elem_of_add_label, elem_of_cons. tauto.
Qed.

Lemma loc_setitem_columns (mask : list bool) (labels : list string) (vals : list value)
      (df df' : DataFrame) :
  loc_setitem df mask labels vals = Ok df' ->
  forall c', c' ∈ columns df -> c' ∈ columns df'.
Proof.
  unfold loc_setitem. destruct (length mask =? len df)%nat; [|discriminate].
  intros [= <-] c' Hc'. cbn [columns]. apply elem_of_fold_add_label. now left.
Qed.

Ltac keeps_steps side :=
  repeat first
    [ apply keeps_ret | apply keeps_lift | apply keeps_read
    | side
    | apply keeps_for_each; intros [? ?]
    | apply keeps_bind; [|intros ?]
    | match goal with |- keeps _ (let '(_, _) := ?p in _) => destruct p end ].

(** X3.  Whatever the outcome of the annotator, a result or an exception:
    every other object of the heap is as it was; the frame behind the
    reference is still there, with the number of rows it had and every column
    it had; and a result is the reference that was passed in. *)
Theorem annotator_touches_only_its_frame {lib : KDTree.TieBreak}
        (r : nat) (port_info df : DataFrame) (h : gmap nat DataFrame) :
  h !! r = Some df ->
  let res := fst (create_proximity_columns r port_info h) in
  let h' := snd (create_proximity_columns r port_info h) in
  (forall r' : nat, r' <> r -> h' !! r' = h !! r') /\
  (exists df' : DataFrame,
      h' !! r = Some df' /\ len df' = len df /\
      forall c : string, c ∈ columns df -> c ∈ columns df') /\
  (forall a : nat, res = Ok a -> a = r).
Proof.
  intros Hh res h'. subst res h'. split; [|split].
  - intros r' Hne.
    assert (K : keeps (fun h0 => h0 !! r' = h !! r') (create_proximity_columns r port_info)).
    { unfold create_proximity_columns.
      keeps_steps ltac:(apply keeps_update_other; exact Hne). }
    now apply K.
  - assert (K : keeps (framed r (fun d => len d = len df /\
                                          forall c, c ∈ columns df -> c ∈ columns d))
                      (create_proximity_columns r port_info)).
    { unfold create_proximity_columns.
      keeps_steps ltac:(apply keeps_update_framed; intros d d' [Hl Hc] Hf; split;
        [first [rewrite (setitem_len _ _ _ _ Hf) | rewrite (loc_setitem_len _ _ _ _ _ Hf)];
         exact Hl
        |intros c Hin;
         first [apply (setitem_columns _ _ _ _ Hf) | apply (loc_setitem_columns _ _ _ _ _ Hf)];
         now apply Hc]). }
    destruct (K h) as (df' & Hdf' & Hl & Hc); [now exists df|].
    now exists df'.
  - intros a Ha. exact (create_proximity_columns_yields r port_info h a Ha).
Qed.

Lemma annotator_touches_only_its_frame_witness :
  let res := fst (create_proximity_columns (lib := Boxes.first_found) 0 Boxes.ports
                    (<[1%nat := Boxes.ports]> {[0%nat := Boxes.vessels]})) in
  let h' := snd (create_proximity_columns (lib := Boxes.first_found) 0 Boxes.ports
                   (<[1%nat := Boxes.ports]> {[0%nat := Boxes.vessels]})) in
  (forall r' : nat, r' <> 0%nat ->
     h' !! r' = (<[1%nat := Boxes.ports]> {[0%nat := Boxes.vessels]} : gmap nat DataFrame) !! r') /\
  (exists df' : DataFrame,
      h' !! 0%nat = Some df' /\ len df' = len Boxes.vessels /\
      forall c : string, c ∈ columns Boxes.vessels -> c ∈ columns df') /\
  (forall a : nat, res = Ok a -> a = 0%nat).
Proof.
  apply (annotator_touches_only_its_frame (lib := Boxes.first_found) 0%nat Boxes.ports Boxes.vessels
           (<[1%nat := Boxes.ports]> {[0%nat := Boxes.vessels]})).
  reflexivity.
Defined.

Lemma rmapM_length {A B} (f : A -> result B) (l : list A) (bs : list B) :
  rmapM f l = Ok bs -> length bs = length l.
Proof. intros H. apply rmapM_inv in H. symmetry. exact (Forall2_length _ _ _ H). Qed.

(** X4.  With at least one position record and a port table that has no
    row, the annotator ends in an exception: there is no port for the list
    comprehension over the indices to pick. *)
Theorem annotator_needs_a_port {lib : KDTree.TieBreak}
        (r : nat) (port_info df : DataFrame) (h : gmap nat DataFrame) :
  h !! r = Some df -> rows df <> [] -> rows port_info = [] ->
  exists e : exn, fst (create_proximity_columns r port_info h) = Raise e.
Proof.
  intros Hh Hne Hports. unfold create_proximity_columns, bind at 1, read at 1.
  rewrite Hh.
  destruct (to_numpy2 df "latitude" "longitude") as [vessel_coords|e] eqn:Ev;
    [|now exists e].
  assert (Hlen : length vessel_coords = length (rows df)).
  { revert Ev. unfold to_numpy2, getitem.
    destruct (decide ("latitude" ∈ columns df)); [|discriminate].
    destruct (decide ("longitude" ∈ columns df)); [|discriminate].
    intros [= <-]. rewrite length_zip_with, !length_map. lia. }
  unfold bind at 1, lift at 1.
  destruct (to_numpy2 port_info "Latitude" "Longitude") as [port_coords|e] eqn:Ep;
    [|now exists e].
  unfold bind at 1, lift at 1.
  destruct (getitem port_info "Main Port Name") as [port_names|e] eqn:En; [|now exists e].
  assert (Hnames : port_names = []).
  { revert En. unfold getitem. destruct (decide _); [|discriminate].
    intros [= <-]. now rewrite Hports. }
  subst port_names.
  unfold bind at 1, lift at 1.
  destruct (cKDTree port_coords) as [port_tree|e]; [|now exists e].
  unfold bind at 1, lift at 1. unfold query.
  destruct (rmapM as_point vessel_coords) as [pts|e] eqn:Epts; [|now exists e].
  cbn [rbind].
  assert (Hpts : pts <> []).
  { apply rmapM_length in Epts. intros ->. simpl in Epts.
    destruct (rows df); [congruence | simpl in *; lia]. }
  destruct pts as [|x pts]; [congruence|]. cbn [map].
  unfold bind at 1.
  destruct (update r _ h) as [[u|e] h1]; [|now exists e].
  unfold bind at 1, lift at 1. cbn [rmapM]. unfold index at 1.
  destruct (snd (KDTree.query1 port_tree x)); cbn; eexists; reflexivity.
Qed.

Lemma annotator_needs_a_port_witness :
  exists e : exn,
    fst (create_proximity_columns (lib := Boxes.first_found) 0
           (mkDF ["Main Port Name"; "Latitude"; "Longitude"] [])
           {[0%nat := Boxes.vessels]}) = Raise e.
Proof.
  apply (annotator_needs_a_port (lib := Boxes.first_found) 0%nat (mkDF ["Main Port Name"; "Latitude"; "Longitude"] [])
                                Boxes.vessels {[0%nat := Boxes.vessels]}).
  - reflexivity.
  - discriminate.
  - reflexivity.
Defined.

Lemma not_proximity_latitude : "latitude" ∉ proximity_labels.
Proof. apply (bool_decide_unpack _). vm_compute. exact I. Qed.

Lemma not_proximity_longitude : "longitude" ∉ proximity_labels.
Proof. apply (bool_decide_unpack _). vm_compute. exact I. Qed.

Lemma nearest_port_annotated {lib : KDTree.TieBreak} (port_info : DataFrame) (r : gmap string value) :
  nearest_port port_info (annotate_row port_info r) = nearest_port port_info r.
Proof.
  unfold nearest_port, coords_of, cell.
  now rewrite !annotate_row_frame
    by (apply not_proximity_latitude || apply not_proximity_longitude).
Qed.

Ltac lookups :=
  repeat first [ rewrite lookup_insert_eq
               | rewrite lookup_insert_ne by (let H := fresh in intros H; discriminate H) ].

(** The cells under the eight labels are a function of the query's answer. *)
Lemma annotate_row_labels {lib : KDTree.TieBreak} (port_info : DataFrame) (x y : gmap string value) (c : string) :
  nearest_port port_info x = nearest_port port_info y ->
  c ∈ proximity_labels ->
  annotate_row port_info x !! c = annotate_row port_info y !! c.
Proof.
  intros Hxy Hc. unfold annotate_row. cbv zeta.
  assert (Hfar : far_from_all (with_flags (with_port port_info x))
                 = far_from_all (with_flags (with_port port_info y))).
  { unfold far_from_all.
    destruct (with_flags_flags (with_port port_info x)) as (-> & -> & -> & ->).
    destruct (with_flags_flags (with_port port_info y)) as (-> & -> & -> & ->).
    unfold flag_of, with_port. cells. now rewrite Hxy. }
  destruct (far_from_all (with_flags (with_port port_info x))) eqn:Ex;
    rewrite <- Hfar; cbv iota;
    rewrite ?assign_cells_sentinel;
    unfold with_flags, with_flag, with_port;
    change (flag_label "1 km") with "Less than 1 km from port";
    change (flag_label "3 km") with "Less than 3 km from port";
    change (flag_label "5 km") with "Less than 5 km from port";
    change (flag_label "10 km") with "Less than 10 km from port";
    unfold proximity_labels in Hc;
    repeat (apply elem_of_cons in Hc as [->|Hc];
            [lookups; cells; now rewrite ?Hxy|]);
    inversion Hc.
Qed.

Lemma annotate_row_idempotent {lib : KDTree.TieBreak} (port_info : DataFrame) (r : gmap string value) :
  annotate_row port_info (annotate_row port_info r) = annotate_row port_info r.
Proof.
  apply map_eq. intros c.
  destruct (decide (c ∈ proximity_labels)) as [Hc|Hc].
  - apply annotate_row_labels; [apply nearest_port_annotated | exact Hc].
  - now rewrite annotate_row_frame.
Qed.

Lemma annotate_idempotent {lib : KDTree.TieBreak} (port_info df : DataFrame) :
  annotate port_info (annotate port_info df) = annotate port_info df.
Proof.
  unfold annotate. cbn [columns rows]. f_equal.
  - apply fold_add_label_present. intros c Hc.
    apply elem_of_fold_add_label. now right.
  - rewrite map_map. apply map_ext. intros r. apply annotate_row_idempotent.
Qed.

Lemma ready_annotated {lib : KDTree.TieBreak} (port_info df : DataFrame) :
  ready df port_info = true -> ready (annotate port_info df) port_info = true.
Proof.
  intros Hr. destruct (ready_inv _ _ Hr) as ((Hlat & Hlon & Hnum) & _).
  unfold ready in *. rewrite !andb_true_iff in *.
  destruct Hr as ((((((((_ & _) & _) & H4) & H5) & H6) & H7) & H8) & H9).
  repeat split; try assumption.
  - apply bool_decide_eq_true. unfold annotate. cbn [columns].
    apply elem_of_fold_add_label. now left.
  - apply bool_decide_eq_true. unfold annotate. cbn [columns].
    apply elem_of_fold_add_label. now left.
  - unfold annotate. cbn [rows]. apply forallb_forall. intros r' Hr'.
    apply in_map_iff in Hr' as (r0 & <- & Hr0).
    rewrite forallb_forall in Hnum. specialize (Hnum r0 Hr0).
    unfold has_coords, cell in *.
    now rewrite !annotate_row_frame
      by (apply not_proximity_latitude || apply not_proximity_longitude).
  - unfold annotate. cbn [rows]. apply forallb_forall. intros r' Hr'.
    apply in_map_iff in Hr' as (r0 & <- & Hr0).
    rewrite forallb_forall in H9. specialize (H9 r0 Hr0).
    unfold within_reach, coords_of, cell in *.
    now rewrite !annotate_row_frame
      by (apply not_proximity_latitude || apply not_proximity_longitude).
Qed.

(** X5.  On a frame the annotator accepts, running the annotator again on
    the annotated frame returns the same reference and leaves the heap as the
    first run left it: the eight columns are overwritten with the cells they
    already hold. *)
Theorem annotator_is_idempotent {lib : KDTree.TieBreak}
        (r : nat) (port_info df : DataFrame) (h : gmap nat DataFrame) :
  h !! r = Some df -> ready df port_info = true ->
  exists h1 : gmap nat DataFrame,
    create_proximity_columns r port_info h = (Ok r, h1) /\
    create_proximity_columns r port_info h1 = (Ok r, h1).
Proof.
  intros Hh Hready. exists (<[r := annotate port_info df]> h).
  split; [now apply create_proximity_columns_run|].
  rewrite (create_proximity_columns_run r port_info (annotate port_info df));
    [|apply lookup_insert_eq|now apply ready_annotated].
  now rewrite annotate_idempotent, insert_insert_eq.
Qed.

Lemma annotator_is_idempotent_witness :
  exists h1 : gmap nat DataFrame,
    create_proximity_columns (lib := Boxes.first_found) 0 Boxes.ports {[0%nat := Boxes.vessels]} = (Ok 0%nat, h1) /\
    create_proximity_columns (lib := Boxes.first_found) 0 Boxes.ports h1 = (Ok 0%nat, h1).
Proof.
  apply (annotator_is_idempotent (lib := Boxes.first_found) 0%nat Boxes.ports Boxes.vessels {[0%nat := Boxes.vessels]});
    reflexivity.
Defined.

Lemma far_from_all_beyond_ten {lib : KDTree.TieBreak}
      (port_info : DataFrame) (row : gmap string value) (d : Q) :
  fst (nearest_port port_info row) = VNum d ->
  far_from_all (annotate_row port_info row) = negb (Qle_bool d 10).
Proof.
  intros Hd. unfold far_from_all.
  destruct (annotate_row_flags port_info row) as (-> & -> & -> & ->).
  unfold flag_of. rewrite annotate_row_distance, Hd.
  change (value_le (VNum d) 10) with (Qle_bool d 10).
  destruct (Qle_bool d 10) eqn:E; cbn [negb].
  - now rewrite andb_false_r.
  - assert (Hk : forall k : Q, (k <= 10)%Q -> value_le (VNum d) k = false).
    { intros k Hk. destruct (value_le (VNum d) k) eqn:Ek; [|reflexivity].
      pose proof (value_le_mono _ _ _ Hk Ek) as H. cbn [value_le] in H. congruence. }
    rewrite !Hk by (compute; discriminate). reflexivity.
Qed.

(** X6.  In every annotated record the distance cell holds a finite distance
    [d].  Beyond 10 the record carries the sentinel name "No" and null port
    coordinates; up to 10, bound included, it carries the name and the
    coordinates of one port of the table, and [d] is the distance from the
    record's position to these coordinates as double-precision arithmetic
    computes it. *)
Theorem port_identity_kept_within_ten {lib : KDTree.TieBreak}
        (r : nat) (port_info df : DataFrame) (h : gmap nat DataFrame) :
  h !! r = Some df -> ready df port_info = true ->
  exists df' : DataFrame,
    create_proximity_columns r port_info h = (Ok r, <[r := df']> h) /\
    forall (i : nat) (row : gmap string value),
      rows df !! i = Some row ->
      exists (row' : gmap string value) (d : Q),
        rows df' !! i = Some row' /\
        cell "Distance to Nearest Port" row' = VNum d /\
        ((10 < d)%Q ->
         cell "Proximity Port Name" row' = VStr "No" /\
         cell "Port Latitude" row' = VNaN /\ cell "Port Longitude" row' = VNaN) /\
        ((d <= 10)%Q ->
         exists (name : value) (a b : Q),
           cell "Proximity Port Name" row' = name /\
           cell "Port Latitude" row' = VNum a /\ cell "Port Longitude" row' = VNum b /\
           (exists port, port ∈ rows port_info /\
              cell "Main Port Name" port = name /\
              cell "Latitude" port = VNum a /\ cell "Longitude" port = VNum b) /\
           Float64.distance (coords_of "latitude" "longitude" row) (a, b) = VNum d).
Proof.
  intros Hh Hready. exists (annotate port_info df).
  split; [now apply create_proximity_columns_run|].
  intros i row Hrow.
  destruct (ready_inv _ _ Hready) as (_ & _ & _ & _ & HPnum & _).
  pose proof (ready_reach _ _ Hready) as Hreach. rewrite forallb_forall in Hreach.
  assert (Hin : In row (rows df))
    by (apply list_elem_of_In; eapply list_elem_of_lookup_2, Hrow).
  destruct (nearest_port_spec port_info row (Hreach row Hin)) as (d & p & E & Hp & Hd & _).
  exists (annotate_row port_info row), d.
  split; [now apply annotate_lookup|].
  split; [now rewrite annotate_row_distance, E|].
  pose proof (annotate_row_port port_info row) as Hport. cbv zeta in Hport.
  assert (Hfst : fst (nearest_port port_info row) = VNum d) by (rewrite E; reflexivity).
  pose proof (far_from_all_beyond_ten port_info row d Hfst) as Hfar10.
  assert (Hsnd : snd (nearest_port port_info row) = p) by (rewrite E; reflexivity).
  rewrite Hsnd in Hport.
  destruct (far_from_all (annotate_row port_info row)) eqn:Efar.
  { split; [intros _; exact Hport|].
    intros Hnear. apply Qle_bool_iff in Hnear. rewrite Hnear in Hfar10. discriminate. }
  split.
  - intros Hbeyond. exfalso. symmetry in Hfar10. apply negb_false_iff in Hfar10.
    apply Qle_bool_iff in Hfar10. lra.
  - intros Hnear. destruct Hport as (Hn & Hla & Hlo).
    set (port := nth p (rows port_info) ∅) in *.
    assert (Hinp : In port (rows port_info)) by (apply nth_In, Hp).
    rewrite forallb_forall in HPnum. specialize (HPnum port Hinp).
    unfold has_coords in HPnum.
    destruct (cell "Latitude" port) as [a| | | | |] eqn:Ea; try discriminate.
    destruct (cell "Longitude" port) as [b| | | | |] eqn:Eb; try discriminate.
    exists (cell "Main Port Name" port), a, b.
    repeat split; try assumption.
    + exists port. repeat split; try assumption. now apply list_elem_of_In.
    + rewrite <- Hd. unfold coords_of at 3. now rewrite Ea, Eb.
Qed.

Lemma port_identity_kept_within_ten_witness :
  exists df' : DataFrame,
    create_proximity_columns (lib := Boxes.first_found) 0 Boxes.ports
                             {[0%nat := Boxes.vessels]}
    = (Ok 0%nat, <[0%nat := df']> {[0%nat := Boxes.vessels]}) /\
    forall (i : nat) (row : gmap string value),
      rows Boxes.vessels !! i = Some row ->
      exists (row' : gmap string value) (d : Q),
        rows df' !! i = Some row' /\
        cell "Distance to Nearest Port" row' = VNum d /\
        ((10 < d)%Q ->
         cell "Proximity Port Name" row' = VStr "No" /\
         cell "Port Latitude" row' = VNaN /\ cell "Port Longitude" row' = VNaN) /\
        ((d <= 10)%Q ->
         exists (name : value) (a b : Q),
           cell "Proximity Port Name" row' = name /\
           cell "Port Latitude" row' = VNum a /\ cell "Port Longitude" row' = VNum b /\
           (exists port, port ∈ rows Boxes.ports /\
              cell "Main Port Name" port = name /\
              cell "Latitude" port = VNum a /\ cell "Longitude" port = VNum b) /\
           Float64.distance (coords_of "latitude" "longitude" row) (a, b) = VNum d).
Proof.
  apply (port_identity_kept_within_ten (lib := Boxes.first_found) 0%nat Boxes.ports
           Boxes.vessels {[0%nat := Boxes.vessels]}); vm_compute; reflexivity.
Defined.

(** A port at (10, 2^-29): its distance from the origin rounds to 10, the
    flag "Less than 10 km from port" reads "Yes" and the port keeps its
    name. *)
Example rounded_to_the_bound :
  map (fun c => cell c (annotate_row (lib := Boxes.first_found)
                          (mkDF ["Main Port Name"; "Latitude"; "Longitude"]
                                [Boxes.port "Delta" 10 (1 # 536870912)])
                          (Boxes.vessel 0 0 5)))
      ["Distance to Nearest Port"; "Less than 10 km from port"; "Proximity Port Name"]
  = [VNum 10; VStr "Yes"; VStr "Delta"].
Proof. vm_compute. reflexivity. Qed.

Lemma range_starts (n : nat) (chunk_size : Z) :
  (0 < chunk_size)%Z ->
  exists m : nat,
    range 0 (Z.of_nat n) chunk_size
    = Ok (map (fun k : nat => Z.of_nat (k * Z.to_nat chunk_size)) (seq 0 m)) /\
    (n <= m * Z.to_nat chunk_size)%nat /\
    (forall k : nat, (k < m)%nat -> (k * Z.to_nat chunk_size < n)%nat).
Proof.
  intros Hcs. unfold range.
  destruct (Z.eqb_spec chunk_size 0); [lia|].
  destruct (Z.ltb_spec 0 chunk_size); [|lia].
  set (count := if (Z.of_nat n <=? 0)%Z then 0%Z
                else ((Z.of_nat n - 0 - 1) / Z.abs chunk_size + 1)%Z).
  exists (Z.to_nat count). split; [|split].
  - f_equal. apply map_ext. intros k. rewrite Nat2Z.inj_mul, Z2Nat.id by lia. lia.
  - subst count. destruct (Z.leb_spec (Z.of_nat n) 0); [lia|].
    rewrite Z.abs_eq by lia.
    assert (Hlt : (Z.of_nat n - 0 - 1 < chunk_size * ((Z.of_nat n - 0 - 1) / chunk_size + 1))%Z).
    { pose proof (Z.mul_succ_div_gt (Z.of_nat n - 0 - 1) chunk_size Hcs). lia. }
    assert (Hq : (0 <= (Z.of_nat n - 0 - 1) / chunk_size)%Z) by (apply Z.div_pos; lia).
    nia.
  - intros k Hk. subst count. destruct (Z.leb_spec (Z.of_nat n) 0); [simpl in Hk; lia|].
    rewrite Z.abs_eq in Hk by lia.
    assert (Hq : (0 <= (Z.of_nat n - 0 - 1) / chunk_size)%Z) by (apply Z.div_pos; lia).
    assert (Hle : (chunk_size * ((Z.of_nat n - 0 - 1) / chunk_size) <= Z.of_nat n - 0 - 1)%Z)
      by (apply Z.mul_div_le; lia).
    assert (Hk' : (Z.of_nat k <= (Z.of_nat n - 0 - 1) / chunk_size)%Z) by lia.
    assert (Hmul : (Z.of_nat k * chunk_size <= chunk_size * ((Z.of_nat n - 0 - 1) / chunk_size))%Z)
      by nia.
    apply Nat2Z.inj_lt. rewrite Nat2Z.inj_mul, Z2Nat.id by lia. lia.
Qed.

(** X7.  For a positive chunk size the start indices of the loop exist;
    the slices taken at them, one after the other, are the rows of the
    dataset, none lost and none repeated; and every slice has the columns of
    the dataset, at least one row and at most [chunk_size] rows. *)
Theorem chunks_partition_the_records (df : DataFrame) (chunk_size : Z) :
  (0 < chunk_size)%Z ->
  exists starts : list Z,
    range 0 (Z.of_nat (len df)) chunk_size = Ok starts /\
    flat_map (fun i => rows (iloc df i (i + chunk_size))) starts = rows df /\
    forall i : Z, In i starts ->
      columns (iloc df i (i + chunk_size)) = columns df /\
      (0 < len (iloc df i (i + chunk_size)))%nat /\
      (Z.of_nat (len (iloc df i (i + chunk_size))) <= chunk_size)%Z.
Proof.
  intros Hcs. destruct (range_starts (len df) chunk_size Hcs) as (m & Hr & Hm & Hk).
  set (c := Z.to_nat chunk_size) in *.
  assert (Hc : (0 < c)%nat) by (subst c; lia).
  assert (Hchunk : forall k, iloc df (Z.of_nat (k * c)) (Z.of_nat (k * c) + chunk_size)
                             = mkDF (columns df) (take c (drop (k * c) (rows df)))).
  { intros k. exact (iloc_chunk df chunk_size k Hcs). }
  eexists. split; [exact Hr|]. split.
  - rewrite flat_map_map.
    transitivity (flat_map (fun k => take c (drop (k * c) (rows df))) (seq 0 m));
      [|now apply chunks_cover].
    apply flat_map_ext. intros k. now rewrite Hchunk.
  - intros i Hi. apply in_map_iff in Hi as (k & <- & Hin). apply in_seq in Hin.
    rewrite Hchunk. unfold len. cbn [columns rows].
    split; [reflexivity|]. rewrite length_take, length_drop.
    specialize (Hk k ltac:(lia)). unfold len in Hk. fold c in Hk. split; lia.
Qed.

Lemma chunks_partition_the_records_witness :
  exists starts : list Z,
    range 0 (Z.of_nat (len Boxes.vessels)) 3 = Ok starts /\
    flat_map (fun i => rows (iloc Boxes.vessels i (i + 3))) starts = rows Boxes.vessels /\
    forall i : Z, In i starts ->
      columns (iloc Boxes.vessels i (i + 3)) = columns Boxes.vessels /\
      (0 < len (iloc Boxes.vessels i (i + 3)))%nat /\
      (Z.of_nat (len (iloc Boxes.vessels i (i + 3))) <= 3)%Z.
Proof. apply (chunks_partition_the_records Boxes.vessels 3). reflexivity. Defined.

Section ContainmentExtras.

Variable geometry : Type.
Variable within : Q * Q -> geometry -> bool.
Variable to_crs : geometry -> geometry.

(** X8.  On a non-empty dataset, any two positive chunk sizes give the
    same outcome: the containment stage returns a frame with the one exactly
    when it returns this frame with the other. *)
Theorem chunk_size_does_not_matter
        (df : DataFrame) (polygons : list (PortPolygon geometry)) (size1 size2 : Z) :
  rows df <> [] -> (0 < size1)%Z -> (0 < size2)%Z ->
  forall out : DataFrame,
    process_with_polygons geometry within to_crs df polygons size1 = Ok out <->
    process_with_polygons geometry within to_crs df polygons size2 = Ok out.
Proof.
  intros Hne H1 H2 out.
  assert (Hswap : forall a b, (0 < a)%Z -> (0 < b)%Z ->
            process_with_polygons geometry within to_crs df polygons a = Ok out ->
            process_with_polygons geometry within to_crs df polygons b = Ok out).
  { intros a b Ha Hb H.
    pose proof (process_with_polygons_inv _ _ _ _ _ _ _ Hne Ha H) as Hj.
    rewrite process_with_polygons_run in H by assumption.
    now rewrite process_with_polygons_run. }
  split; now apply Hswap.
Qed.

(** X9.  For every dataset, a chunk size of zero raises the [ValueError] of
    [range], and a negative chunk size, which gives no chunk at all, raises
    the [ValueError] of a concatenation of no frames. *)
Theorem non_positive_chunk_size_raises
        (df : DataFrame) (polygons : list (PortPolygon geometry)) (chunk_size : Z) :
  (chunk_size <= 0)%Z ->
  process_with_polygons geometry within to_crs df polygons chunk_size
  = Raise (ValueError (if (chunk_size =? 0)%Z
                       then "range() arg 3 must not be zero"
                       else "No objects to concatenate")).
Proof.
  intros Hcs. unfold process_with_polygons, range.
  destruct (Z.eqb_spec chunk_size 0); [reflexivity|].
  destruct (Z.ltb_spec 0 chunk_size); [lia|].
  destruct (Z.leb_spec 0 (Z.of_nat (len df))); [reflexivity | lia].
Qed.

End ContainmentExtras.

Lemma chunk_size_does_not_matter_witness :
  let out := contain Boxes.box Boxes.within Boxes.to_crs Boxes.nested_harbours Boxes.vessels in
  process_with_polygons Boxes.box Boxes.within Boxes.to_crs Boxes.vessels
                        Boxes.nested_harbours 2 = Ok out <->
  process_with_polygons Boxes.box Boxes.within Boxes.to_crs Boxes.vessels
                        Boxes.nested_harbours default_chunk_size = Ok out.
Proof.
  apply (chunk_size_does_not_matter Boxes.box Boxes.within Boxes.to_crs
                                    Boxes.vessels Boxes.nested_harbours 2 default_chunk_size).
  - discriminate.
  - reflexivity.
  - reflexivity.
Defined.

Lemma non_positive_chunk_size_raises_witness :
  process_with_polygons Boxes.box Boxes.within Boxes.to_crs Boxes.vessels Boxes.harbours (-4)
  = Raise (ValueError "No objects to concatenate").
Proof.
  apply (non_positive_chunk_size_raises Boxes.box Boxes.within Boxes.to_crs
                                        Boxes.vessels Boxes.harbours (-4)).
  discriminate.
Defined.

Section JoinExtras.

Variable geometry : Type.
Variable within : Q * Q -> geometry -> bool.
Variable to_crs : geometry -> geometry.

Lemma finish_frame (r : gmap string value) (c : string) :
  c ∉ ["geometry"; "index_right"; "Parked in Port"; "Port Name"] ->
  finish r !! c = r !! c.
Proof.
  intros Hc. unfold finish.
  rewrite !lookup_delete_ne by (intros <-; apply Hc, (bool_decide_unpack _); vm_compute; exact I).
  rewrite !lookup_insert_ne by (intros <-; apply Hc, (bool_decide_unpack _); vm_compute; exact I).
  reflexivity.
Qed.

(** The rows that one record yields, whatever the polygons. *)
Lemma contain_row_rows (polygons : list (PortPolygon geometry)) (r : gmap string value) :
  let found := containing geometry within to_crs polygons r in
  let group := contain_row geometry within (set_crs geometry to_crs polygons) r in
  length group = Nat.max 1 (length found) /\
  map (cell "Port Name") group
  = match found with
    | [] => [VStr "No"]
    | _ => map port_name found
    end /\
  map (cell "port_name") group
  = match found with
    | [] => [VNaN]
    | _ => map port_name found
    end /\
  (forall r', In r' group ->
     cell "Parked in Port" r' = VBool (negb (Nat.eqb (length found) 0)) /\
     forall c, c ∉ ["geometry"; "index_right"; "port_name"; "Parked in Port"; "Port Name"] ->
               cell c r' = cell c r).
Proof.
  intros found group. subst group. unfold contain_row, joined_rows.
  rewrite matches_set_crs. fold found.
  assert (Hframe : forall v w c,
    c ∉ ["geometry"; "index_right"; "port_name"; "Parked in Port"; "Port Name"] ->
    cell c (finish (<["port_name" := v]> (<["index_right" := w]>
                      (<["geometry" := locate r]> r)))) = cell c r).
  { intros v w c Hc. unfold cell. rewrite finish_frame.
    - rewrite !lookup_insert_ne; [reflexivity|..];
        intros <-; apply Hc, (bool_decide_unpack _); vm_compute; exact I.
    - intros Hin. apply Hc.
      repeat (apply elem_of_cons in Hin as [->|Hin];
              [apply (bool_decide_unpack _); vm_compute; exact I|]).
      inversion Hin. }
  destruct found as [|p found'].
  - set (u := <["port_name" := VNaN]> (<["index_right" := VNaN]>
                 (<["geometry" := locate r]> r))).
    assert (Hpark : cell "Parked in Port" (finish u) = VBool false).
    { rewrite finish_parked. subst u.
      rewrite (cell_insert_ne "index_right" "port_name") by discriminate.
      now rewrite cell_insert. }
    assert (Hname : cell "Port Name" (finish u) = VStr "No").
    { rewrite finish_port_name. subst u.
      rewrite (cell_insert_ne "index_right" "port_name") by discriminate.
      now rewrite cell_insert. }
    assert (Hraw : cell "port_name" (finish u) = VNaN).
    { unfold finish, cell. subst u.
      now rewrite !lookup_delete_ne, !lookup_insert_ne, lookup_insert_eq by discriminate. }
    cbn [map length Nat.max Nat.eqb negb]. rewrite Hname, Hraw.
    split; [reflexivity|]. split; [reflexivity|]. split; [reflexivity|].
    intros r' [<-|[]]. split; [exact Hpark|].
    intros c Hc. subst u. now apply Hframe.
  - assert (Hname : forall q : PortPolygon geometry,
              cell "Port Name" (finish (<["port_name" := port_name q]>
                 (<["index_right" := VNum (inject_Z (label q))]>
                    (<["geometry" := locate r]> r)))) = port_name q).
    { intros q. rewrite finish_port_name.
      rewrite (cell_insert_ne "index_right" "port_name") by discriminate.
      now rewrite !cell_insert. }
    assert (Hraw : forall q : PortPolygon geometry,
              cell "port_name" (finish (<["port_name" := port_name q]>
                 (<["index_right" := VNum (inject_Z (label q))]>
                    (<["geometry" := locate r]> r)))) = port_name q).
    { intros q. unfold finish, cell.
      now rewrite !lookup_delete_ne, !lookup_insert_ne, lookup_insert_eq by discriminate. }
    assert (Hpark : forall q : PortPolygon geometry,
              cell "Parked in Port" (finish (<["port_name" := port_name q]>
                 (<["index_right" := VNum (inject_Z (label q))]>
                    (<["geometry" := locate r]> r)))) = VBool true).
    { intros q. rewrite finish_parked.
      rewrite (cell_insert_ne "index_right" "port_name") by discriminate.
      now rewrite cell_insert. }
    cbn [map port_name label]. rewrite !map_map. cbn [port_name label].
    split; [cbn [length]; rewrite !length_map; lia|].
    split; [f_equal; [apply Hname | apply map_ext; intros q; apply Hname]|].
    split; [f_equal; [apply Hraw | apply map_ext; intros q; apply Hraw]|].
    intros r' [<-|Hr']; [|apply in_map_iff in Hr' as (q & <- & _)];
      (split; [apply Hpark | intros c Hc; now apply Hframe]).
Qed.

(** X10.  On a dataset the stage accepts, whether the polygons overlap or
    not, the rows of the result are, in the order of the input, one group of
    rows per record: a record within no polygon gives one row, with "Port
    Name" = "No"; a record within k >= 1 polygons gives k rows, whose "Port
    Name" cells are the names of these polygons in the order of the table;
    every row of a group has "Parked in Port" true exactly when the record is
    within some polygon, and the record's cell under every label other than
    the five the join works with. *)
Theorem record_appears_once_per_containing_polygon
        (df : DataFrame) (polygons : list (PortPolygon geometry)) (chunk_size : Z) :
  joinable df = true -> rows df <> [] -> (0 < chunk_size)%Z ->
  exists (out : DataFrame) (groups : list (list (gmap string value))),
    process_with_polygons geometry within to_crs df polygons chunk_size = Ok out /\
    rows out = List.concat groups /\
    Forall2 (fun r group =>
               let found := containing geometry within to_crs polygons r in
               length group = Nat.max 1 (length found) /\
               map (cell "Port Name") group
               = match found with
                 | [] => [VStr "No"]
                 | _ => map port_name found
                 end /\
               forall r', In r' group ->
                 cell "Parked in Port" r' = VBool (negb (Nat.eqb (length found) 0)) /\
                 forall c,
                   c ∉ ["geometry"; "index_right"; "port_name"; "Parked in Port"; "Port Name"] ->
                   cell c r' = cell c r)
            (rows df) groups.
Proof.
  intros Hj Hne Hcs.
  set (cols := chunk_columns (columns df)).
  set (ps := set_crs geometry to_crs polygons).
  exists (contain geometry within to_crs polygons df),
         (map (fun r => map (reindex cols) (contain_row geometry within ps r)) (rows df)).
  split; [now apply process_with_polygons_run|]. split.
  - unfold contain. cbn [rows]. fold cols ps.
    now rewrite map_flat_map, flat_map_concat_map.
  - apply Forall2_fmap_r, Forall_Forall2_diag, Forall_forall. intros r _.
    destruct (contain_row_rows polygons r) as (Hlen & Hnames & _ & Hrows).
    cbv zeta in *. fold ps in Hlen, Hnames, Hrows.
    split; [now rewrite length_map|]. split.
    + rewrite map_map. rewrite <- Hnames. apply map_ext. intros x. apply reindex_cell.
    + intros r' Hr'. apply in_map_iff in Hr' as (x & <- & Hx).
      destruct (Hrows x Hx) as [Hp Hc]. rewrite reindex_cell. split; [exact Hp|].
      intros c Hnot. rewrite reindex_cell. now apply Hc.
Qed.

End JoinExtras.

Section JoinErrors.

Variable geometry : Type.
Variable within : Q * Q -> geometry -> bool.
Variable to_crs : geometry -> geometry.

(** With records and a positive chunk size, the stage fails as its first
    chunk does. *)
Lemma first_chunk_raises (df : DataFrame) (polygons : list (PortPolygon geometry))
      (chunk_size : Z) (e : exn) :
  rows df <> [] -> (0 < chunk_size)%Z ->
  process_chunk geometry within (set_crs geometry to_crs polygons)
                (iloc df 0 (0 + chunk_size)) = Raise e ->
  process_with_polygons geometry within to_crs df polygons chunk_size = Raise e.
Proof.
  intros Hne Hcs Hfirst. unfold process_with_polygons.
  destruct (range_starts (len df) chunk_size Hcs) as (m & -> & Hm & Hk).
  cbn [rbind]. destruct m as [|m].
  - exfalso. apply Hne, nil_length_inv. unfold len in Hm. lia.
  - rewrite <- cons_seq. cbn [map rmapM].
    change (Z.of_nat (0 * Z.to_nat chunk_size)) with 0%Z.
    now rewrite Hfirst.
Qed.

(** X11.  On a non-empty dataset and with a positive chunk size, a missing
    coordinate column stops the stage at its first chunk: a [KeyError] for
    [longitude] when this column is missing, and for [latitude] when
    [longitude] is there and [latitude] is not. *)
Theorem containment_missing_coordinate_column
        (df : DataFrame) (polygons : list (PortPolygon geometry)) (chunk_size : Z) :
  rows df <> [] -> (0 < chunk_size)%Z ->
  ~ ("longitude" ∈ columns df /\ "latitude" ∈ columns df) ->
  process_with_polygons geometry within to_crs df polygons chunk_size
  = Raise (KeyError (if bool_decide ("longitude" ∈ columns df)
                     then "latitude" else "longitude")).
Proof.
  intros Hne Hcs Hmiss. apply first_chunk_raises; [assumption..|].
  unfold process_chunk, getitem, iloc. cbn [columns].
  destruct (decide ("longitude" ∈ columns df)) as [Hlon|Hlon].
  - rewrite bool_decide_eq_true_2 by exact Hlon. cbn [rbind].
    destruct (decide ("latitude" ∈ columns df)) as [Hlat|Hlat]; [tauto | reflexivity].
  - now rewrite bool_decide_eq_false_2 by exact Hlon.
Qed.

(** X12.  On a non-empty dataset with both coordinate columns holding
    numbers: a column named [index_right] makes the join refuse the frame with
    a [ValueError]; without it, a column named [port_name] makes the stage
    raise [KeyError port_name], the join having renamed both [port_name]
    columns with its suffixes. *)
Theorem containment_reserved_column_names
        (df : DataFrame) (polygons : list (PortPolygon geometry)) (chunk_size : Z) :
  rows df <> [] -> (0 < chunk_size)%Z ->
  "longitude" ∈ columns df -> "latitude" ∈ columns df ->
  forallb has_point (rows df) = true ->
  ("index_right" ∈ columns df ->
   exists msg : string,
     process_with_polygons geometry within to_crs df polygons chunk_size
     = Raise (ValueError msg)) /\
  ("index_right" ∉ columns df -> "port_name" ∈ columns df ->
   process_with_polygons geometry within to_crs df polygons chunk_size
   = Raise (KeyError "port_name")).
Proof.
  intros Hne Hcs Hlon Hlat Hpt.
  set (c := Z.to_nat chunk_size).
  assert (Hchunk : iloc df 0 (0 + chunk_size) = mkDF (columns df) (take c (rows df))).
  { exact (iloc_chunk df chunk_size 0 Hcs). }
  assert (Hpt' : forallb has_point (take c (rows df)) = true).
  { apply forallb_forall. intros r Hr. rewrite forallb_forall in Hpt. apply Hpt.
    apply list_elem_of_In. apply list_elem_of_In in Hr.
    exact (subseteq_take c (rows df) r Hr). }
  split.
  - intros Hidx. eexists. apply first_chunk_raises; [assumption..|].
    rewrite Hchunk. unfold process_chunk.
    rewrite !getitem_Ok by assumption. cbn [rbind rows].
    rewrite (points_from_xy_run _ Hpt'). cbn [rbind].
    rewrite setitem_rows. cbn [rbind]. unfold sjoin. cbn [columns].
    destruct (decide ("index_right" ∈ add_label (columns df) "geometry")) as [_|Hn];
      [reflexivity|].
    exfalso. apply Hn, elem_of_add_label. now left.
  - intros Hidx Hname. apply first_chunk_raises; [assumption..|].
    rewrite Hchunk. unfold process_chunk.
    rewrite !getitem_Ok by assumption. cbn [rbind rows].
    rewrite (points_from_xy_run _ Hpt'). cbn [rbind].
    rewrite setitem_rows. cbn [rbind]. unfold sjoin. cbn [columns rows].
    destruct (decide ("index_right" ∈ add_label (columns df) "geometry")) as [Hin|_].
    { apply elem_of_add_label in Hin as [Hin|Hin]; [contradiction | discriminate]. }
    rewrite bool_decide_eq_true_2 by (apply elem_of_add_label; now left).
    cbn [rbind].
    set (lcols := map _ (add_label (columns df) "geometry")).
    set (L := flat_map _ _).
    rewrite getitem_Ok.
    2:{ cbn [columns]. apply elem_of_app. right. apply elem_of_cons. now left. }
    cbn [rbind rows]. rewrite map_map, setitem_rows. cbn [rbind].
    unfold getitem at 1. cbn [columns].
    destruct (decide ("port_name" ∈ _)) as [Hin|_]; [|reflexivity].
    exfalso. apply elem_of_add_label in Hin as [Hin|Hin]; [|discriminate].
    apply elem_of_app in Hin as [Hin|Hin];
      [|repeat (apply elem_of_cons in Hin as [Hin|Hin]; [discriminate|]); inversion Hin].
    subst lcols. apply list_elem_of_fmap in Hin as (x & Hx & _).
    destruct (String.eqb_spec x "port_name"); [discriminate | congruence].
Qed.

(** X13.  Whenever the stage returns a frame for a non-empty dataset, this
    frame has no [geometry] and no [index_right] column, it has [port_name],
    "Parked in Port" and "Port Name", it has every column of the input other
    than [geometry], and it has no further column. *)
Theorem containment_output_columns
        (df : DataFrame) (polygons : list (PortPolygon geometry)) (chunk_size : Z)
        (out : DataFrame) :
  rows df <> [] -> (0 < chunk_size)%Z ->
  process_with_polygons geometry within to_crs df polygons chunk_size = Ok out ->
  ("geometry" ∉ columns out) /\ ("index_right" ∉ columns out) /\
  ("port_name" ∈ columns out) /\ ("Parked in Port" ∈ columns out) /\
  ("Port Name" ∈ columns out) /\
  (forall c : string, c ∈ columns df -> c <> "geometry" -> c ∈ columns out) /\
  (forall c : string, c ∈ columns out ->
     c ∈ columns df \/ c ∈ ["port_name"; "Parked in Port"; "Port Name"]).
Proof.
  intros Hne Hcs Hrun.
  pose proof (process_with_polygons_inv _ _ _ _ _ _ _ Hne Hcs Hrun) as Hj.
  rewrite process_with_polygons_run in Hrun by assumption. injection Hrun as <-.
  unfold contain. cbn [columns]. unfold chunk_columns.
  assert (Hidx : "index_right" ∉ columns df).
  { unfold joinable in Hj. rewrite !andb_true_iff, !negb_true_iff in Hj.
    destruct Hj as ((_ & Hi) & _). now apply bool_decide_eq_false in Hi. }
  assert (Hmem : forall c : string,
    c ∈ List.filter (fun c => negb (bool_decide (c ∈ ["geometry"; "index_right"])))
          (add_label (add_label (add_label (columns df) "geometry" ++
                                 ["index_right"; "port_name"]) "Parked in Port") "Port Name")
    <-> (c ≠ "geometry" /\ c ≠ "index_right") /\
        (c ∈ columns df \/ c ∈ ["port_name"; "Parked in Port"; "Port Name"] \/
         c = "geometry" \/ c = "index_right")).
  { intros c. rewrite list_elem_of_In, filter_In, <- list_elem_of_In.
    rewrite negb_true_iff, bool_decide_eq_false.
    rewrite !elem_of_add_label, elem_of_app, elem_of_add_label.
    rewrite !elem_of_cons, !elem_of_nil. tauto. }
  repeat split.
  - intros H. apply Hmem in H. tauto.
  - intros H. apply Hmem in H. tauto.
  - apply Hmem. split; [split; discriminate|]. right. left. apply elem_of_cons. now left.
  - apply Hmem. split; [split; discriminate|]. right. left.
    apply elem_of_cons. right. apply elem_of_cons. now left.
  - apply Hmem. split; [split; discriminate|]. right. left.
    do 2 (apply elem_of_cons; right). apply elem_of_cons. now left.
  - intros c Hc Hg. apply Hmem. split; [split; [exact Hg|]|now left].
    intros ->. contradiction.
  - intros c Hc. apply Hmem in Hc. tauto.
Qed.

End JoinErrors.

Lemma record_appears_once_per_containing_polygon_witness :
  exists (out : DataFrame) (groups : list (list (gmap string value))),
    process_with_polygons Boxes.box Boxes.within Boxes.to_crs Boxes.vessels
                          Boxes.nested_harbours 3 = Ok out /\
    rows out = List.concat groups /\
    Forall2 (fun r group =>
               let found := containing Boxes.box Boxes.within Boxes.to_crs
                                       Boxes.nested_harbours r in
               length group = Nat.max 1 (length found) /\
               map (cell "Port Name") group
               = match found with
                 | [] => [VStr "No"]
                 | _ => map port_name found
                 end /\
               forall r', In r' group ->
                 cell "Parked in Port" r' = VBool (negb (Nat.eqb (length found) 0)) /\
                 forall c,
                   c ∉ ["geometry"; "index_right"; "port_name"; "Parked in Port"; "Port Name"] ->
                   cell c r' = cell c r)
            (rows Boxes.vessels) groups.
Proof.
  apply (record_appears_once_per_containing_polygon Boxes.box Boxes.within Boxes.to_crs
           Boxes.vessels Boxes.nested_harbours 3).
  - vm_compute. reflexivity.
  - discriminate.
  - reflexivity.
Defined.

(** Four vessels, the first within both boxes: five rows come out. *)
Example overlapping_polygons_duplicate_a_record :
  match process_with_polygons Boxes.box Boxes.within Boxes.to_crs Boxes.vessels
                              Boxes.nested_harbours default_chunk_size with
  | Ok out => map (cell "Port Name") (rows out)
  | Raise _ => []
  end = [VStr "Alpha"; VStr "Bay"; VStr "Bay"; VStr "No"; VStr "Bay"].
Proof. vm_compute. reflexivity. Qed.

Lemma containment_missing_coordinate_column_witness :
  process_with_polygons Boxes.box Boxes.within Boxes.to_crs Boxes.ports Boxes.harbours 2
  = Raise (KeyError "longitude").
Proof.
  apply (containment_missing_coordinate_column Boxes.box Boxes.within Boxes.to_crs
           Boxes.ports Boxes.harbours 2).
  - discriminate.
  - reflexivity.
  - intros [H _]. revert H. apply (bool_decide_unpack _). vm_compute. exact I.
Defined.

Lemma containment_reserved_column_names_witness :
  ("index_right" ∈ columns Boxes.tagged_vessels ->
   exists msg : string,
     process_with_polygons Boxes.box Boxes.within Boxes.to_crs Boxes.tagged_vessels
                           Boxes.harbours 2 = Raise (ValueError msg)) /\
  ("index_right" ∉ columns Boxes.tagged_vessels ->
   "port_name" ∈ columns Boxes.tagged_vessels ->
   process_with_polygons Boxes.box Boxes.within Boxes.to_crs Boxes.tagged_vessels
                         Boxes.harbours 2 = Raise (KeyError "port_name")).
Proof.
  apply (containment_reserved_column_names Boxes.box Boxes.within Boxes.to_crs
           Boxes.tagged_vessels Boxes.harbours 2).
  - discriminate.
  - reflexivity.
  - apply (bool_decide_unpack _). vm_compute. exact I.
  - apply (bool_decide_unpack _). vm_compute. exact I.
  - vm_compute. reflexivity.
Defined.

Example tagged_vessels_cannot_be_joined :
  process_with_polygons Boxes.box Boxes.within Boxes.to_crs Boxes.tagged_vessels
                        Boxes.harbours default_chunk_size = Raise (KeyError "port_name").
Proof. vm_compute. reflexivity. Qed.

Lemma containment_output_columns_witness :
  let out := contain Boxes.box Boxes.within Boxes.to_crs Boxes.harbours Boxes.vessels in
  ("geometry" ∉ columns out) /\ ("index_right" ∉ columns out) /\
  ("port_name" ∈ columns out) /\ ("Parked in Port" ∈ columns out) /\
  ("Port Name" ∈ columns out) /\
  (forall c : string, c ∈ columns Boxes.vessels -> c <> "geometry" -> c ∈ columns out) /\
  (forall c : string, c ∈ columns out ->
     c ∈ columns Boxes.vessels \/ c ∈ ["port_name"; "Parked in Port"; "Port Name"]).
Proof.
  apply (containment_output_columns Boxes.box Boxes.within Boxes.to_crs
           Boxes.vessels Boxes.harbours 2).
  - discriminate.
  - reflexivity.
  - vm_compute. reflexivity.
Defined.

Lemma value_eqb_refl (v : value) : value_eqb v v = true.
Proof.
  destruct v as [a| | |s|b|[[x y]|]]; simpl; try reflexivity.
  - apply Qeq_bool_iff. reflexivity.
  - apply String.eqb_refl.
  - now destruct b.
  - apply andb_true_iff. split; apply Qeq_bool_iff; reflexivity.
Qed.

Lemma row_eqb_refl (cols : list string) (r : gmap string value) : row_eqb cols r r = true.
Proof.
  unfold row_eqb. apply forallb_forall. intros c _. apply value_eqb_refl.
Qed.

(** What [drop_duplicates] keeps is a subsequence of its input, and every
    row it was given is equal to a row seen before or to a row it keeps. *)
Lemma drop_duplicates_from_keeps (cols : list string) (rs : list (gmap string value)) :
  forall seen,
    let out := drop_duplicates_from cols seen rs in
    out `sublist_of` rs /\
    (forall r, In r rs ->
       exists s, (In s seen \/ In s out) /\ row_eqb cols r s = true).
Proof.
  induction rs as [|r rs IH]; intros seen; simpl.
  - split; [constructor|]. intros r [].
  - destruct (existsb (row_eqb cols r) seen) eqn:E.
    + destruct (IH seen) as [Hsub Hcov]. split; [now apply sublist_cons|].
      intros r' [<-|Hr'].
      * apply existsb_exists in E as (s & Hs & Heq). exists s. split; [now left | exact Heq].
      * apply Hcov, Hr'.
    + destruct (IH (r :: seen)) as [Hsub Hcov]. split; [now apply sublist_skip|].
      intros r' [<-|Hr'].
      * exists r. split; [right; now left | apply row_eqb_refl].
      * destruct (Hcov r' Hr') as (s & [[<-|Hs]|Hs] & Heq).
        -- exists r. split; [right; now left | exact Heq].
        -- exists s. split; [now left | exact Heq].
        -- exists s. split; [right; now right | exact Heq].
Qed.

Section CleaningExtras.

Variable load_raw_data : string -> result DataFrame.
Variable remove_NA : DataFrame -> result DataFrame.
Variable remove_invalid_lat_and_lon : DataFrame -> result DataFrame.
Variable remove_invalid_speed : DataFrame -> result DataFrame.

(** X14.  When the loader and the three filters return, the cleaning
    returns a frame with the columns of the last filter's frame; its rows are
    rows of that frame in their order, beginning with the same first row; and
    every row of that frame is equal, on all columns, to a row that is kept:
    only repetitions are dropped. *)
Theorem cleaning_drops_only_duplicates (path : string) (raw a b c : DataFrame) :
  load_raw_data path = Ok raw -> remove_NA raw = Ok a ->
  remove_invalid_lat_and_lon a = Ok b -> remove_invalid_speed b = Ok c ->
  exists df : DataFrame,
    load_and_clean_data load_raw_data remove_NA remove_invalid_lat_and_lon
                        remove_invalid_speed path = Ok df /\
    columns df = columns c /\
    rows df `sublist_of` rows c /\
    head (rows df) = head (rows c) /\
    forall r : gmap string value, r ∈ rows c ->
      exists s : gmap string value, s ∈ rows df /\ row_eqb (columns c) r s = true.
Proof.
  intros H0 H1 H2 H3. exists (drop_duplicates c).
  split; [now apply load_and_clean_data_runs with raw a b|].
  unfold drop_duplicates. cbn [columns rows].
  destruct (drop_duplicates_from_keeps (columns c) (rows c) []) as [Hsub Hcov].
  repeat split; [exact Hsub| |].
  - destruct (rows c); reflexivity.
  - intros r Hr. apply list_elem_of_In in Hr.
    destruct (Hcov r Hr) as (s & [[]|Hs] & Heq).
    exists s. split; [now apply list_elem_of_In | exact Heq].
Qed.

End CleaningExtras.

Lemma cleaning_drops_only_duplicates_witness :
  exists df : DataFrame,
    load_and_clean_data (fun _ => Ok Boxes.repeated_vessels) Ok Ok Ok
                        "data/raw_data/raw_data.parquet" = Ok df /\
    columns df = columns Boxes.repeated_vessels /\
    rows df `sublist_of` rows Boxes.repeated_vessels /\
    head (rows df) = head (rows Boxes.repeated_vessels) /\
    forall r : gmap string value, r ∈ rows Boxes.repeated_vessels ->
      exists s : gmap string value,
        s ∈ rows df /\ row_eqb (columns Boxes.repeated_vessels) r s = true.
Proof.
  apply (cleaning_drops_only_duplicates (fun _ => Ok Boxes.repeated_vessels) Ok Ok Ok
           "data/raw_data/raw_data.parquet" Boxes.repeated_vessels Boxes.repeated_vessels
           Boxes.repeated_vessels Boxes.repeated_vessels); reflexivity.
Defined.

Section MainExtras.

Variable geometry : Type.
Variable within : Q * Q -> geometry -> bool.
Variable to_crs : geometry -> geometry.
Variable geometry_eqb : geometry -> geometry -> bool.
Variable load_raw_data : string -> result DataFrame.
Variable load_port_info : result DataFrame.
Variable load_port_polygons : result (list (PortPolygon geometry)).
Variable remove_NA : DataFrame -> result DataFrame.
Variable remove_invalid_lat_and_lon : DataFrame -> result DataFrame.
Variable remove_invalid_speed : DataFrame -> result DataFrame.
Context {lib : KDTree.TieBreak}.

(** X15.  When the loaders succeed on a non-empty cleaned dataset, the
    diagnostics run to the end on the cleaned dataset and on the port table
    (no column mixes text with other values), the annotator accepts the two
    tables, the columns of the cleaned dataset bear none of the reserved
    labels, and no two port polygons overlap: the header [main] writes begins
    with the columns of the cleaned dataset, and the i-th record written has
    as many cells as the header and begins with the cells of the i-th cleaned
    record, in the order of these columns. *)
Theorem written_records_start_with_the_cleaned_cells
        (h : gmap nat DataFrame) (cleaned ports : DataFrame)
        (polys : list (PortPolygon geometry)) :
  load_and_clean_data load_raw_data remove_NA remove_invalid_lat_and_lon
                      remove_invalid_speed "data/raw_data/raw_data.parquet" = Ok cleaned ->
  load_port_info = Ok ports ->
  load_port_polygons = Ok polys ->
  investigable cleaned = true ->
  investigable (drop_duplicates ports) = true ->
  ready cleaned (drop_duplicates ports) = true ->
  unreserved (columns cleaned) = true ->
  rows cleaned <> [] ->
  non_overlapping geometry within to_crs (drop_duplicate_polygons geometry geometry_eqb [] polys) ->
  exists (header : list string) (records : list (list value)),
    fst (main geometry within to_crs geometry_eqb load_raw_data load_port_info
              load_port_polygons remove_NA remove_invalid_lat_and_lon
              remove_invalid_speed h) = Ok (header, records) /\
    take (length (columns cleaned)) header = columns cleaned /\
    forall (i : nat) (row : gmap string value),
      rows cleaned !! i = Some row ->
      exists record : list value,
        records !! i = Some record /\
        length record = length header /\
        take (length (columns cleaned)) record
        = map (fun c => cell c row) (columns cleaned).
Proof.
  intros Hclean Hports Hpolys Hshow Hshow' Hready Hfresh Hne Hno.
  set (port_info := drop_duplicates ports) in *.
  set (polygons := drop_duplicate_polygons geometry geometry_eqb [] polys) in *.
  set (annotated := annotate port_info cleaned).
  set (out := contain geometry within to_crs polygons annotated).
  exists (columns out), (snd (to_csv out)).
  assert (Hcols : columns out = columns cleaned ++ proximity_labels ++ containment_labels).
  { unfold out, contain. cbn [columns]. now apply annotated_chunk_columns. }
  split; [|split].
  - now rewrite (main_run geometry within to_crs geometry_eqb load_raw_data load_port_info
                           load_port_polygons remove_NA remove_invalid_lat_and_lon
                           remove_invalid_speed h cleaned ports polys).
  - rewrite Hcols. now rewrite take_app_length.
  - intros i row Hrow.
    pose proof (annotate_lookup port_info cleaned i row Hrow) as Hrow'.
    destruct (contain_lookup geometry within to_crs polygons annotated i _ Hno Hrow')
      as (r'' & Hr'' & Hout).
    fold out in Hout.
    eexists. split; [|split].
    + unfold to_csv. cbn [snd]. rewrite list_lookup_fmap, Hout. reflexivity.
    + now rewrite length_map.
    + rewrite Hcols, map_app, <- (length_map (fun c => cell c (reindex
        (chunk_columns (columns annotated)) r'')) (columns cleaned)), take_app_length.
      apply map_ext_in. intros c Hc. apply list_elem_of_In in Hc.
      rewrite reindex_cell.
      destruct (contain_row_single geometry within to_crs polygons
                  (annotate_row port_info row) Hno) as (r3 & Hr3 & _ & Hframe).
      rewrite Hr'' in Hr3. injection Hr3 as <-.
      unfold cell. rewrite Hframe.
      * rewrite annotate_row_frame; [reflexivity|].
        now apply (unreserved_not_proximity (columns cleaned)).
      * intros Hin. revert Hc. apply (unreserved_spec _ _ Hfresh).
        unfold reserved_labels. apply elem_of_app. right. exact Hin.
Qed.

End MainExtras.

Lemma written_records_start_with_the_cleaned_cells_witness :
  exists (header : list string) (records : list (list value)),
    fst (example_main Boxes.vessels ∅) = Ok (header, records) /\
    take (length (columns Boxes.vessels)) header = columns Boxes.vessels /\
    forall (i : nat) (row : gmap string value),
      rows Boxes.vessels !! i = Some row ->
      exists record : list value,
        records !! i = Some record /\
        length record = length header /\
        take (length (columns Boxes.vessels)) record
        = map (fun c => cell c row) (columns Boxes.vessels).
Proof.
  apply (written_records_start_with_the_cleaned_cells (lib := Boxes.first_found)
           Boxes.box Boxes.within Boxes.to_crs Boxes.box_eqb
           (fun _ => Ok Boxes.vessels) (Ok Boxes.ports) (Ok Boxes.harbours) Ok Ok Ok
           ∅ Boxes.vessels Boxes.ports Boxes.harbours).
  - vm_compute. reflexivity.
  - reflexivity.
  - reflexivity.
  - vm_compute. reflexivity.
  - vm_compute. reflexivity.
  - vm_compute. reflexivity.
  - vm_compute. reflexivity.
  - discriminate.
  - exact harbours_non_overlapping.
Defined.

Lemma mixed_not_sortable (vals : list value) (t u : value) :
  In t vals -> In u vals -> is_text t = true -> is_text u = false ->
  sortable vals = false.
Proof.
  intros Ht Hu Et Eu.
  assert (Htext : forallb is_text vals = false).
  { destruct (forallb is_text vals) eqn:E; [|reflexivity].
    rewrite forallb_forall in E. rewrite (E u Hu) in Eu. discriminate. }
  assert (Hscalar : forallb is_scalar vals = false).
  { destruct (forallb is_scalar vals) eqn:E; [|reflexivity].
    rewrite forallb_forall in E. specialize (E t Ht). destruct t; discriminate. }
  destruct vals as [|v [|w vals]].
  - destruct Ht.
  - destruct Ht as [<-|[]], Hu as [<-|[]]. congruence.
  - unfold sortable. now rewrite Htext, Hscalar.
Qed.

Lemma mixed_not_investigable (data : DataFrame) :
  mixed data -> investigable data = false.
Proof.
  intros (c & r & r' & Hc & Hr & Hr' & Et & Eu).
  destruct (investigable data) eqn:E; [|reflexivity].
  unfold investigable in E. rewrite forallb_forall in E.
  specialize (E c ltac:(now apply list_elem_of_In)).
  rewrite (mixed_not_sortable _ (cell c r) (cell c r')) in E; try assumption;
    [discriminate|apply in_map|apply in_map]; now apply list_elem_of_In.
Qed.



Lemma nameless_ports_mixed : mixed Boxes.nameless_ports.
Proof.
  exists "Main Port Name", (Boxes.port "Alpha" 0 1),
         (<["Main Port Name" := VNaN]> (Boxes.port "Beta" 4 4)).
  repeat split; try (vm_compute; reflexivity).
  - apply (bool_decide_unpack _). vm_compute. exact I.
  - apply elem_of_cons. now left.
  - apply elem_of_cons. right. apply elem_of_cons. now left.
Qed.

Lemma bind_read_Raise {A B} (r : nat) (f : DataFrame -> result A) (k : A -> M B)
      (h : gmap nat DataFrame) (df : DataFrame) (e : exn) :
  h !! r = Some df -> f df = Raise e -> bind (read r f) k h = (Raise e, h).
Proof. intros Hh Hf. unfold bind, read. now rewrite Hh, Hf. Qed.

Section DiagnosticsInMain.

Variable geometry : Type.
Variable within : Q * Q -> geometry -> bool.
Variable to_crs : geometry -> geometry.
Variable geometry_eqb : geometry -> geometry -> bool.
Variable load_raw_data : string -> result DataFrame.
Variable load_port_info : result DataFrame.
Variable load_port_polygons : result (list (PortPolygon geometry)).
Variable remove_NA : DataFrame -> result DataFrame.
Variable remove_invalid_lat_and_lon : DataFrame -> result DataFrame.
Variable remove_invalid_speed : DataFrame -> result DataFrame.
Context {lib : KDTree.TieBreak}.

(** X17.  When the three tables load and a column of the cleaned dataset, or
    of the port table once its repeated rows are dropped, holds text in one
    row and something else in another, [main] ends in the [TypeError] of the
    diagnostics: nothing is written, and the cleaned frame is left as the
    cleaning returned it, without a proximity column. *)
Theorem mixed_column_stops_main
        (h : gmap nat DataFrame) (cleaned ports : DataFrame)
        (polys : list (PortPolygon geometry)) :
  load_and_clean_data load_raw_data remove_NA remove_invalid_lat_and_lon
                      remove_invalid_speed "data/raw_data/raw_data.parquet" = Ok cleaned ->
  load_port_info = Ok ports ->
  load_port_polygons = Ok polys ->
  mixed cleaned \/ mixed (drop_duplicates ports) ->
  exists msg : string,
    main geometry within to_crs geometry_eqb load_raw_data load_port_info
         load_port_polygons remove_NA remove_invalid_lat_and_lon remove_invalid_speed h
    = (Raise (TypeError msg), <[fresh (dom h) := cleaned]> h).
Proof.
  intros Hclean Hports Hpolys Hmixed.
  unfold main. rewrite Hclean, Hports, Hpolys, bind_lift_Ok.
  set (r := fresh (dom h)). set (h1 := <[r := cleaned]> h).
  assert (H1 : h1 !! r = Some cleaned) by apply lookup_insert_eq.
  rewrite (bind_run (alloc cleaned) _ h h1 r) by reflexivity.
  rewrite !bind_lift_Ok.
  destruct (investigable cleaned) eqn:Ec.
  - destruct Hmixed as [Hm|Hm];
      [apply mixed_not_investigable in Hm; congruence|].
    destruct (investigate_data_runs cleaned "AIS Raw Data" Ec) as (shown & Es).
    erewrite bind_read_Ok; [|exact H1|exact Es].
    destruct (investigate_data_raises _ "Port Information" (mixed_not_investigable _ Hm))
      as (msg & Ep).
    rewrite Ep. exists msg. reflexivity.
  - destruct (investigate_data_raises cleaned "AIS Raw Data" Ec) as (msg & Es).
    exists msg. now apply bind_read_Raise with cleaned.
Qed.

End DiagnosticsInMain.

Lemma mixed_column_stops_main_witness :
  exists msg : string,
    main Boxes.box Boxes.within Boxes.to_crs Boxes.box_eqb (lib := Boxes.first_found)
         (fun _ => Ok Boxes.vessels) (Ok Boxes.nameless_ports) (Ok Boxes.harbours)
         Ok Ok Ok ∅
    = (Raise (TypeError msg), <[fresh (dom (∅ : gmap nat DataFrame)) := Boxes.vessels]> ∅).
Proof.
  apply (mixed_column_stops_main Boxes.box Boxes.within Boxes.to_crs Boxes.box_eqb
           (fun _ => Ok Boxes.vessels) (Ok Boxes.nameless_ports) (Ok Boxes.harbours)
           Ok Ok Ok (lib := Boxes.first_found) ∅ Boxes.vessels Boxes.nameless_ports
           Boxes.harbours).
  - vm_compute. reflexivity.
  - reflexivity.
  - reflexivity.
  - right.
    exists "Main Port Name", (Boxes.port "Alpha" 0 1),
           (<["Main Port Name" := VNaN]> (Boxes.port "Beta" 4 4)).
    assert (E : rows (drop_duplicates Boxes.nameless_ports) = rows Boxes.nameless_ports)
      by (vm_compute; reflexivity).
    rewrite E.
    repeat split; try (vm_compute; reflexivity).
    + apply (bool_decide_unpack _). vm_compute. exact I.
    + apply elem_of_cons. now left.
    + apply elem_of_cons. right. apply elem_of_cons. now left.
Defined.

(** ** A record out of reach *)

Lemma rmapM_Raise {A B} (f : A -> result B) (e : exn) (l : list A) :
  (forall a, In a l -> f a = Raise e \/ exists b, f a = Ok b) ->
  (exists a, In a l /\ f a = Raise e) ->
  rmapM f l = Raise e.
Proof.
  induction l as [|a l IH]; intros Hall (x & Hx & Ex); [destruct Hx|].
  cbn [rmapM]. destruct (Hall a (or_introl eq_refl)) as [Ea|(b & Ea)]; rewrite Ea;
    [reflexivity|]. cbn [rbind].
  rewrite IH; [reflexivity| |].
  - intros y Hy. apply Hall. now right.
  - destruct Hx as [<-|Hx]; [congruence|]. now exists x.
Qed.

Lemma nearest_port_out_of_reach {lib : KDTree.TieBreak}
      (port_info : DataFrame) (r : gmap string value) :
  within_reach port_info r = false ->
  nearest_port port_info r = (VInf, length (rows port_info)).
Proof.
  intros Hreach. unfold within_reach in Hreach.
  rewrite <- (existsb_map is_finite (Float64.distance _)) in Hreach.
  unfold nearest_port.
  destruct (query1_spec (KDTree.cKDTree (port_points port_info))
                        (coords_of "latitude" "longitude" r)) as [(i & _ & Hi)|[Hq _]];
    cbn [KDTree.data KDTree.cKDTree] in *.
  - apply nearest_finite in Hi. congruence.
  - rewrite Hq. f_equal. unfold KDTree.n, port_points. cbn [KDTree.data]. apply length_map.
Qed.

(** X18.  When the two tables have their coordinate columns, holding finite
    floats, and some record has no port within reach (the port table is
    empty, or every squared difference overflows), the annotator raises
    [IndexError] half-way: the distance column has been written, with [inf]
    for such a record, and no other column has. *)
Theorem record_out_of_reach_stops_the_annotator {lib : KDTree.TieBreak}
        (r : nat) (port_info df : DataFrame) (h : gmap nat DataFrame) :
  h !! r = Some df ->
  "latitude" ∈ columns df -> "longitude" ∈ columns df ->
  forallb (has_coords "latitude" "longitude") (rows df) = true ->
  "Latitude" ∈ columns port_info -> "Longitude" ∈ columns port_info ->
  "Main Port Name" ∈ columns port_info ->
  forallb (has_coords "Latitude" "Longitude") (rows port_info) = true ->
  forallb (within_reach port_info) (rows df) = false ->
  create_proximity_columns r port_info h
  = (Raise (IndexError "index out of bounds"),
     <[r := mkDF (add_label (columns df) "Distance to Nearest Port")
                 (map (fun row => <["Distance to Nearest Port" :=
                                      fst (nearest_port port_info row)]> row)
                      (rows df))]> h) /\
  exists row, row ∈ rows df /\ fst (nearest_port port_info row) = VInf.
Proof.
  intros Hh Hlat Hlon Hnum HLat HLon HName HPnum Hreach.
  assert (Hout : exists row, In row (rows df) /\ within_reach port_info row = false).
  { destruct (forallb_forall (within_reach port_info) (rows df)) as [_ Hall].
    clear -Hreach. induction (rows df) as [|x l IH]; [discriminate|].
    cbn [forallb] in Hreach. destruct (within_reach port_info x) eqn:E.
    - destruct (IH Hreach) as (row & Hrow & Hr). exists row. split; [now right | exact Hr].
    - exists x. split; [now left | exact E]. }
  split.
  - destruct df as [cols rs]. cbn [columns rows] in *.
    unfold create_proximity_columns.
    erewrite bind_read_Ok;
      [|exact Hh|unfold to_numpy2; rewrite !getitem_Ok by assumption; reflexivity].
    cbn [rows].
    unfold to_numpy2 at 1. rewrite !getitem_Ok by assumption. cbn [rbind].
    rewrite !bind_lift_Ok.
    rewrite (cKDTree_run _ HPnum), bind_lift_Ok.
    rewrite (query_run _ _ Hnum), bind_lift_Ok.
    rewrite <- (insert_id h r _ Hh), <- (map_id rs) at 1.
    rewrite step_setitem.
    rewrite (rmapM_Raise _ (IndexError "index out of bounds")); [reflexivity| |].
    + intros i Hi. apply in_map_iff in Hi as (row & <- & Hrow).
      destruct (within_reach port_info row) eqn:E.
      * right. destruct (nearest_port_spec port_info row E) as (d & p & Eq & Hp & _).
        rewrite Eq. cbn [snd]. eexists. now apply index_map_nth with (d := ∅).
      * left. rewrite (nearest_port_out_of_reach _ _ E). cbn [snd]. unfold index.
        replace (nth_error _ _) with (@None value); [reflexivity|].
        symmetry. apply nth_error_None. now rewrite length_map.
    + destruct Hout as (row & Hrow & E).
      exists (snd (nearest_port port_info row)).
      split; [apply in_map_iff; exists row; split; [reflexivity | exact Hrow]|].
      rewrite (nearest_port_out_of_reach _ _ E). cbn [snd]. unfold index.
      replace (nth_error _ _) with (@None value); [reflexivity|].
      symmetry. apply nth_error_None. now rewrite length_map.
  - destruct Hout as (row & Hrow & E). exists row. split; [now apply list_elem_of_In|].
    now rewrite (nearest_port_out_of_reach _ _ E).
Qed.

Lemma record_out_of_reach_stops_the_annotator_witness :
  let far := mkDF ["latitude"; "longitude"; "speed"]
                  [Boxes.vessel 0 0 5; Boxes.vessel (Qpower 2 600) 0 1] in
  create_proximity_columns (lib := Boxes.first_found) 0 Boxes.ports {[0%nat := far]}
  = (Raise (IndexError "index out of bounds"),
     <[0%nat := mkDF (add_label (columns far) "Distance to Nearest Port")
                 (map (fun row => <["Distance to Nearest Port" :=
                                      fst (nearest_port (lib := Boxes.first_found)
                                                        Boxes.ports row)]> row)
                      (rows far))]> {[0%nat := far]}) /\
  exists row, row ∈ rows far /\
              fst (nearest_port (lib := Boxes.first_found) Boxes.ports row) = VInf.
Proof.
  intros far.
  apply (record_out_of_reach_stops_the_annotator (lib := Boxes.first_found) 0%nat
           Boxes.ports far {[0%nat := far]}); try (vm_compute; reflexivity);
    apply (bool_decide_unpack _); vm_compute; exact I.
Defined.
